(** * Retail personalization backend: adapters over managed services

    A shallow embedding of the helper classes under
    [personalized_customer_experiences/backend]: the key-value adapter
    ([dynamodb_helper.py]), the recommendation-service adapter
    ([personalize_helper.py]), the object-store adapter ([s3_helper.py]),
    the messaging adapter ([pinpoint_helper.py]) and the [/upload] route of
    [main.py].

    Python exceptions are values of [exn]; a call that may raise returns a
    [result].  The vendor clients are external: each module states how it
    models the service it talks to. *)

From Stdlib Require Import ZArith String List Ascii Bool Lia PrimFloat Uint63.
From Stdlib Require Import Floats.
From stdpp Require Import gmap strings list pretty.

Local Open Scope string_scope.

(** ** Exceptions and results *)

(** [ClientError] carries the service's error code
    ([e.response['Error']['Code']]) and the text [str(e)] produces. *)
Inductive exn : Type :=
| ClientError (code text : string)
| Exception (msg : string)
| ValueError (msg : string)
| TypeError (msg : string)
| AttributeError (msg : string)
| HTTPException (status_code : Z) (detail : string).

(** [str(e)], as the f-strings of the handlers interpolate it. *)
Definition exn_str (e : exn) : string :=
  match e with
  | ClientError _ text => text
  | Exception msg => msg
  | ValueError msg => msg
  | TypeError msg => msg
  | AttributeError msg => msg
  | HTTPException status_code detail => pretty status_code ++ ": " ++ detail
  end.

Inductive result (A : Type) : Type :=
| Ok (a : A)
| Raise (e : exn).
Arguments Ok {A} a.
Arguments Raise {A} e.

#[global] Instance result_fmap : FMap result :=
  fun A B f r => match r with Ok a => Ok (f a) | Raise e => Raise e end.

Definition rbind {A B} (r : result A) (k : A -> result B) : result B :=
  match r with
  | Ok a => k a
  | Raise e => Raise e
  end.

Notation "'let?' x ':=' r 'in' k" := (rbind r (fun x => k))
  (at level 10, x name, r at level 100, k at level 200).

(** [try: body except ClientError as e: handler]: only a [ClientError] is
    caught, every other exception passes through. *)
Definition except_ClientError {A} (body : result A)
    (handler : string -> string -> result A) : result A :=
  match body with
  | Raise (ClientError code text) => handler code text
  | r => r
  end.

(** ASCII case conversion, for [str.lower()] and [str.upper()]. *)
Definition lower_ascii (c : ascii) : ascii :=
  let n := nat_of_ascii c in
  if (65 <=? n)%nat && (n <=? 90)%nat then ascii_of_nat (n + 32) else c.

Definition upper_ascii (c : ascii) : ascii :=
  let n := nat_of_ascii c in
  if (97 <=? n)%nat && (n <=? 122)%nat then ascii_of_nat (n - 32) else c.

Fixpoint map_string (f : ascii -> ascii) (s : string) : string :=
  match s with
  | EmptyString => EmptyString
  | String c s' => String (f c) (map_string f s')
  end.

Definition lower (s : string) : string := map_string lower_ascii s.
Definition upper (s : string) : string := map_string upper_ascii s.

(** [d[k] = v] on a dict kept as its items in order. *)
Fixpoint dict_set {V} (k : string) (v : V) (d : list (string * V))
    : list (string * V) :=
  match d with
  | [] => [(k, v)]
  | (k', v') :: d' =>
      if String.eqb k' k then (k, v) :: d' else (k', v') :: dict_set k v d'
  end.

(** [d.update(other)]. *)
Definition dict_update {V} (d other : list (string * V)) : list (string * V) :=
  fold_left (fun acc kv => dict_set (fst kv) (snd kv) acc) other d.

(** The double quote, for texts that contain it. *)
Definition dq : string := String (ascii_of_nat 34) EmptyString.

(** [s.strip(c)] for a one-character [c]. *)
Fixpoint lstrip_char (c : ascii) (s : string) : string :=
  match s with
  | String a s' => if Ascii.eqb a c then lstrip_char c s' else s
  | EmptyString => EmptyString
  end.

Fixpoint rstrip_char (c : ascii) (s : string) : string :=
  match s with
  | EmptyString => EmptyString
  | String a s' =>
      match rstrip_char c s' with
      | EmptyString => if Ascii.eqb a c then EmptyString else String a EmptyString
      | t => String a t
      end
  end.

Definition strip_char (c : ascii) (s : string) : string :=
  rstrip_char c (lstrip_char c s).

Definition strip_quotes (s : string) : string := strip_char (ascii_of_nat 34) s.

(** [s.replace(old, new, 1)]: the leftmost occurrence of [old] is replaced. *)
Fixpoint replace_first (old new s : string) : string :=
  if String.prefix old s
  then new ++ String.substring (String.length old) (String.length s - String.length old) s
  else match s with
       | EmptyString => EmptyString
       | String a s' => String a (replace_first old new s')
       end.

(** [s.endswith(suffix)]. *)
Definition endswith (s suffix : string) : bool :=
  (String.length suffix <=? String.length s)%nat &&
  String.eqb
    (String.substring (String.length s - String.length suffix) (String.length suffix) s)
    suffix.

(** ** Recommendation-service adapter ([personalize_helper.py]) *)

Module Personalize.

(** The three base names of [config.Settings] the adapter reads. *)
Record Settings : Type := {
  personalize_dataset_group_name : string;
  personalize_solution_name : string;
  personalize_campaign_name : string
}.

(** Entries of the service's list responses. *)
Record dataset_group_summary : Type := {
  dgs_name : string; dgs_datasetGroupArn : string; dgs_status : string
}.
Record dataset_summary : Type := {
  dss_name : string; dss_datasetArn : string; dss_status : string
}.
Record solution_summary : Type := {
  sos_name : string; sos_solutionArn : string; sos_status : string;
  sos_recipeArn : option string
}.
Record campaign_summary : Type := {
  cas_name : string; cas_campaignArn : string; cas_status : string;
  cas_solutionVersionArn : option string
}.

(** The vendor client at one moment: what each request the adapter issues
    would answer.  A create call answers the new ARN; a list call answers
    the entries of its page ([maxResults=100], no further page is ever
    requested); either may raise.  Role ARN and tags of the requests do
    not influence any answer the adapter inspects and are left out. *)
Record Client : Type := {
  api_create_dataset_group : string -> result string;
  api_list_dataset_groups : result (list dataset_group_summary);
  api_create_dataset :
    string (* name *) -> string (* schemaArn *) ->
    string (* datasetGroupArn *) -> string (* datasetType *) -> result string;
  api_list_datasets : string -> result (list dataset_summary);
  api_create_solution :
    string (* name *) -> string (* datasetGroupArn *) ->
    string (* recipeArn *) -> result string;
  api_list_solutions : string -> result (list solution_summary);
  api_create_campaign :
    string (* name *) -> string (* solutionVersionArn *) -> Z -> result string;
  api_list_campaigns : result (list campaign_summary)
}.

(** The dictionaries the adapter returns. *)
Record dataset_group_info : Type := {
  dataset_group_arn : string; dgi_name : string; dgi_status : string
}.
Record dataset_info : Type := {
  dataset_arn : string; dsi_name : string; dsi_type : string;
  dsi_status : string
}.
Record solution_info : Type := {
  solution_arn : string; soi_name : string; soi_status : string;
  soi_recipe_arn : string
}.
Record campaign_info : Type := {
  campaign_arn : string; cai_name : string; cai_status : string;
  cai_solution_version_arn : string
}.

Definition ALREADY_EXISTS : string := "ResourceAlreadyExistsException".

Section Adapter.
Variable settings : Settings.

Definition dataset_group_name_of (tenant_id : string) : string :=
  personalize_dataset_group_name settings ++ "-" ++ tenant_id.
Definition dataset_name_of (dataset_type tenant_id : string) : string :=
  lower dataset_type ++ "-" ++ tenant_id.
Definition solution_name_of (tenant_id : string) : string :=
  personalize_solution_name settings ++ "-" ++ tenant_id.
Definition campaign_name_of (tenant_id : string) : string :=
  personalize_campaign_name settings ++ "-" ++ tenant_id.

Definition get_dataset_group (self : Client) (tenant_id : string)
    : result dataset_group_info :=
  except_ClientError
    (let dataset_group_name := dataset_group_name_of tenant_id in
     let? response := api_list_dataset_groups self in
     match find (fun dg => String.eqb (dgs_name dg) dataset_group_name) response with
     | Some dg =>
         Ok {| dataset_group_arn := dgs_datasetGroupArn dg;
               dgi_name := dgs_name dg;
               dgi_status := dgs_status dg |}
     | None => Raise (Exception ("Dataset group not found for tenant " ++ tenant_id))
     end)
    (fun _ e => Raise (Exception ("Dataset group retrieval failed: " ++ e))).

Definition create_dataset_group (self : Client) (tenant_id : string)
    : result dataset_group_info :=
  except_ClientError
    (let dataset_group_name := dataset_group_name_of tenant_id in
     let? dataset_group_arn := api_create_dataset_group self dataset_group_name in
     Ok {| dataset_group_arn := dataset_group_arn;
           dgi_name := dataset_group_name;
           dgi_status := "CREATING" |})
    (fun code e =>
       if String.eqb code ALREADY_EXISTS then get_dataset_group self tenant_id
       else Raise (Exception ("Dataset group creation failed: " ++ e))).

Definition get_dataset (self : Client) (dataset_type tenant_id : string)
    : result dataset_info :=
  except_ClientError
    (let? dataset_group_info := get_dataset_group self tenant_id in
     let dataset_group_arn := dataset_group_arn dataset_group_info in
     let? response := api_list_datasets self dataset_group_arn in
     let dataset_name := dataset_name_of dataset_type tenant_id in
     match find (fun d => String.eqb (dss_name d) dataset_name) response with
     | Some d =>
         Ok {| dataset_arn := dss_datasetArn d;
               dsi_name := dss_name d;
               dsi_type := dataset_type;
               dsi_status := dss_status d |}
     | None =>
         Raise (Exception (dataset_type ++ " dataset not found for tenant " ++ tenant_id))
     end)
    (fun _ e => Raise (Exception ("Dataset retrieval failed: " ++ e))).

Definition create_dataset (self : Client) (dataset_type schema_arn tenant_id : string)
    : result dataset_info :=
  except_ClientError
    (let? dataset_group_info := get_dataset_group self tenant_id in
     let dataset_group_arn := dataset_group_arn dataset_group_info in
     let dataset_name := dataset_name_of dataset_type tenant_id in
     let? dataset_arn :=
       api_create_dataset self dataset_name schema_arn dataset_group_arn
         (upper dataset_type) in
     Ok {| dataset_arn := dataset_arn;
           dsi_name := dataset_name;
           dsi_type := dataset_type;
           dsi_status := "CREATING" |})
    (fun code e =>
       if String.eqb code ALREADY_EXISTS then get_dataset self dataset_type tenant_id
       else Raise (Exception ("Dataset creation failed: " ++ e))).

Definition get_solution (self : Client) (tenant_id : string)
    : result solution_info :=
  except_ClientError
    (let? dataset_group_info := get_dataset_group self tenant_id in
     let dataset_group_arn := dataset_group_arn dataset_group_info in
     let? response := api_list_solutions self dataset_group_arn in
     let solution_name := solution_name_of tenant_id in
     match find (fun s => String.eqb (sos_name s) solution_name) response with
     | Some s =>
         Ok {| solution_arn := sos_solutionArn s;
               soi_name := sos_name s;
               soi_status := sos_status s;
               soi_recipe_arn := default EmptyString (sos_recipeArn s) |}
     | None => Raise (Exception ("Solution not found for tenant " ++ tenant_id))
     end)
    (fun _ e => Raise (Exception ("Solution retrieval failed: " ++ e))).

(** [solution_config] only adds a key to the request. *)
Definition create_solution (self : Client) (recipe_arn tenant_id : string)
    : result solution_info :=
  except_ClientError
    (let? dataset_group_info := get_dataset_group self tenant_id in
     let dataset_group_arn := dataset_group_arn dataset_group_info in
     let solution_name := solution_name_of tenant_id in
     let? solution_arn :=
       api_create_solution self solution_name dataset_group_arn recipe_arn in
     Ok {| solution_arn := solution_arn;
           soi_name := solution_name;
           soi_status := "CREATING";
           soi_recipe_arn := recipe_arn |})
    (fun code e =>
       if String.eqb code ALREADY_EXISTS then get_solution self tenant_id
       else Raise (Exception ("Solution creation failed: " ++ e))).

Definition get_campaign (self : Client) (tenant_id : string)
    : result campaign_info :=
  except_ClientError
    (let? response := api_list_campaigns self in
     let campaign_name := campaign_name_of tenant_id in
     match find (fun c => String.eqb (cas_name c) campaign_name) response with
     | Some c =>
         Ok {| campaign_arn := cas_campaignArn c;
               cai_name := cas_name c;
               cai_status := cas_status c;
               cai_solution_version_arn := default EmptyString (cas_solutionVersionArn c) |}
     | None => Raise (Exception ("Campaign not found for tenant " ++ tenant_id))
     end)
    (fun _ e => Raise (Exception ("Campaign retrieval failed: " ++ e))).

Definition create_campaign (self : Client)
    (solution_version_arn tenant_id : string) (min_provisioned_tps : Z)
    : result campaign_info :=
  except_ClientError
    (let campaign_name := campaign_name_of tenant_id in
     let? campaign_arn :=
       api_create_campaign self campaign_name solution_version_arn
         min_provisioned_tps in
     Ok {| campaign_arn := campaign_arn;
           cai_name := campaign_name;
           cai_status := "CREATING";
           cai_solution_version_arn := solution_version_arn |})
    (fun code e =>
       if String.eqb code ALREADY_EXISTS then get_campaign self tenant_id
       else Raise (Exception ("Campaign creation failed: " ++ e))).

(** *** [get_training_status] *)

(** [status_info["components"]], keys in insertion order. *)
Record components : Type := {
  dataset_group : string; solution : string; campaign : string
}.

Record status_info : Type := {
  si_tenant_id : string;
  overall_status : string;
  si_components : option components;
  si_error : option string
}.

(** [try: info = lookup(); c = info["status"] except: c = "NOT_FOUND"]. *)
Definition component_status {A} (lookup : result A) (status : A -> string) : string :=
  match lookup with
  | Ok info => status info
  | Raise _ => "NOT_FOUND"
  end.

Definition py_in (x : string) (l : list string) : bool :=
  existsb (String.eqb x) l.

Definition determine_overall_status (component_statuses : list string) : string :=
  if py_in "CREATING" component_statuses || py_in "CREATE_IN_PROGRESS" component_statuses
  then "TRAINING"
  else if forallb (fun status => String.eqb status "ACTIVE") component_statuses
  then "READY"
  else if py_in "CREATE_FAILED" component_statuses || py_in "FAILED" component_statuses
  then "FAILED"
  else "INCOMPLETE".

Definition get_training_status (self : Client) (tenant_id : string) : status_info :=
  let body : result status_info :=
    let c_dataset_group := component_status (get_dataset_group self tenant_id) dgi_status in
    let c_solution := component_status (get_solution self tenant_id) soi_status in
    let c_campaign := component_status (get_campaign self tenant_id) cai_status in
    let component_statuses := [c_dataset_group; c_solution; c_campaign] in
    Ok {| si_tenant_id := tenant_id;
          overall_status := determine_overall_status component_statuses;
          si_components :=
            Some {| dataset_group := c_dataset_group;
                    solution := c_solution;
                    campaign := c_campaign |};
          si_error := None |} in
  match body with
  | Ok info => info
  | Raise e =>
      {| si_tenant_id := tenant_id;
         overall_status := "ERROR";
         si_components := None;
         si_error := Some (exn_str e) |}
  end.

End Adapter.
End Personalize.

(** ** Key-value adapter ([dynamodb_helper.py]) *)

Module DynamoDB.

(** Python's [int / int] for counts a [float] holds exactly (below 2^53):
    both operands convert without rounding and the quotient is rounded
    once. *)
Definition float_of_int (n : Z) : float := PrimFloat.of_uint63 (Uint63.of_Z n).
Definition truediv (a b : Z) : float := (float_of_int a / float_of_int b)%float.

(** [datetime.utcnow()], a naive datetime, by what the adapter reads of
    it: the whole seconds of [.timestamp()], the text of [.isoformat()]
    and, for a number of seconds, the whole seconds of
    [(self + timedelta(seconds=seconds)).timestamp()].  [.timestamp()]
    reads a naive datetime in the time zone of the process, so the last is
    [timestamp + seconds] only where that zone has no change of clock in
    between. *)
Record datetime : Type := {
  timestamp : Z;
  isoformat : string;
  timestamp_after : Z -> Z
}.

(** [timedelta(hours=h)] and [timedelta(days=d)], in seconds. *)
Definition hours (h : Z) : Z := (3600 * h)%Z.
Definition days (d : Z) : Z := (86400 * d)%Z.

(** The primary key of a row: partition key and sort key. *)
Abbreviation key := (string * string)%type.

Section Adapter.

(** The store's fixed-point numbers.  [Decimal_of_float x] stands for
    [Decimal(str(x))] and [float_of_Decimal d] for [float(d)]; both belong
    to the language runtime, and [PyDecimal] below gives them as the
    runtime computes them. *)
Context {Decimal : Type}.
Variable Decimal_of_float : float -> Decimal.
Variable float_of_Decimal : Decimal -> float.

(** Values crossing the boundary; a [dict] keeps its items in order. *)
#[local] Set Warnings "-register-all".
Inductive value : Type :=
| VFloat (x : float)
| VDecimal (d : Decimal)
| VStr (s : string)
| VInt (n : Z)
| VBool (b : bool)
| VNone
| VDict (items : list (string * value))
| VList (elems : list value).

Fixpoint _convert_floats_to_decimal (obj : value) : value :=
  match obj with
  | VFloat x => VDecimal (Decimal_of_float x)
  | VDict items =>
      VDict ((fix go (l : list (string * value)) : list (string * value) :=
                match l with
                | [] => []
                | (k, v) :: l' => (k, _convert_floats_to_decimal v) :: go l'
                end) items)
  | VList elems => VList (List.map _convert_floats_to_decimal elems)
  | _ => obj
  end.

Fixpoint _convert_decimals_to_float (obj : value) : value :=
  match obj with
  | VDecimal d => VFloat (float_of_Decimal d)
  | VDict items =>
      VDict ((fix go (l : list (string * value)) : list (string * value) :=
                match l with
                | [] => []
                | (k, v) :: l' => (k, _convert_decimals_to_float v) :: go l'
                end) items)
  | VList elems => VList (List.map _convert_decimals_to_float elems)
  | _ => obj
  end.

(** A list or a dict taken back out of a value; the arguments below are
    typed [List[...]] and [Dict[...]] in the source. *)
Definition list_elems (obj : value) : list value :=
  match obj with
  | VList elems => elems
  | _ => []
  end.

Definition dict_items (obj : value) : list (string * value) :=
  match obj with
  | VDict items => items
  | _ => []
  end.

(** *** Rows of the three tables *)

Record recommendation_item : Type := {
  ri_tenant_id : string;
  ri_user_id : string;
  ri_recommendations : list value;
  ri_cached_at : string;
  ri_ttl : option Z
}.

Record profile_item : Type := {
  pi_tenant_id : string;
  pi_user_id : string;
  pi_profile_data : option value;
  pi_created_at : option string;
  pi_updated_at : option string
}.

Record event_item : Type := {
  ei_tenant_id : string;
  ei_event_id : string;
  ei_campaign_id : string;
  ei_user_id : string;
  ei_event_type : string;
  ei_event_data : option value;
  ei_timestamp : string;
  ei_ttl : Z
}.

(** [FilterExpression] over the [timestamp] attribute. *)
Inductive filter_expression : Type :=
| Attr_timestamp_gte (s : string)
| Attr_timestamp_lte (s : string)
| FAnd (f g : filter_expression).

(** *** Requests to the store

    One constructor per request the adapter issues, indexed by the type of
    the part of the response the adapter reads. *)
Inductive request : Type -> Type :=
| recommendations_get_item (k : key) : request (option recommendation_item)
| recommendations_put_item (it : recommendation_item) : request unit
| recommendations_delete_item (k : key) : request unit
| recommendations_query_expired (tenant_id : string) (now : Z)
    : request (list recommendation_item)
| user_profiles_get_item (k : key) : request (option profile_item)
| user_profiles_put_item (it : profile_item) : request unit
| user_profiles_update_item (k : key) (update_expression : string)
    (expression_attribute_values : list (string * value)) : request unit
| user_profiles_query (tenant_id : string) (limit : Z) : request (list profile_item)
| campaign_tracking_put_item (it : event_item) : request unit
| campaign_tracking_query_campaign (tenant_id campaign_id : string)
    (filter : option filter_expression) : request (list event_item)
| campaign_tracking_query_user (tenant_id user_id : string) (limit : Z)
    : request (list event_item)
| campaign_tracking_query_expired (tenant_id : string) (now : Z) : request Z.

(** An operation of the adapter: it returns, raises, issues a request and
    goes on with the answer (a response or an exception), or reads the
    clock. *)
Inductive prog (A : Type) : Type :=
| Ret (a : A)
| Throw (e : exn)
| Req {X : Type} (r : request X) (k : result X -> prog A)
| UtcNow (k : datetime -> prog A).
#[local] Arguments Ret {A} a.
#[local] Arguments Throw {A} e.
#[local] Arguments Req {A X} r k.
#[local] Arguments UtcNow {A} k.

(** The [except ClientError as e] clause around a request: a response goes
    on with [k], a [ClientError] is handled, any other exception leaves
    the operation. *)
Definition call {A X} (r : request X) (handler : string -> string -> prog A)
    (k : X -> prog A) : prog A :=
  Req r (fun answer =>
    match answer with
    | Ok x => k x
    | Raise (ClientError code text) => handler code text
    | Raise e => Throw e
    end).

(** *** Recommendations cache *)

Definition cache_recommendations (tenant_id user_id : string)
    (recommendations : list value) (ttl_hours : Z) : prog bool :=
  let handler := fun (_ e : string) =>
    Throw (Exception ("Recommendations caching failed: " ++ e)) in
  UtcNow (fun now1 =>
  let ttl_timestamp := timestamp_after now1 (hours ttl_hours) in
  let recommendations_decimal :=
    list_elems (_convert_floats_to_decimal (VList recommendations)) in
  UtcNow (fun now2 =>
  let item := {| ri_tenant_id := tenant_id;
                 ri_user_id := user_id;
                 ri_recommendations := recommendations_decimal;
                 ri_cached_at := isoformat now2;
                 ri_ttl := Some ttl_timestamp |} in
  call (recommendations_put_item item) handler (fun _ =>
  Ret true))).

Definition get_cached_recommendations (tenant_id user_id : string)
    : prog (option (list value)) :=
  let handler := fun (_ _ : string) => Ret None in
  call (recommendations_get_item (tenant_id, user_id)) handler (fun response =>
  match response with
  | None => Ret None
  | Some item =>
      UtcNow (fun now =>
      let current_timestamp := timestamp now in
      if (default 0%Z (ri_ttl item) <? current_timestamp)%Z then
        call (recommendations_delete_item (tenant_id, user_id)) handler (fun _ =>
        Ret None)
      else
        let recommendations :=
          list_elems (_convert_decimals_to_float (VList (ri_recommendations item))) in
        Ret (Some recommendations))
  end).

Definition invalidate_recommendations_cache (tenant_id user_id : string)
    : prog bool :=
  call (recommendations_delete_item (tenant_id, user_id))
    (fun _ _ => Ret false)
    (fun _ => Ret true).

(** *** User profiles *)

Definition create_user_profile (tenant_id user_id : string)
    (profile_data : value) : prog bool :=
  let handler := fun (_ e : string) =>
    Throw (Exception ("User profile creation failed: " ++ e)) in
  let profile_data_decimal := _convert_floats_to_decimal profile_data in
  UtcNow (fun now1 =>
  UtcNow (fun now2 =>
  let item := {| pi_tenant_id := tenant_id;
                 pi_user_id := user_id;
                 pi_profile_data := Some profile_data_decimal;
                 pi_created_at := Some (isoformat now1);
                 pi_updated_at := Some (isoformat now2) |} in
  call (user_profiles_put_item item) handler (fun _ =>
  Ret true))).

Record user_profile : Type := {
  up_user_id : string;
  up_profile_data : value;
  up_created_at : option string;
  up_updated_at : option string
}.

Definition get_user_profile (tenant_id user_id : string)
    : prog (option user_profile) :=
  call (user_profiles_get_item (tenant_id, user_id))
    (fun _ _ => Ret None)
    (fun response =>
       match response with
       | None => Ret None
       | Some item =>
           let profile_data :=
             _convert_decimals_to_float (default (VDict []) (pi_profile_data item)) in
           Ret (Some {| up_user_id := pi_user_id item;
                        up_profile_data := profile_data;
                        up_created_at := pi_created_at item;
                        up_updated_at := pi_updated_at item |})
       end).

Definition update_user_profile (tenant_id user_id : string)
    (updates : list (string * value)) : prog bool :=
  let updates_decimal := _convert_floats_to_decimal (VDict updates) in
  UtcNow (fun now =>
  let update_expression := "SET updated_at = :updated_at" in
  let expression_attribute_values := [(":updated_at", VStr (isoformat now))] in
  let '(update_expression, expression_attribute_values) :=
    fold_left
      (fun acc kv =>
         (fst acc ++ ", profile_data." ++ fst kv ++ " = :" ++ fst kv,
          dict_set (":" ++ fst kv) (snd kv) (snd acc)))
      (dict_items updates_decimal)
      (update_expression, expression_attribute_values) in
  call (user_profiles_update_item (tenant_id, user_id) update_expression
          expression_attribute_values)
    (fun _ _ => Ret false)
    (fun _ => Ret true)).

Record profile_summary : Type := {
  ps_user_id : string;
  ps_created_at : option string;
  ps_updated_at : option string
}.

Definition list_user_profiles (tenant_id : string) (limit : Z)
    : prog (list profile_summary) :=
  call (user_profiles_query tenant_id limit)
    (fun _ _ => Ret [])
    (fun items =>
       Ret (List.map
              (fun item => {| ps_user_id := pi_user_id item;
                              ps_created_at := pi_created_at item;
                              ps_updated_at := pi_updated_at item |})
              items)).

(** *** Campaign tracking *)

Definition track_campaign_event (tenant_id campaign_id user_id event_type : string)
    (event_data : value) : prog bool :=
  let event_data_decimal := _convert_floats_to_decimal event_data in
  UtcNow (fun now1 =>
  let event_id := campaign_id ++ "#" ++ user_id ++ "#" ++ pretty (timestamp now1) in
  UtcNow (fun now2 =>
  UtcNow (fun now3 =>
  let item := {| ei_tenant_id := tenant_id;
                 ei_event_id := event_id;
                 ei_campaign_id := campaign_id;
                 ei_user_id := user_id;
                 ei_event_type := event_type;
                 ei_event_data := Some event_data_decimal;
                 ei_timestamp := isoformat now2;
                 ei_ttl := timestamp_after now3 (days 90) |} in
  call (campaign_tracking_put_item item)
    (fun _ _ => Ret false)
    (fun _ => Ret true)))).

(** The [metrics] dictionary while the loop runs. *)
Record metrics_acc : Type := {
  acc_total_events : Z;
  acc_unique_users : gset string;
  acc_events_by_type : gmap string Z
}.

(** The dictionary [get_campaign_metrics] returns. *)
Record metrics : Type := {
  m_campaign_id : string;
  total_events : Z;
  unique_users : Z;
  events_by_type : gmap string Z;
  conversion_rate : float;
  click_through_rate : float
}.

Inductive metrics_response : Type :=
| Metrics (m : metrics)
| MetricsError (campaign_id error : string).

(** One turn of [for item in response.get('Items', [])]. *)
Definition count_event (acc : metrics_acc) (item : event_item) : metrics_acc :=
  let event_type := ei_event_type item in
  let user_id := ei_user_id item in
  let by_type :=
    match acc_events_by_type acc !! event_type with
    | None => <[event_type := 0%Z]> (acc_events_by_type acc)
    | Some _ => acc_events_by_type acc
    end in
  {| acc_total_events := (acc_total_events acc + 1)%Z;
     acc_unique_users := acc_unique_users acc ∪ {[user_id]};
     acc_events_by_type :=
       <[event_type := (default 0%Z (by_type !! event_type) + 1)%Z]> by_type |}.

Definition calculate_metrics (campaign_id : string) (items : list event_item)
    : metrics :=
  let acc :=
    fold_left count_event items
      {| acc_total_events := 0; acc_unique_users := ∅; acc_events_by_type := ∅ |} in
  let sent_count := default 0%Z (acc_events_by_type acc !! "sent") in
  let clicked_count := default 0%Z (acc_events_by_type acc !! "clicked") in
  let converted_count := default 0%Z (acc_events_by_type acc !! "converted") in
  let sent := (0 <? sent_count)%Z in
  {| m_campaign_id := campaign_id;
     total_events := acc_total_events acc;
     unique_users := Z.of_nat (size (acc_unique_users acc));
     events_by_type := acc_events_by_type acc;
     conversion_rate :=
       if sent then (truediv converted_count sent_count * 100)%float else 0%float;
     click_through_rate :=
       if sent then (truediv clicked_count sent_count * 100)%float else 0%float |}.

Definition campaign_filter (start_date end_date : option datetime)
    : option filter_expression :=
  match start_date, end_date with
  | None, None => None
  | Some s, None => Some (Attr_timestamp_gte (isoformat s))
  | None, Some e => Some (Attr_timestamp_lte (isoformat e))
  | Some s, Some e =>
      Some (FAnd (Attr_timestamp_gte (isoformat s)) (Attr_timestamp_lte (isoformat e)))
  end.

Definition get_campaign_metrics (tenant_id campaign_id : string)
    (start_date end_date : option datetime) : prog metrics_response :=
  call (campaign_tracking_query_campaign tenant_id campaign_id
          (campaign_filter start_date end_date))
    (fun _ e => Ret (MetricsError campaign_id e))
    (fun items => Ret (Metrics (calculate_metrics campaign_id items))).

Record campaign_event : Type := {
  ce_event_id : string;
  ce_campaign_id : string;
  ce_event_type : string;
  ce_event_data : value;
  ce_timestamp : string
}.

Definition get_user_campaign_history (tenant_id user_id : string) (limit : Z)
    : prog (list campaign_event) :=
  call (campaign_tracking_query_user tenant_id user_id limit)
    (fun _ _ => Ret [])
    (fun items =>
       Ret (List.map
              (fun item =>
                 {| ce_event_id := ei_event_id item;
                    ce_campaign_id := ei_campaign_id item;
                    ce_event_type := ei_event_type item;
                    ce_event_data :=
                      _convert_decimals_to_float
                        (default (VDict []) (ei_event_data item));
                    ce_timestamp := ei_timestamp item |})
              items)).

(** *** Utility operations *)

Inductive cleanup_response : Type :=
| CleanupCounts (recommendations campaigns : Z)
| CleanupError (error : string).

(** The loop deleting the expired recommendation rows, counting them. *)
Fixpoint delete_expired {A} (handler : string -> string -> prog A)
    (items : list recommendation_item) (count : Z) (k : Z -> prog A) : prog A :=
  match items with
  | [] => k count
  | item :: rest =>
      call (recommendations_delete_item (ri_tenant_id item, ri_user_id item))
        handler
        (fun _ => delete_expired handler rest (count + 1)%Z k)
  end.

Definition cleanup_expired_items (tenant_id : string) : prog cleanup_response :=
  let handler := fun (_ e : string) => Ret (CleanupError e) in
  UtcNow (fun now =>
  let current_timestamp := timestamp now in
  call (recommendations_query_expired tenant_id current_timestamp) handler
    (fun items =>
  delete_expired handler items 0%Z (fun recommendations =>
  call (campaign_tracking_query_expired tenant_id current_timestamp) handler
    (fun campaigns =>
  Ret (CleanupCounts recommendations campaigns))))).

(** *** The recommendations table in memory

    A store holding the recommendations table only: a finite map from
    (tenant_id, user_id) to the row.  Requests to a table it does not hold
    are answered as the service answers for a missing table.  [serve] and
    [run] are the table while it accepts every item it is asked to put;
    [serve_with] and [run_with] below take the table's verdict on an item
    as a parameter. *)

Definition table_missing {X} : result X :=
  Raise (ClientError "ResourceNotFoundException"
           "Requested resource not found").

Definition expired_for (tenant_id : string) (now : Z)
    (item : recommendation_item) : bool :=
  String.eqb (ri_tenant_id item) tenant_id &&
  match ri_ttl item with
  | Some ttl => (ttl <? now)%Z
  | None => false
  end.

Definition serve {X} (r : request X) (table : gmap key recommendation_item)
    : result X * gmap key recommendation_item :=
  match r in request X return result X * gmap key recommendation_item with
  | recommendations_get_item k => (Ok (table !! k), table)
  | recommendations_put_item it =>
      (Ok tt, <[(ri_tenant_id it, ri_user_id it) := it]> table)
  | recommendations_delete_item k => (Ok tt, delete k table)
  | recommendations_query_expired tenant_id now =>
      (Ok (List.filter (expired_for tenant_id now) (map_to_list table).*2), table)
  | _ => (table_missing, table)
  end.

(** Running an operation at clock reading [now]. *)
Fixpoint run {A} (now : datetime) (p : prog A)
    (table : gmap key recommendation_item)
    : result A * gmap key recommendation_item :=
  match p with
  | Ret a => (Ok a, table)
  | Throw e => (Raise e, table)
  | Req r k => let '(answer, table') := serve r table in run now (k answer) table'
  | UtcNow k => run now (k now) table
  end.

(** *** The table with its checks

    The table resource writes an item out before it sends it, and raises
    without sending for a number it cannot write: an infinity, a NaN, a
    number outside the store's range or precision.  The service can refuse
    an item too.  [put_item it] is that verdict on an item: [Ok], or the
    exception raised instead.  A refused item is not stored. *)
Definition serve_with (put_item : recommendation_item -> result unit) {X}
    (r : request X) (table : gmap key recommendation_item)
    : result X * gmap key recommendation_item :=
  match r in request X return result X * gmap key recommendation_item with
  | recommendations_get_item k => (Ok (table !! k), table)
  | recommendations_put_item it =>
      match put_item it with
      | Ok _ => (Ok tt, <[(ri_tenant_id it, ri_user_id it) := it]> table)
      | Raise e => (Raise e, table)
      end
  | recommendations_delete_item k => (Ok tt, delete k table)
  | recommendations_query_expired tenant_id now =>
      (Ok (List.filter (expired_for tenant_id now) (map_to_list table).*2), table)
  | _ => (table_missing, table)
  end.

Fixpoint run_with (put_item : recommendation_item -> result unit) {A}
    (now : datetime) (p : prog A) (table : gmap key recommendation_item)
    : result A * gmap key recommendation_item :=
  match p with
  | Ret a => (Ok a, table)
  | Throw e => (Raise e, table)
  | Req r k =>
      let '(answer, table') := serve_with put_item r table in
      run_with put_item now (k answer) table'
  | UtcNow k => run_with put_item now (k now) table
  end.

End Adapter.

Arguments value Decimal : clear implicits.
Arguments recommendation_item Decimal : clear implicits.
Arguments profile_item Decimal : clear implicits.
Arguments event_item Decimal : clear implicits.
Arguments user_profile Decimal : clear implicits.
Arguments campaign_event Decimal : clear implicits.
Arguments request Decimal : clear implicits.
Arguments prog Decimal : clear implicits.
Arguments Ret {Decimal A} a.
Arguments Throw {Decimal A} e.
Arguments Req {Decimal A X} r k.
Arguments UtcNow {Decimal A} k.

End DynamoDB.

(** ** Messaging adapter ([pinpoint_helper.py]) *)

Module Pinpoint.

(** A recommendation as the message builder reads it: the four keys it
    looks up, each possibly absent. *)
Record recommendation : Type := {
  title : option string;
  score : option float;
  description : option string;
  url : option string
}.

Inductive message_configuration : Type :=
| EmailMessage (FromAddress HtmlBody Subject : string)
| SMSMessage (Body MessageType : string).

(** The [send_messages] request. *)
Record message_request : Type := {
  ApplicationId : string;
  MessageConfiguration : message_configuration;
  Users : list string
}.

Record send_info : Type := {
  message_id : string;
  si_user_id : string;
  si_tenant_id : string;
  si_channel : string;
  recommendations_count : Z;
  si_status : string
}.

Section Adapter.
Variable application_id : string.
Variable from_address : string.
(** [format(x, '.2f')], of the language runtime. *)
Variable format_2f : float -> string.
(** The vendor client: the answer ([RequestId]) to a [send_messages] request. *)
Variable send_messages : message_request -> result string.

Definition html_header : string :=
  "
                <html>
                <body>
                    <h2>Hi there!</h2>
                    <p>We've found some great products you might like:</p>
                    <div style=" ++ dq ++ "display: flex; flex-wrap: wrap;" ++ dq ++ ">
                ".

Definition html_item (rec : recommendation) : string :=
  "
                        <div style=" ++ dq ++ "margin: 10px; padding: 15px; border: 1px solid #ddd; border-radius: 5px;" ++ dq ++ ">
                            <h4>"
  ++ default "Recommended Item" (title rec)
  ++ "</h4>
                            <p>Score: "
  ++ format_2f (default 0%float (score rec))
  ++ "</p>
                            <p>"
  ++ default "Great product for you!" (description rec)
  ++ "</p>
                            <a href=" ++ dq
  ++ default "#" (url rec)
  ++ dq ++ " style=" ++ dq ++ "background: #007bff; color: white; padding: 8px 16px; text-decoration: none; border-radius: 3px;" ++ dq ++ ">View Product</a>
                        </div>
                    ".

Definition html_footer : string :=
  "
                    </div>
                    <p>Happy shopping!</p>
                </body>
                </html>
                ".

(** [recommendations[:5]]. *)
Definition top5 (recommendations : list recommendation) : list recommendation :=
  firstn 5 recommendations.

Definition email_html (recommendations : list recommendation) : string :=
  fold_left (fun html_content rec => html_content ++ html_item rec)
    (top5 recommendations) html_header
  ++ html_footer.

Definition sms_text (recommendations : list recommendation) : string :=
  let message_text :=
    "Hi! We found " ++ pretty (Z.of_nat (length recommendations))
    ++ " great products for you. " in
  match recommendations with
  | [] => message_text
  | first :: _ =>
      message_text ++ "Check out: " ++ default "our top pick" (title first) ++ "!"
  end.

(** Content for a channel, or the [ValueError] of the final [else]. *)
Definition build_message_config (recommendations : list recommendation)
    (channel : string) : result message_configuration :=
  if String.eqb channel "email" then
    let subject := "Personalized Recommendations Just for You!" in
    Ok (EmailMessage from_address (email_html recommendations) subject)
  else if String.eqb channel "sms" then
    Ok (SMSMessage (sms_text recommendations) "PROMOTIONAL")
  else Raise (ValueError ("Unsupported channel: " ++ channel)).

(** The operation returns the requests it issued, in order, and its
    outcome. *)
Definition send_personalized_recommendations (tenant_id user_id : string)
    (recommendations : list recommendation) (channel template_name : string)
    : list message_request * result send_info :=
  match build_message_config recommendations channel with
  | Raise e => ([], Raise e)
  | Ok message_config =>
      let request := {| ApplicationId := application_id;
                        MessageConfiguration := message_config;
                        Users := [user_id] |} in
      ([request],
       except_ClientError
         (let? message_id := send_messages request in
          Ok {| message_id := message_id;
                si_user_id := user_id;
                si_tenant_id := tenant_id;
                si_channel := channel;
                recommendations_count := Z.of_nat (length recommendations);
                si_status := "SENT" |})
         (fun _ e => Raise (Exception ("Personalized message failed: " ++ e))))
  end.

End Adapter.
End Pinpoint.

(** ** Object-store adapter ([s3_helper.py]) *)

Module S3.

Record s3_object : Type := {
  Body : string;
  ContentType : string;
  Metadata : list (string * string);
  ServerSideEncryption : string;
  ETag : string;
  LastModified : string;
  StorageClass : option string
}.

(** The bucket in memory: a finite map from key to object.  [failing]
    makes every request raise; [utcnow] is the clock's [isoformat()]. *)
Record service : Type := {
  objects : gmap string s3_object;
  failing : option exn;
  utcnow : string
}.

Record put_object_output : Type := {
  po_ETag : option string;
  po_VersionId : option string
}.

(** An entry of [Contents] in a listing. *)
Record content : Type := {
  Key : string;
  Size : Z;
  c_LastModified : string;
  c_ETag : string;
  c_StorageClass : option string
}.

Inductive file_content : Type :=
| of_str (text : string)
| of_bytes (data : string)
| of_stream (data : string).

(** What [upload_file] returns. *)
Record upload_info : Type := {
  bucket : string;
  key : string;
  etag : string;
  version_id : option string;
  size : Z;
  url : string
}.

(** An entry of what [list_files] returns. *)
Record file_info : Type := {
  fi_key : string;
  fi_size : Z;
  fi_last_modified : string;
  fi_etag : string;
  fi_storage_class : string
}.

Section Adapter.
Variable bucket_name : string.
(** The entity tag the service computes for a body, quotes included. *)
Variable entity_tag : string -> string.

Definition put_object (Bucket Key Body ContentType : string)
    (Metadata : list (string * string)) (ServerSideEncryption : string)
    (s : service) : result put_object_output * service :=
  match failing s with
  | Some e => (Raise e, s)
  | None =>
      let obj := {| Body := Body;
                    ContentType := ContentType;
                    Metadata := Metadata;
                    ServerSideEncryption := ServerSideEncryption;
                    ETag := entity_tag Body;
                    LastModified := utcnow s;
                    StorageClass := None |} in
      (Ok {| po_ETag := Some (entity_tag Body); po_VersionId := None |},
       {| objects := <[Key := obj]> (objects s);
          failing := failing s;
          utcnow := utcnow s |})
  end.

(** One page of at most [MaxKeys] objects whose key starts with [Prefix]. *)
Definition list_objects_v2 (Bucket Prefix : string) (MaxKeys : Z) (s : service)
    : result (list content) * service :=
  match failing s with
  | Some e => (Raise e, s)
  | None =>
      (Ok (List.map
             (fun kv => {| Key := fst kv;
                           Size := Z.of_nat (String.length (Body (snd kv)));
                           c_LastModified := LastModified (snd kv);
                           c_ETag := ETag (snd kv);
                           c_StorageClass := StorageClass (snd kv) |})
             (firstn (Z.to_nat MaxKeys)
                (List.filter (fun kv => String.prefix Prefix (fst kv))
                   (map_to_list (objects s))))),
       s)
  end.

Definition upload_file (file_content : file_content) (key tenant_id : string)
    (content_type : string) (metadata : option (list (string * string)))
    (s : service) : result upload_info * service :=
  let full_key := tenant_id ++ "/" ++ key in
  let upload_metadata := [("tenant_id", tenant_id);
                          ("uploaded_at", utcnow s);
                          ("content_type", content_type)] in
  let upload_metadata :=
    match metadata with
    | Some ((_ :: _) as metadata) => dict_update upload_metadata metadata
    | _ => upload_metadata
    end in
  let body :=
    match file_content with
    | of_str text => text
    | of_bytes data => data
    | of_stream data => data
    end in
  match put_object bucket_name full_key body content_type upload_metadata "AES256" s with
  | (Ok response, s') =>
      (Ok {| bucket := bucket_name;
             key := full_key;
             etag := strip_quotes (default EmptyString (po_ETag response));
             version_id := po_VersionId response;
             size := Z.of_nat (String.length body);
             url := "s3://" ++ bucket_name ++ "/" ++ full_key |},
       s')
  | (Raise (ClientError _ e), s') => (Raise (Exception ("S3 upload failed: " ++ e)), s')
  | (Raise e, s') => (Raise e, s')
  end.

Definition list_files (prefix tenant_id : string) (max_keys : Z) (s : service)
    : result (list file_info) * service :=
  let full_prefix := tenant_id ++ "/" ++ prefix in
  match list_objects_v2 bucket_name full_prefix max_keys s with
  | (Ok response, s') =>
      (Ok (List.map
             (fun obj =>
                let clean_key := replace_first (tenant_id ++ "/") EmptyString (Key obj) in
                {| fi_key := clean_key;
                   fi_size := Size obj;
                   fi_last_modified := c_LastModified obj;
                   fi_etag := strip_quotes (c_ETag obj);
                   fi_storage_class := default "STANDARD" (c_StorageClass obj) |})
             response),
       s')
  | (Raise (ClientError _ e), s') => (Raise (Exception ("S3 list failed: " ++ e)), s')
  | (Raise e, s') => (Raise e, s')
  end.

End Adapter.

(** The parameters of [upload_file] after [self], with whether each has a
    default: a call must bind every one that has none. *)
Definition upload_file_parameters : list (string * bool) :=
  [("file_content", false); ("key", false); ("tenant_id", false);
   ("content_type", true); ("metadata", true)].

End S3.

(** ** The [/upload] route ([main.py]) *)

Module Main.

Record UploadFile : Type := { filename : string; file : string }.

(** A positional argument of a call. *)
Inductive argument : Type :=
| arg_file (f : UploadFile)
| arg_str (s : string).

(** The required parameters a call with [n] positional arguments leaves
    unbound. *)
Definition missing_required (parameters : list (string * bool)) (n : nat)
    : list string :=
  List.map fst (List.filter (fun p => negb (snd p)) (skipn n parameters)).

Fixpoint join_names (names : list string) : string :=
  match names with
  | [] => EmptyString
  | [x] => "'" ++ x ++ "'"
  | x :: rest => "'" ++ x ++ "', " ++ join_names rest
  end.

Record upload_response : Type := {
  message : string;
  s3_url : S3.upload_info;
  r_dataset_type : string;
  r_tenant_id : string;
  r_filename : string
}.

Section Routes.
Variable bucket_name : string.
Variable entity_tag : string -> string.

(** A call [s3_helper.upload_file(...)]: the interpreter binds the positional
    arguments to the parameters of [S3.upload_file] and raises [TypeError]
    when a required one stays unbound. *)
Definition call_upload_file (args : list argument) (s : S3.service)
    : result S3.upload_info * S3.service :=
  match missing_required S3.upload_file_parameters (length args) with
  | (_ :: _) as missing =>
      (Raise (TypeError
                ("upload_file() missing "
                 ++ pretty (Z.of_nat (length missing))
                 ++ " required positional argument"
                 ++ (if (length missing =? 1)%nat then ": " else "s: ")
                 ++ join_names missing)),
       s)
  | [] =>
      match args with
      | [arg_file f; arg_str key; arg_str tenant_id] =>
          S3.upload_file bucket_name entity_tag (S3.of_stream (file f)) key tenant_id
            "application/octet-stream" None s
      | [arg_str text; arg_str key; arg_str tenant_id] =>
          S3.upload_file bucket_name entity_tag (S3.of_str text) key tenant_id
            "application/octet-stream" None s
      | [arg_file f; arg_str key; arg_str tenant_id; arg_str content_type] =>
          S3.upload_file bucket_name entity_tag (S3.of_stream (file f)) key tenant_id
            content_type None s
      | [arg_str text; arg_str key; arg_str tenant_id; arg_str content_type] =>
          S3.upload_file bucket_name entity_tag (S3.of_str text) key tenant_id
            content_type None s
      | _ => (Raise (TypeError "upload_file() got an unusable argument"), s)
      end
  end.

(** [POST /upload], after the two header dependencies supplied [tenant_id]. *)
Definition upload_dataset (file : UploadFile) (dataset_type tenant_id : string)
    (s : S3.service) : result upload_response * S3.service :=
  let body : result upload_response * S3.service :=
    if negb (endswith (filename file) ".csv") then
      (Raise (HTTPException 400 "Only CSV files are supported"), s)
    else
      let s3_key := "datasets/" ++ tenant_id ++ "/" ++ dataset_type ++ "/" ++ filename file in
      match call_upload_file [arg_file file; arg_str s3_key] s with
      | (Ok s3_url, s') =>
          (Ok {| message := "Dataset uploaded successfully";
                 s3_url := s3_url;
                 r_dataset_type := dataset_type;
                 r_tenant_id := tenant_id;
                 r_filename := filename file |},
           s')
      | (Raise e, s') => (Raise e, s')
      end in
  match body with
  | (Raise e, s') => (Raise (HTTPException 500 ("Upload failed: " ++ exn_str e)), s')
  | ok => ok
  end.

End Routes.
End Main.

(** * Specification vocabulary *)

Module Vocabulary.

(** ** Status aggregation, in the words of the specification *)

Definition creating (status : string) : Prop :=
  status = "CREATING" \/ status = "CREATE_IN_PROGRESS".

Definition failed (status : string) : Prop :=
  status = "FAILED" \/ status = "CREATE_FAILED".

Definition active (status : string) : Prop := status = "ACTIVE".

#[export] Instance creating_dec status : Decision (creating status).
Proof. unfold creating. apply _. Defined.

#[export] Instance failed_dec status : Decision (failed status).
Proof. unfold failed. apply _. Defined.

#[export] Instance active_dec status : Decision (active status).
Proof. unfold active. apply _. Defined.

(** Any creating, else all active, else any failed, else incomplete. *)
Definition ordered_precedence (statuses : list string) : string :=
  if decide (Exists creating statuses) then "TRAINING"
  else if decide (Forall active statuses) then "READY"
  else if decide (Exists failed statuses) then "FAILED"
  else "INCOMPLETE".

(** ** Idempotent creation *)

(** A listing shows a resource under [name], and the one the adapter's
    lookup picks (the first of that name) has ARN [arn]. *)
Definition listed {S} (name_of arn_of : S -> string) (page : result (list S))
    (name arn : string) : Prop :=
  exists l e,
    page = Ok l /\
    List.find (fun x => String.eqb (name_of x) name) l = Some e /\
    arn_of e = arn.

(** Two calls both return, under the same [name] and with the same ARN. *)
Definition same_name_and_arn {A} (name_of arn_of : A -> string)
    (first second : result A) (name : string) : Prop :=
  exists i1 i2,
    first = Ok i1 /\ second = Ok i2 /\
    name_of i1 = name /\ name_of i2 = name /\
    arn_of i1 = arn_of i2.

(** The service answered a create request with "already exists". *)
Definition already_exists {A} (answer : result A) : Prop :=
  exists text, answer = Raise (ClientError Personalize.ALREADY_EXISTS text).

End Vocabulary.

(** * A recommendation service in memory

    A stand-in for the vendor service, for examples: it refuses a create
    request for a name it already holds and lists what it holds. *)

Module PersonalizeDouble.
Import Personalize.

Record service : Type := {
  sv_dataset_groups : list dataset_group_summary;
  sv_datasets : list dataset_summary;
  sv_solutions : list solution_summary;
  sv_campaigns : list campaign_summary
}.

Definition arn_for (kind name : string) : string :=
  "arn:aws:personalize:us-east-1:000000000000:" ++ kind ++ "/" ++ name.

Definition create_in {S} (name_of : S -> string) (held : list S)
    (kind name : string) : result string :=
  if existsb (fun x => String.eqb (name_of x) name) held
  then Raise (ClientError ALREADY_EXISTS
                ("An error occurred (ResourceAlreadyExistsException): "
                 ++ name ++ " already exists"))
  else Ok (arn_for kind name).

Definition client_of (sv : service) : Client :=
  {| api_create_dataset_group := create_in dgs_name (sv_dataset_groups sv) "dataset-group";
     api_list_dataset_groups := Ok (firstn 100 (sv_dataset_groups sv));
     api_create_dataset := fun name _ _ _ => create_in dss_name (sv_datasets sv) "dataset" name;
     api_list_datasets := fun _ => Ok (firstn 100 (sv_datasets sv));
     api_create_solution := fun name _ _ => create_in sos_name (sv_solutions sv) "solution" name;
     api_list_solutions := fun _ => Ok (firstn 100 (sv_solutions sv));
     api_create_campaign := fun name _ _ => create_in cas_name (sv_campaigns sv) "campaign" name;
     api_list_campaigns := Ok (firstn 100 (sv_campaigns sv)) |}.

Definition demo_settings : Settings :=
  {| personalize_dataset_group_name := "retail";
     personalize_solution_name := "retail-recommendations";
     personalize_campaign_name := "retail-campaign" |}.

(** Nothing created yet. *)
Definition sv0 : service :=
  {| sv_dataset_groups := []; sv_datasets := []; sv_solutions := []; sv_campaigns := [] |}.

(** After the dataset group of tenant "t1" was created. *)
Definition sv1 : service :=
  {| sv_dataset_groups :=
       [{| dgs_name := "retail-t1";
           dgs_datasetGroupArn := arn_for "dataset-group" "retail-t1";
           dgs_status := "ACTIVE" |}];
     sv_datasets := []; sv_solutions := []; sv_campaigns := [] |}.

(** After its dataset, solution and campaign were created too. *)
Definition sv2 : service :=
  {| sv_dataset_groups := sv_dataset_groups sv1;
     sv_datasets :=
       [{| dss_name := "interactions-t1";
           dss_datasetArn := arn_for "dataset" "interactions-t1";
           dss_status := "ACTIVE" |}];
     sv_solutions :=
       [{| sos_name := "retail-recommendations-t1";
           sos_solutionArn := arn_for "solution" "retail-recommendations-t1";
           sos_status := "CREATE PENDING";
           sos_recipeArn := Some "arn:aws:personalize:::recipe/aws-user-personalization" |}];
     sv_campaigns :=
       [{| cas_name := "retail-campaign-t1";
           cas_campaignArn := arn_for "campaign" "retail-campaign-t1";
           cas_status := "CREATE PENDING";
           cas_solutionVersionArn := None |}] |}.

End PersonalizeDouble.

(** * Vocabulary for the key-value adapter *)

Module DynamoDBVocabulary.
Import DynamoDB.

Section Vocabulary.
Context {Decimal : Type}.
#[local] Abbreviation value := (value Decimal).
#[local] Abbreviation prog := (prog Decimal).

(** Built from floats, strings, integers, booleans, [None], dicts and
    lists: no [Decimal] anywhere. *)
Fixpoint decimal_free (obj : value) : bool :=
  match obj with
  | VDecimal _ => false
  | VDict items => forallb (fun kv => decimal_free (snd kv)) items
  | VList elems => forallb decimal_free elems
  | _ => true
  end.

(** Whatever request the store answers with a [ClientError], the operation
    ends at once in [on_error text], [text] being the error's text: no
    request follows the failed one. *)
Fixpoint ends_on_error {A} (on_error : string -> prog A) (p : prog A) : Prop :=
  match p with
  | Ret _ => True
  | Throw _ => True
  | Req r k =>
      (forall code text, k (Raise (ClientError code text)) = on_error text) /\
      (forall x, ends_on_error on_error (k (Ok x)))
  | UtcNow k => forall now, ends_on_error on_error (k now)
  end.

(** The operation surfaces the store error wrapped in a generic
    exception whose message starts with [what]. *)
Definition raises_wrapped {A} (what : string) (p : prog A) : Prop :=
  ends_on_error (fun text => Throw (Exception (what ++ text))) p.

(** The operation swallows the store error and returns [r text]. *)
Definition returns_on_error {A} (r : string -> A) (p : prog A) : Prop :=
  ends_on_error (fun text => Ret (r text)) p.

(** The operation issues [r] first and, answered [x], returns [a]. *)
Definition answers {A X} (p : prog A) (r : request Decimal X) (x : X) (a : A) : Prop :=
  exists k, p = Req r k /\ k (Ok x) = Ret a.

(** The cache read returns the stored items exactly when a row is present
    whose ttl is strictly after the clock reading. *)
Definition returned_exactly_when_ttl_after (float_of_Decimal : Decimal -> float)
    (now : datetime) (tenant_id user_id : string)
    (table : gmap key (recommendation_item Decimal)) : Prop :=
  (exists items,
     fst (run now (get_cached_recommendations float_of_Decimal tenant_id user_id) table)
     = Ok (Some items))
  <->
  (exists item : recommendation_item Decimal,
     table !! (tenant_id, user_id) = Some item /\
     (timestamp now < default 0 (ri_ttl item))%Z).

End Vocabulary.

(** The number of events of a type. *)
Definition count_type {Decimal} (event_type : string)
    (items : list (event_item Decimal)) : Z :=
  Z.of_nat (length (List.filter (fun it => String.eqb (ei_event_type it) event_type) items)).

(** The sum of the counts of a by-type dictionary. *)
Definition sum_counts (by_type : gmap string Z) : Z :=
  map_fold (fun _ n acc => (n + acc)%Z) 0%Z by_type.

End DynamoDBVocabulary.

(** * A runtime in memory

    A stand-in for the language runtime's decimals, for examples: a
    decimal keeps the float it was made from. *)

Module RuntimeDouble.
Import DynamoDB.

Definition Decimal : Type := float.
Definition Decimal_of_float (x : float) : Decimal := x.
Definition float_of_Decimal (d : Decimal) : float := d.

Definition recommendations : list (value Decimal) :=
  [VDict [("item_id", VStr "sku-1"); ("score", VFloat 0.5%float)];
   VDict [("item_id", VStr "sku-2"); ("score", VFloat 0.25%float)]].

(** A row cached for tenant "t1", user "u1", expiring at second 100. *)
Definition row : recommendation_item Decimal :=
  {| ri_tenant_id := "t1";
     ri_user_id := "u1";
     ri_recommendations :=
       list_elems (_convert_floats_to_decimal Decimal_of_float (VList recommendations));
     ri_cached_at := "1970-01-01T00:00:40";
     ri_ttl := Some 100%Z |}.

Definition table : gmap key (recommendation_item Decimal) :=
  {[ ("t1", "u1") := row ]}.

Definition at_second (t : Z) : datetime :=
  {| timestamp := t;
     isoformat := "1970-01-01T00:00:00";
     timestamp_after := fun seconds => (t + seconds)%Z |}.

Definition event (user_id event_type : string) : event_item Decimal :=
  {| ei_tenant_id := "t1";
     ei_event_id := "c1#" ++ user_id ++ "#0";
     ei_campaign_id := "c1";
     ei_user_id := user_id;
     ei_event_type := event_type;
     ei_event_data := None;
     ei_timestamp := "1970-01-01T00:00:00";
     ei_ttl := 7776000%Z |}.

End RuntimeDouble.

(** * Vocabulary for the object-store adapter *)

Module S3Vocabulary.

(** No key of a listing starts with the tenant's segment. *)
Definition no_leading_tenant_segment (tenant_id : string)
    (files : list S3.file_info) : Prop :=
  forall f, In f files -> String.prefix (tenant_id ++ "/") (S3.fi_key f) = false.

(** The objects a listing of [Prefix] ranges over. *)
Definition matching (Prefix : string) (s : S3.service) : list (string * S3.s3_object) :=
  List.filter (fun kv => String.prefix Prefix (fst kv)) (map_to_list (S3.objects s)).

End S3Vocabulary.

(** * A bucket in memory, for examples *)

Module S3Double.

Definition bucket_name : string := "retail-data".

Definition entity_tag (body : string) : string :=
  dq ++ "etag-" ++ pretty (Z.of_nat (String.length body)) ++ dq.

Definition empty_bucket : S3.service :=
  {| S3.objects := ∅; S3.failing := None; S3.utcnow := "1970-01-01T00:00:00" |}.

Definition upload (key tenant_id : string) (s : S3.service) : S3.service :=
  snd (S3.upload_file bucket_name entity_tag (S3.of_str "user,item") key tenant_id
         "text/csv" None s).

Definition listing (tenant_id : string) (s : S3.service) : list S3.file_info :=
  match fst (S3.list_files bucket_name EmptyString tenant_id 1000 s) with
  | Ok files => files
  | Raise _ => []
  end.

End S3Double.

(** * Vocabulary for the messaging adapter *)

Module PinpointVocabulary.

(** The item blocks of an e-mail body, one after the other. *)
Definition rendered (format_2f : float -> string)
    (shown : list Pinpoint.recommendation) : string :=
  fold_right (fun rec rest => Pinpoint.html_item format_2f rec ++ rest) EmptyString shown.

End PinpointVocabulary.

(** * Further vocabulary for the key-value adapter *)

Module DynamoDBTrace.
Import DynamoDB.

Section Trace.
Context {Decimal : Type}.

(** What the store answers to each request. *)
Definition responder : Type := forall X, request Decimal X -> result X.

(** A request that was issued, whatever the type of its answer. *)
Definition issued : Type := { X : Type & request Decimal X }.

(** Running an operation against a responder at clock reading [now]: the
    requests issued, in order, and the outcome. *)
Fixpoint exec {A} (respond : responder) (now : datetime) (p : prog Decimal A)
    : list issued * result A :=
  match p with
  | Ret a => ([], Ok a)
  | Throw e => ([], Raise e)
  | Req r k =>
      let '(rest, outcome) := exec respond now (k (respond _ r)) in
      (existT _ r :: rest, outcome)
  | UtcNow k => exec respond now (k now)
  end.

(** The delete request for a row. *)
Definition delete_of (item : recommendation_item Decimal) : issued :=
  existT _ (recommendations_delete_item (ri_tenant_id item, ri_user_id item)).

(** The row [cache_recommendations] asks the table to put. *)
Definition row_written (Decimal_of_float : float -> Decimal) (now : datetime)
    (tenant_id user_id : string) (recommendations : list (value Decimal))
    (ttl_hours : Z) : recommendation_item Decimal :=
  {| ri_tenant_id := tenant_id;
     ri_user_id := user_id;
     ri_recommendations :=
       List.map (_convert_floats_to_decimal Decimal_of_float) recommendations;
     ri_cached_at := isoformat now;
     ri_ttl := Some (timestamp_after now (hours ttl_hours)) |}.

(** Floats, strings, booleans, [None], dicts and lists only: the values
    the store hands back with the type they were written with (an integer
    comes back as a decimal). *)
Fixpoint plain (obj : value Decimal) : bool :=
  match obj with
  | VDecimal _ => false
  | VInt _ => false
  | VDict items => forallb (fun kv => plain (snd kv)) items
  | VList elems => forallb plain elems
  | _ => true
  end.

End Trace.

(** The identifier [track_campaign_event] gives an event recorded at
    clock reading [now]. *)
Definition event_id_for (campaign_id user_id : string) (now : datetime) : string :=
  campaign_id ++ "#" ++ user_id ++ "#" ++ pretty (timestamp now).

End DynamoDBTrace.

(** [d.get(k)] on a dict kept as its items in order. *)
Fixpoint dict_get {V} (k : string) (d : list (string * V)) : option V :=
  match d with
  | [] => None
  | (k', v) :: d' => if String.eqb k' k then Some v else dict_get k d'
  end.

(** The character [c] does not occur in [s]. *)
Fixpoint lacks (c : ascii) (s : string) : bool :=
  match s with
  | EmptyString => true
  | String a s' => negb (Ascii.eqb a c) && lacks c s'
  end.

(** * A store answering from a script, for examples *)

Module TraceDouble.
Import DynamoDB DynamoDBTrace.

Definition second_row : recommendation_item RuntimeDouble.Decimal :=
  {| ri_tenant_id := "t1";
     ri_user_id := "u2";
     ri_recommendations := [];
     ri_cached_at := "1970-01-01T00:00:10";
     ri_ttl := Some 50%Z |}.

(** Both sample rows are reported expired and every delete succeeds. *)
Definition healthy : responder (Decimal := RuntimeDouble.Decimal) :=
  fun X r =>
    match r in request _ X return result X with
    | recommendations_query_expired _ _ => Ok [RuntimeDouble.row; second_row]
    | recommendations_delete_item _ => Ok tt
    | campaign_tracking_query_expired _ _ => Ok 3%Z
    | _ => table_missing
    end.

(** The same, but deleting the row of user "u2" is throttled. *)
Definition throttled : responder (Decimal := RuntimeDouble.Decimal) :=
  fun X r =>
    match r in request _ X return result X with
    | recommendations_query_expired _ _ => Ok [RuntimeDouble.row; second_row]
    | recommendations_delete_item k =>
        if decide (k = ("t1", "u2"))
        then Raise (ClientError "ProvisionedThroughputExceededException" "throttled")
        else Ok tt
    | campaign_tracking_query_expired _ _ => Ok 3%Z
    | _ => table_missing
    end.

End TraceDouble.

(** * The recommendation service while it is unavailable *)

Module PersonalizeOutage.
Import Personalize.

Definition unavailable {A} : result A :=
  Raise (ClientError "ServiceUnavailableException"
           "An error occurred (ServiceUnavailableException): try again later").

(** Every request is refused. *)
Definition down : Client :=
  {| api_create_dataset_group := fun _ => unavailable;
     api_list_dataset_groups := unavailable;
     api_create_dataset := fun _ _ _ _ => unavailable;
     api_list_datasets := fun _ => unavailable;
     api_create_solution := fun _ _ _ => unavailable;
     api_list_solutions := fun _ => unavailable;
     api_create_campaign := fun _ _ _ => unavailable;
     api_list_campaigns := unavailable |}.

End PersonalizeOutage.

(** * The recommendation service with more than a page of dataset groups *)

Module PersonalizeCrowded.
Import Personalize PersonalizeDouble.

(** The dataset group of a tenant, once active. *)
Definition group_of (tenant_id : string) : dataset_group_summary :=
  {| dgs_name := "retail-" ++ tenant_id;
     dgs_datasetGroupArn := arn_for "dataset-group" ("retail-" ++ tenant_id);
     dgs_status := "ACTIVE" |}.

(** Tenants "n1" to "n100" came first. *)
Definition earlier : list string :=
  List.map (fun n => "n" ++ pretty (Z.of_nat n)) (seq 1 100).

Definition hundred : service :=
  {| sv_dataset_groups := List.map group_of earlier;
     sv_datasets := []; sv_solutions := []; sv_campaigns := [] |}.

(** Then tenant "t1" created its dataset group, the 101st. *)
Definition hundred_and_one : service :=
  {| sv_dataset_groups := app (List.map group_of earlier) [group_of "t1"];
     sv_datasets := []; sv_solutions := []; sv_campaigns := [] |}.

End PersonalizeCrowded.

(** * The object-store adapter: download, delete, copy and datasets

    The remaining operations of [S3Helper] over the bucket in memory of
    [S3]. *)

Module S3Files.
Import S3.

(** [download_file] raises [FileNotFoundError] besides the exceptions of
    the prelude. *)
Inductive raised : Type :=
| builtin (e : exn)
| FileNotFoundError (msg : string).

Inductive outcome (A : Type) : Type :=
| Returned (a : A)
| Raised (e : raised).
Arguments Returned {A} a.
Arguments Raised {A} e.

(** What the service raises for a key it does not hold. *)
Definition NoSuchKey {A} (operation : string) : result A :=
  Raise (ClientError "NoSuchKey"
           ("An error occurred (NoSuchKey) when calling the " ++ operation
            ++ " operation: The specified key does not exist.")).

(** [response['Body'].read()] of a [get_object]. *)
Definition get_object (Bucket Key : string) (s : service)
    : result string * service :=
  match failing s with
  | Some e => (Raise e, s)
  | None =>
      match objects s !! Key with
      | Some obj => (Ok (Body obj), s)
      | None => (NoSuchKey "GetObject", s)
      end
  end.

(** Deleting succeeds whether or not the key is held. *)
Definition delete_object (Bucket Key : string) (s : service)
    : result unit * service :=
  match failing s with
  | Some e => (Raise e, s)
  | None =>
      (Ok tt,
       {| objects := delete Key (objects s);
          failing := failing s;
          utcnow := utcnow s |})
  end.

(** [MetadataDirective='REPLACE']: the copy carries the body of the source
    and the metadata of the request; its content type is not copied. *)
Definition copy_object (CopySource_Bucket CopySource_Key Bucket Key : string)
    (Metadata : list (string * string)) (ServerSideEncryption : string)
    (s : service) : result unit * service :=
  match failing s with
  | Some e => (Raise e, s)
  | None =>
      match objects s !! CopySource_Key with
      | Some source =>
          let obj := {| Body := Body source;
                        ContentType := "binary/octet-stream";
                        Metadata := Metadata;
                        ServerSideEncryption := ServerSideEncryption;
                        ETag := ETag source;
                        LastModified := utcnow s;
                        StorageClass := None |} in
          (Ok tt,
           {| objects := <[Key := obj]> (objects s);
              failing := failing s;
              utcnow := utcnow s |})
      | None => (NoSuchKey "CopyObject", s)
      end
  end.

(** What [copy_file] returns. *)
Record copy_info : Type := {
  ci_source_key : string;
  ci_dest_key : string;
  ci_bucket : string;
  ci_url : string
}.

(** A [pandas.DataFrame], as far as [upload_dataset] looks at it: what
    its three serialisers write, [len(data)] and [len(data.columns)]. *)
Record DataFrame : Type := {
  to_csv : string;
  to_json : string;
  to_parquet : string;
  len : Z;
  len_columns : Z
}.

(** The bytes [upload_file] stores for a content. *)
Definition bytes_of (fc : file_content) : string :=
  match fc with
  | of_str text => text
  | of_bytes data => data
  | of_stream data => data
  end.

Definition valid_types : list string := ["interactions"; "users"; "items"].

Section Adapter.
Variable bucket_name : string.
Variable entity_tag : string -> string.
(** [settings.s3_data_prefix]. *)
Variable s3_data_prefix : string.
(** [datetime.utcnow().strftime("%Y%m%d_%H%M%S")] when [upload_dataset]
    runs. *)
Variable timestamp : string.

Definition download_file (key tenant_id : string) (s : service)
    : outcome string * service :=
  let full_key := tenant_id ++ "/" ++ key in
  match get_object bucket_name full_key s with
  | (Ok content, s') => (Returned content, s')
  | (Raise (ClientError code e), s') =>
      if String.eqb code "NoSuchKey"
      then (Raised (FileNotFoundError ("File " ++ key ++ " not found")), s')
      else (Raised (builtin (Exception ("S3 download failed: " ++ e))), s')
  | (Raise e, s') => (Raised (builtin e), s')
  end.

Definition delete_file (key tenant_id : string) (s : service)
    : result bool * service :=
  let full_key := tenant_id ++ "/" ++ key in
  match delete_object bucket_name full_key s with
  | (Ok _, s') => (Ok true, s')
  | (Raise (ClientError _ e), s') => (Raise (Exception ("S3 delete failed: " ++ e)), s')
  | (Raise e, s') => (Raise e, s')
  end.

Definition upload_dataset (data : DataFrame) (dataset_type tenant_id format : string)
    (s : service) : result upload_info * service :=
  if negb (existsb (String.eqb dataset_type) valid_types) then
    (Raise (ValueError
              "Invalid dataset type. Must be one of: ['interactions', 'users', 'items']"),
     s)
  else
    let filename :=
      s3_data_prefix ++ "/" ++ dataset_type ++ "/" ++ timestamp ++ "." ++ format in
    let serialised :=
      if String.eqb format "csv" then Some (of_str (to_csv data), "text/csv")
      else if String.eqb format "json" then
        Some (of_str (to_json data), "application/json")
      else if String.eqb format "parquet" then
        Some (of_bytes (to_parquet data), "application/octet-stream")
      else None in
    match serialised with
    | None => (Raise (ValueError ("Unsupported format: " ++ format)), s)
    | Some (content, content_type) =>
        let metadata := [("dataset_type", dataset_type);
                         ("format", format);
                         ("rows", pretty (len data));
                         ("columns", pretty (len_columns data))] in
        upload_file bucket_name entity_tag content filename tenant_id content_type
          (Some metadata) s
    end.

Definition copy_file (source_key dest_key tenant_id : string)
    (metadata : option (list (string * string))) (s : service)
    : result copy_info * service :=
  let source_full_key := tenant_id ++ "/" ++ source_key in
  let dest_full_key := tenant_id ++ "/" ++ dest_key in
  let copy_metadata := [("tenant_id", tenant_id);
                        ("copied_at", utcnow s);
                        ("source_key", source_key)] in
  let copy_metadata :=
    match metadata with
    | Some ((_ :: _) as metadata) => dict_update copy_metadata metadata
    | _ => copy_metadata
    end in
  match copy_object bucket_name source_full_key bucket_name dest_full_key
          copy_metadata "AES256" s with
  | (Ok _, s') =>
      (Ok {| ci_source_key := source_full_key;
             ci_dest_key := dest_full_key;
             ci_bucket := bucket_name;
             ci_url := "s3://" ++ bucket_name ++ "/" ++ dest_full_key |},
       s')
  | (Raise (ClientError _ e), s') => (Raise (Exception ("S3 copy failed: " ++ e)), s')
  | (Raise e, s') => (Raise e, s')
  end.

End Adapter.
End S3Files.

Module S3FilesDouble.
Import S3 S3Files.

Definition frame : DataFrame :=
  {| to_csv := "user,item";
     to_json := "{}";
     to_parquet := "PAR1";
     len := 1;
     len_columns := 2 |}.

(** The bucket after tenant "t1" uploaded "a.csv". *)
Definition one_file : service := S3Double.upload "a.csv" "t1" S3Double.empty_bucket.

End S3FilesDouble.

(** * The messaging adapter: segments, campaigns and endpoints

    The operations of [PinpointHelper] that create and list resources.
    The vendor client is a record of what each request would answer; an
    operation returns the requests it issued, in order, with its
    outcome. *)

Module PinpointCampaigns.

(** An entry of [Dimensions.UserAttributes]. *)
Record attribute_dimension : Type := {
  AttributeType : string;
  Values : list string
}.

Record segment_request : Type := {
  sr_Name : string;
  sr_UserAttributes : list (string * attribute_dimension);
  sr_tags : list (string * string)
}.

Record email_message : Type := {
  FromAddress : string;
  HtmlBody : string;
  Subject : string;
  TextBody : option string
}.

Inductive message_configuration : Type :=
| EmailMessage (m : email_message)
| SMSMessage (Body MessageType : string).

Record campaign_request : Type := {
  cr_Name : string;
  cr_SegmentId : string;
  cr_MessageConfiguration : message_configuration;
  cr_tags : list (string * string)
}.

Record endpoint_request : Type := {
  ChannelType : string;
  Address : string;
  UserId : string;
  UserAttributes : list (string * list string);
  Attributes : list (string * list string)
}.

(** An entry of [CampaignsResponse.Item]. *)
Record campaign_response : Type := {
  Id : string;
  Name : string;
  CreationDate : string;
  LastModifiedDate : string;
  State : string;
  SegmentId : option string;
  tags : option (list (string * string))
}.

Inductive request : Type :=
| create_segment_request (ApplicationId : string)
    (WriteSegmentRequest : segment_request)
| create_campaign_request (ApplicationId : string)
    (WriteCampaignRequest : campaign_request)
| send_messages_request (ApplicationId : string)
    (MessageConfiguration : message_configuration) (Endpoints : list string)
| update_endpoint_request (ApplicationId EndpointId : string)
    (EndpointRequest : endpoint_request)
| get_campaigns_request (ApplicationId : string)
| delete_campaign_request (ApplicationId CampaignId : string).

(** The vendor client: the part of each response the adapter reads.  The
    client has the operations below and no [put_campaign_activities]:
    asking it for that attribute raises [AttributeError]. *)
Record Client : Type := {
  api_create_segment : segment_request -> result string;
  api_create_campaign : campaign_request -> result string;
  api_send_messages : message_configuration -> list string -> result unit;
  api_update_endpoint : string -> endpoint_request -> result string;
  api_get_campaigns : result (list campaign_response);
  api_delete_campaign : string -> result unit
}.

(** The dictionaries the adapter returns. *)
Record segment_info : Type := {
  sgi_segment_id : string;
  sgi_segment_name : string;
  sgi_tenant_id : string;
  sgi_status : string
}.

Record campaign_info : Type := {
  cmi_campaign_id : string;
  cmi_campaign_name : string;
  cmi_tenant_id : string;
  cmi_status : string;
  cmi_segment_id : string
}.

Record endpoint_info : Type := {
  epi_endpoint_id : string;
  epi_user_id : string;
  epi_tenant_id : string;
  epi_channel_type : string;
  epi_address : string;
  epi_status : string
}.

Record campaign_summary : Type := {
  cs_campaign_id : string;
  cs_name : string;
  cs_creation_date : string;
  cs_last_modified_date : string;
  cs_campaign_status : string;
  cs_segment_id : option string;
  cs_tags : list (string * string)
}.

(** ** Operations that issue requests *)

Definition traced (A : Type) : Type := list request * result A.

Definition ret {A} (a : A) : traced A := ([], Ok a).

(** One request and its answer. *)
Definition invoke {X} (r : request) (answer : result X) : traced X := ([r], answer).

(** An exception raised without a request. *)
Definition throw {A} (e : exn) : traced A := ([], Raise e).

(** What [self.client.put_campaign_activities] raises. *)
Definition no_put_campaign_activities : exn :=
  AttributeError "'Pinpoint' object has no attribute 'put_campaign_activities'".

Definition bind {A B} (m : traced A) (k : A -> traced B) : traced B :=
  match m with
  | (issued, Ok a) => let '(more, b) := k a in (app issued more, b)
  | (issued, Raise e) => (issued, Raise e)
  end.

Notation "'do' x '<-' m ';' k" := (bind m (fun x => k))
  (at level 10, x name, m at level 100, k at level 200).

(** [try: body except ClientError as e: raise Exception(f"{failed}: {e}")]
    and [... except ClientError: return fallback]. *)
Definition reraise {A} (failed : string) (body : traced A) : traced A :=
  match body with
  | (issued, Raise (ClientError _ e)) => (issued, Raise (Exception (failed ++ ": " ++ e)))
  | _ => body
  end.

Definition recover {A} (fallback : A) (body : traced A) : traced A :=
  match body with
  | (issued, Raise (ClientError _ _)) => (issued, Ok fallback)
  | _ => body
  end.

Section Adapter.
Variable application_id : string.
Variable from_address : string.
Variable client : Client.
(** [datetime.utcnow().isoformat()] when the operation runs. *)
Variable utcnow : string.

(** *** Segments *)

Definition inclusive (values : list string) : attribute_dimension :=
  {| AttributeType := "INCLUSIVE"; Values := values |}.

(** [dimensions['UserAttributes']] as [create_segment] builds it. *)
Definition segment_user_attributes (tenant_id : string) (user_ids : list string)
    (segment_criteria : option (list (string * attribute_dimension)))
    : list (string * attribute_dimension) :=
  let user_attributes := [("tenant_id", inclusive [tenant_id])] in
  let user_attributes :=
    match user_ids with
    | [] => user_attributes
    | _ :: _ => dict_set "user_id" (inclusive user_ids) user_attributes
    end in
  match segment_criteria with
  | Some ((_ :: _) as segment_criteria) =>
      fold_left
        (fun user_attributes kv =>
           match dict_get (fst kv) user_attributes with
           | None => dict_set (fst kv) (snd kv) user_attributes
           | Some _ => user_attributes
           end)
        segment_criteria user_attributes
  | _ => user_attributes
  end.

Definition create_segment (tenant_id segment_name : string) (user_ids : list string)
    (segment_criteria : option (list (string * attribute_dimension)))
    : traced segment_info :=
  reraise "Segment creation failed"
    (let segment_request :=
       {| sr_Name := segment_name ++ "-" ++ tenant_id;
          sr_UserAttributes :=
            segment_user_attributes tenant_id user_ids segment_criteria;
          sr_tags := [("TenantId", tenant_id); ("CreatedAt", utcnow)] |} in
     do segment_id <- invoke (create_segment_request application_id segment_request)
                        (api_create_segment client segment_request);
     ret {| sgi_segment_id := segment_id;
            sgi_segment_name := segment_name;
            sgi_tenant_id := tenant_id;
            sgi_status := "CREATED" |}).

(** *** Campaigns *)

(** What [send_email_campaign] and [send_sms_campaign] do once the
    message is built; the two bodies differ in the message, the
    [CampaignType] tag and the text of the exception only. *)
Definition launch (campaign_type : string) (message_config : message_configuration)
    (tenant_id campaign_name segment_id : string)
    (schedule_time : option DynamoDB.datetime) : traced campaign_info :=
  let campaign_request :=
    {| cr_Name := campaign_name ++ "-" ++ tenant_id;
       cr_SegmentId := segment_id;
       cr_MessageConfiguration := message_config;
       cr_tags := [("TenantId", tenant_id);
                   ("CampaignType", campaign_type);
                   ("CreatedAt", utcnow)] |} in
  do campaign_id <- invoke (create_campaign_request application_id campaign_request)
                      (api_create_campaign client campaign_request);
  do status <-
    match schedule_time with
    | Some schedule_time =>
        (* [schedule_request] is built, then the attribute lookup fails *)
        do _ <- throw (A := unit) no_put_campaign_activities;
        ret "SCHEDULED"
    | None =>
        do _ <- invoke
                  (send_messages_request application_id message_config [segment_id])
                  (api_send_messages client message_config [segment_id]);
        ret "SENT"
    end;
  ret {| cmi_campaign_id := campaign_id;
         cmi_campaign_name := campaign_name;
         cmi_tenant_id := tenant_id;
         cmi_status := status;
         cmi_segment_id := segment_id |}.

Definition send_email_campaign (tenant_id campaign_name segment_id : string)
    (subject html_content : string) (text_content : option string)
    (schedule_time : option DynamoDB.datetime) : traced campaign_info :=
  reraise "Email campaign failed"
    (let message_config :=
       EmailMessage
         {| FromAddress := from_address;
            HtmlBody := html_content;
            Subject := subject;
            TextBody :=
              match text_content with
              | Some (String _ _ as text_content) => Some text_content
              | _ => None
              end |} in
     launch "email" message_config tenant_id campaign_name segment_id schedule_time).

Definition send_sms_campaign (tenant_id campaign_name segment_id : string)
    (message : string) (schedule_time : option DynamoDB.datetime)
    : traced campaign_info :=
  reraise "SMS campaign failed"
    (let message_config := SMSMessage message "PROMOTIONAL" in
     launch "sms" message_config tenant_id campaign_name segment_id schedule_time).

Definition list_campaigns (tenant_id : string) : traced (list campaign_summary) :=
  recover []
    (do response <- invoke (get_campaigns_request application_id)
                      (api_get_campaigns client);
     ret (List.map
            (fun campaign =>
               {| cs_campaign_id := Id campaign;
                  cs_name := Name campaign;
                  cs_creation_date := CreationDate campaign;
                  cs_last_modified_date := LastModifiedDate campaign;
                  cs_campaign_status := State campaign;
                  cs_segment_id := SegmentId campaign;
                  cs_tags := default [] (tags campaign) |})
            (List.filter
               (fun campaign =>
                  match dict_get "TenantId" (default [] (tags campaign)) with
                  | Some tenant => String.eqb tenant tenant_id
                  | None => false
                  end)
               response))).

Definition delete_campaign (campaign_id : string) : traced bool :=
  recover false
    (do _ <- invoke (delete_campaign_request application_id campaign_id)
               (api_delete_campaign client campaign_id);
     ret true).

(** *** Endpoints *)

(** [create_endpoint] writes into the dict the caller passed when that
    dict is not empty ([user_attributes or {}] is then the caller's own
    object): besides the requests and the outcome, the operation yields
    the caller's [user_attributes] as it is afterwards. *)
Definition create_endpoint (tenant_id user_id channel_type address : string)
    (user_attributes : option (list (string * list string)))
    : traced endpoint_info * option (list (string * list string)) :=
  let with_tenant (attributes : list (string * list string)) :=
    match dict_get "tenant_id" attributes with
    | None => dict_set "tenant_id" [tenant_id] attributes
    | Some _ => attributes
    end in
  let '(request_attributes, user_attributes_after) :=
    match user_attributes with
    | Some ((_ :: _) as shared) => (with_tenant shared, Some (with_tenant shared))
    | _ => (with_tenant [], user_attributes)
    end in
  let endpoint_request :=
    {| ChannelType := upper channel_type;
       Address := address;
       UserId := user_id;
       UserAttributes := request_attributes;
       Attributes := [("tenant_id", [tenant_id])] |} in
  let endpoint_id := tenant_id ++ "-" ++ user_id ++ "-" ++ lower channel_type in
  (reraise "Endpoint creation failed"
     (do request_id <- invoke
                         (update_endpoint_request application_id endpoint_id
                            endpoint_request)
                         (api_update_endpoint client endpoint_id endpoint_request);
      ret {| epi_endpoint_id := request_id;
             epi_user_id := user_id;
             epi_tenant_id := tenant_id;
             epi_channel_type := channel_type;
             epi_address := address;
             epi_status := "ACTIVE" |}),
   user_attributes_after).

End Adapter.
End PinpointCampaigns.

Module PinpointCampaignsDouble.
Import PinpointCampaigns.

(** Every request succeeds; the new campaign is "c-1". *)
Definition healthy : Client :=
  {| api_create_segment := fun _ => Ok "s-1";
     api_create_campaign := fun _ => Ok "c-1";
     api_send_messages := fun _ _ => Ok tt;
     api_update_endpoint := fun _ _ => Ok "r-1";
     api_get_campaigns := Ok [];
     api_delete_campaign := fun _ => Ok tt |}.

(** Campaigns can be created but nothing can be sent. *)
Definition cannot_send : Client :=
  {| api_create_segment := fun _ => Ok "s-1";
     api_create_campaign := fun _ => Ok "c-1";
     api_send_messages := fun _ _ =>
       Raise (ClientError "TooManyRequestsException" "slow down");
     api_update_endpoint := fun _ _ => Ok "r-1";
     api_get_campaigns := Ok [];
     api_delete_campaign := fun _ => Ok tt |}.

End PinpointCampaignsDouble.

(** * Decimals of the language runtime

    [Decimal(str(x))] and [float(d)] as the runtime computes them.  A
    decimal is its sign, coefficient and exponent, or a special value;
    [str] of a float writes the shortest decimal that reads back as the
    same float; [float] of a decimal is the binary64 nearest to it, ties
    to even. *)

Module PyDecimal.

(** A [decimal.Decimal]: [coefficient * 10 ^ exponent], signed. *)
Inductive Decimal : Type :=
| NaN
| Infinity (negative : bool)
| Finite (negative : bool) (coefficient : Z) (exponent : Z).

(** The integer nearest to [n / d], ties to even. *)
Definition round_half_even (n d : Z) : Z :=
  let q := (n / d)%Z in
  match (2 * (n mod d) ?= d)%Z with
  | Lt => q
  | Gt => (q + 1)%Z
  | Eq => if Z.even q then q else (q + 1)%Z
  end.

(** The binary64 nearest to the positive rational [num / den]: 53 bits
    of mantissa at the exponent of the leading bit, no exponent below
    -1074, infinity past the largest finite number.  [top] is the
    exponent of the leading bit for every rational from [2 ^ -1200] on;
    a smaller one rounds to zero at any exponent. *)
Definition nearest_binary64 (s : bool) (num den : Z) : spec_float :=
  let top := (Z.log2 (num * 2 ^ 1200 / den) - 1200)%Z in
  let e := Z.max (top - 52) (-1074) in
  let m := if (0 <=? e)%Z then round_half_even num (den * 2 ^ e)
           else round_half_even (num * 2 ^ (- e)) den in
  let '(m, e) := if (m =? 2 ^ 53)%Z then ((2 ^ 52)%Z, (e + 1)%Z) else (m, e) in
  match m with
  | Zpos p => if (e <=? 971)%Z then S754_finite s p e else S754_infinity s
  | _ => S754_zero s
  end.

Definition binary64_of (s : bool) (coefficient exponent : Z) : spec_float :=
  if (0 <=? exponent)%Z then nearest_binary64 s (coefficient * 10 ^ exponent) 1
  else nearest_binary64 s coefficient (10 ^ (- exponent)).

(** [float(d)]. *)
Definition float_of_Decimal (d : Decimal) : float :=
  match d with
  | NaN => nan
  | Infinity s => SF2Prim (S754_infinity s)
  | Finite s c e => SF2Prim (binary64_of s c e)
  end.

(** The number of decimal digits of a natural number. *)
Fixpoint count_digits (fuel : nat) (n : Z) : Z :=
  match fuel with
  | O => 0
  | S fuel => if (n <? 10)%Z then 1 else (1 + count_digits fuel (n / 10))%Z
  end.

Definition digits10 (n : Z) : Z := count_digits 1200 n.

(** A coefficient without trailing zeros. *)
Fixpoint strip_zeros (fuel : nat) (c p : Z) : Z * Z :=
  match fuel with
  | O => (c, p)
  | S fuel =>
      if (0 <? c)%Z && (c mod 10 =? 0)%Z then strip_zeros fuel (c / 10)%Z (p + 1)%Z
      else (c, p)
  end.

(** The decimal [Decimal] reads from the text [str] writes for the digits
    [n] at exponent [p]: a whole number of at most sixteen digits is
    written out with [.0] behind it ("123.0"), anything else keeps its
    digits and exponent ("0.001", "1.5e+16"). *)
Definition written (s : bool) (n p : Z) : Decimal :=
  if (0 <=? p)%Z && (digits10 n + p <=? 16)%Z then Finite s (n * 10 ^ (p + 1)) (-1)
  else Finite s n p.

(** The two multiples of [10 ^ p] around [xn / xd], the nearer first. *)
Definition candidates (xn xd : Z) (p : Z) : list Z :=
  let '(n, d) :=
    if (0 <=? p)%Z then (xn, (xd * 10 ^ p)%Z) else ((xn * 10 ^ (- p))%Z, xd) in
  let lo := (n / d)%Z in
  match (2 * (n mod d) ?= d)%Z with
  | Lt => [lo; (lo + 1)%Z]
  | Gt => [(lo + 1)%Z; lo]
  | Eq => if Z.even lo then [lo; (lo + 1)%Z] else [(lo + 1)%Z; lo]
  end.

(** [float(d)] is the float of sign [s], mantissa [m] and exponent [e]. *)
Definition reads_as (s : bool) (m : positive) (e : Z) (d : Decimal) : bool :=
  match d with
  | Finite s' c p =>
      match binary64_of s' c p with
      | S754_finite s'' m' e' => Bool.eqb s'' s && (m' =? m)%positive && (e' =? e)%Z
      | _ => false
      end
  | _ => false
  end.

(** The decimal of [k] digits nearest to [m * 2 ^ e] that reads back as
    it, if there is one. *)
Definition attempt (s : bool) (m : positive) (e : Z) (k : nat) : option Decimal :=
  let '(xn, xd) :=
    if (0 <=? e)%Z then ((Zpos m * 2 ^ e)%Z, 1%Z) else (Zpos m, (2 ^ (- e))%Z) in
  let e10 := (digits10 (xn * 10 ^ 400 / xd) - 401)%Z in
  let p := (e10 - Z.of_nat k + 1)%Z in
  List.find (reads_as s m e)
    (List.map (fun c => let '(c, p) := strip_zeros 17 c p in written s c p)
       (candidates xn xd p)).

(** [m * 2 ^ e] written out in full. *)
Definition exactly (s : bool) (m : positive) (e : Z) : Decimal :=
  if (0 <=? e)%Z then Finite s (Zpos m * 2 ^ e) 0 else Finite s (Zpos m * 5 ^ (- e)) e.

(** The shortest decimal that reads back as the float: the fewest digits
    first.  Seventeen digits are enough for every binary64, so the search
    stops there; were it to find nothing, the number written out in full
    stands in, which keeps the function total. *)
Definition shortest (s : bool) (m : positive) (e : Z) : Decimal :=
  match List.find (fun k => bool_decide (is_Some (attempt s m e k))) (seq 1 17) with
  | Some k => default (exactly s m e) (attempt s m e k)
  | None => exactly s m e
  end.

(** [Decimal(str(x))]: "nan", "inf" and "-inf" read as the special
    values, "0.0" and "-0.0" as a zero coefficient at exponent -1. *)
Definition Decimal_of_float (x : float) : Decimal :=
  match Prim2SF x with
  | S754_nan => NaN
  | S754_infinity s => Infinity s
  | S754_zero s => Finite s 0 (-1)
  | S754_finite s m e => shortest s m e
  end.

End PyDecimal.

(** * Equality of values, in the words of the specification *)

Module ConversionVocabulary.
Import DynamoDB.

Section Vocabulary.
Context {Decimal : Type}.

(** No float of the value is a NaN. *)
Fixpoint nan_free (obj : value Decimal) : bool :=
  match obj with
  | VFloat x => negb (is_nan x)
  | VDict items => forallb (fun kv => nan_free (snd kv)) items
  | VList elems => forallb nan_free elems
  | _ => true
  end.

(** Equality under floating-point equality, for values without decimals:
    the same kind of value on both sides, texts, integers and booleans
    the same, floats equal by [==], lists and dicts entry by entry in the
    order both sides list them. *)
Fixpoint equal_as_floats (a b : value Decimal) {struct a} : bool :=
  match a, b with
  | VFloat x, VFloat y => PrimFloat.eqb x y
  | VStr s, VStr t => String.eqb s t
  | VInt n, VInt k => Z.eqb n k
  | VBool p, VBool q => Bool.eqb p q
  | VNone, VNone => true
  | VDict items, VDict items' =>
      (fix go (l l' : list (string * value Decimal)) : bool :=
         match l, l' with
         | [], [] => true
         | (k, v) :: l, (k', v') :: l' =>
             String.eqb k k' && equal_as_floats v v' && go l l'
         | _, _ => false
         end) items items'
  | VList elems, VList elems' =>
      (fix go (l l' : list (value Decimal)) : bool :=
         match l, l' with
         | [], [] => true
         | v :: l, v' :: l' => equal_as_floats v v' && go l l'
         | _, _ => false
         end) elems elems'
  | _, _ => false
  end.

End Vocabulary.
End ConversionVocabulary.

(** * A table of decimals, for examples *)

Module CacheDouble.
Import DynamoDB PyDecimal.

Definition recommendations : list (value Decimal) :=
  [VDict [("item_id", VStr "A1"); ("score", VFloat 0.5%float)];
   VDict [("item_id", VStr "B2"); ("score", VFloat 0.25%float)]].

Definition others : list (value Decimal) :=
  [VDict [("item_id", VStr "C3"); ("score", VFloat 0.75%float)]].

(** The table resource refuses infinities and NaNs. *)
Fixpoint writable (obj : value Decimal) : bool :=
  match obj with
  | VDecimal NaN => false
  | VDecimal (Infinity _) => false
  | VDict items => forallb (fun kv => writable (snd kv)) items
  | VList elems => forallb writable elems
  | _ => true
  end.

Definition put_item (it : recommendation_item Decimal) : result unit :=
  if forallb writable (ri_recommendations it) then Ok tt
  else Raise (TypeError "Infinity and NaN not supported").

Definition row_of (user_id : string) (recommendations : list (value Decimal))
    : recommendation_item Decimal :=
  {| ri_tenant_id := "t1";
     ri_user_id := user_id;
     ri_recommendations :=
       List.map (_convert_floats_to_decimal Decimal_of_float) recommendations;
     ri_cached_at := "1970-01-01T00:00:40";
     ri_ttl := Some 3640%Z |}.

(** Users "u1" and "u2" of tenant "t1" both have a row. *)
Definition two_rows : gmap key (recommendation_item Decimal) :=
  {[ ("t1", "u1") := row_of "u1" recommendations;
     ("t1", "u2") := row_of "u2" others ]}.

End CacheDouble.

(** * Facts about strings *)

Module StringFacts.

Lemma append_cons (a : ascii) (p k : string) :
  String a p ++ k = String a (p ++ k).
Proof. reflexivity. Qed.

Lemma append_nil (k : string) : EmptyString ++ k = k.
Proof. reflexivity. Qed.

Lemma append_assoc (a b c : string) : (a ++ b) ++ c = a ++ (b ++ c).
Proof.
  induction a as [| x a IH]; [reflexivity |].
  rewrite !append_cons. now rewrite IH.
Qed.

Lemma prefix_cons (a : ascii) (p s : string) :
  String.prefix (String a p) (String a s) = String.prefix p s.
Proof. cbn. destruct (ascii_dec a a) as [_ | Hne]; [reflexivity | contradiction]. Qed.

Lemma prefix_app (p k : string) : String.prefix p (p ++ k) = true.
Proof.
  induction p as [| a p IH].
  - rewrite append_nil. destruct k; reflexivity.
  - rewrite append_cons, prefix_cons. exact IH.
Qed.

Lemma prefix_split (p s : string) :
  String.prefix p s = true -> exists k, s = p ++ k.
Proof.
  revert s. induction p as [| a p IH]; intros s H.
  - exists s. reflexivity.
  - destruct s as [| b s]; cbn in H; [discriminate |].
    destruct (ascii_dec a b) as [-> | _]; [| discriminate].
    destruct (IH s H) as [k ->]. exists k. reflexivity.
Qed.

Lemma prefix_of_app (p q k : string) :
  String.prefix (p ++ q) (p ++ k) = String.prefix q k.
Proof.
  induction p as [| a p IH].
  - rewrite !append_nil. reflexivity.
  - rewrite !append_cons, prefix_cons. exact IH.
Qed.

Lemma substring_all (s : string) : String.substring 0 (String.length s) s = s.
Proof. induction s as [| a s IH]; cbn; [reflexivity | now rewrite IH]. Qed.

Lemma substring_after (p k : string) :
  String.substring (String.length p) (String.length (p ++ k) - String.length p) (p ++ k)
  = k.
Proof.
  induction p as [| a p IH].
  - rewrite append_nil. cbn. rewrite Nat.sub_0_r. apply substring_all.
  - rewrite append_cons. cbn. exact IH.
Qed.

Lemma replace_first_unfold (old new s : string) :
  replace_first old new s =
  if String.prefix old s
  then new ++ String.substring (String.length old)
                (String.length s - String.length old) s
  else match s with
       | EmptyString => EmptyString
       | String a s' => String a (replace_first old new s')
       end.
Proof. destruct s; reflexivity. Qed.

(** Stripping the tenant segment from a key that starts with it gives
    back the rest of the key. *)
Lemma strip_tenant_prefix (tenant_id k : string) :
  replace_first (tenant_id ++ "/") EmptyString (tenant_id ++ "/" ++ k) = k.
Proof.
  rewrite <- (append_assoc tenant_id "/" k).
  rewrite replace_first_unfold, prefix_app, append_nil. apply substring_after.
Qed.

(** The string helpers on the inputs the adapters give them. *)
Example string_helpers :
  lower "Interactions" = "interactions" /\
  upper "Interactions" = "INTERACTIONS" /\
  strip_quotes (dq ++ "9b2cf5" ++ dq) = "9b2cf5" /\
  replace_first "t1/" EmptyString "t1/a/t1/b.csv" = "a/t1/b.csv" /\
  replace_first "t1/" EmptyString "a/t1/b.csv" = "a/b.csv" /\
  endswith "x.csv" ".csv" = true /\
  endswith "x.csv.gz" ".csv" = false /\
  endswith "csv" ".csv" = false.
Proof. repeat split; reflexivity. Qed.

Example dict_helpers :
  dict_set "b" 2 [("a", 1); ("b", 0); ("c", 3)] = [("a", 1); ("b", 2); ("c", 3)] /\
  dict_set "d" 4 [("a", 1)] = [("a", 1); ("d", 4)] /\
  dict_update [("a", 1); ("b", 2)] [("b", 5); ("c", 6)] = [("a", 1); ("b", 5); ("c", 6)].
Proof. repeat split; reflexivity. Qed.

End StringFacts.

(** * Properties of the recommendation-service adapter *)

Module PersonalizeFacts.
Import Personalize Vocabulary.

Section Facts.
Variable settings : Settings.

Lemma py_in_Exists x l : py_in x l = true <-> Exists (eq x) l.
Proof.
  unfold py_in. rewrite existsb_exists, Exists_exists.
  split; intros (y & Hy & Heq); exists y; split;
    try (apply list_elem_of_In; exact Hy).
  - now apply String.eqb_eq.
  - now apply String.eqb_eq.
Qed.

Lemma creating_iff l :
  py_in "CREATING" l || py_in "CREATE_IN_PROGRESS" l = true <-> Exists creating l.
Proof.
  rewrite orb_true_iff, !py_in_Exists, !Exists_exists. unfold creating.
  split.
  - intros [(y & Hy & Heq) | (y & Hy & Heq)]; exists y; auto.
  - intros (y & Hy & [Heq | Heq]); [left | right]; exists y; auto.
Qed.

Lemma failed_iff l :
  py_in "CREATE_FAILED" l || py_in "FAILED" l = true <-> Exists failed l.
Proof.
  rewrite orb_true_iff, !py_in_Exists, !Exists_exists. unfold failed.
  split.
  - intros [(y & Hy & Heq) | (y & Hy & Heq)]; exists y; auto.
  - intros (y & Hy & [Heq | Heq]); [right | left]; exists y; auto.
Qed.

Lemma active_iff l :
  forallb (fun status => String.eqb status "ACTIVE") l = true <-> Forall active l.
Proof.
  rewrite forallb_forall, Forall_forall. unfold active.
  split; intros H y Hy.
  - apply String.eqb_eq, H, list_elem_of_In, Hy.
  - apply String.eqb_eq, H, list_elem_of_In, Hy.
Qed.

Lemma determine_overall_status_precedence l :
  determine_overall_status l = ordered_precedence l.
Proof.
  unfold determine_overall_status, ordered_precedence.
  destruct (decide (Exists creating l)) as [Hc | Hc].
  { apply creating_iff in Hc. now rewrite Hc. }
  destruct (py_in "CREATING" l || py_in "CREATE_IN_PROGRESS" l) eqn:Ec.
  { apply creating_iff in Ec. contradiction. }
  destruct (decide (Forall active l)) as [Ha | Ha].
  { apply active_iff in Ha. now rewrite Ha. }
  destruct (forallb _ l) eqn:Ea.
  { apply active_iff in Ea. contradiction. }
  destruct (decide (Exists failed l)) as [Hf | Hf].
  { apply failed_iff in Hf. now rewrite Hf. }
  destruct (py_in "CREATE_FAILED" l || py_in "FAILED" l) eqn:Ef.
  { apply failed_iff in Ef. contradiction. }
  reflexivity.
Qed.

(** C2: [get_training_status] takes for each of the three components the
    status of the resource its lookup returns, and "NOT_FOUND" when the
    lookup raises, whatever it raises; it reports the three as its
    components and reduces them by ordered precedence: any creating gives
    "TRAINING", else all active gives "READY", else any failed gives
    "FAILED", else "INCOMPLETE".  No error is reported. *)
Theorem get_training_status_ordered_precedence (self : Client) (tenant_id : string) :
  let dg := match get_dataset_group settings self tenant_id with
            | Ok info => dgi_status info
            | Raise _ => "NOT_FOUND"
            end in
  let so := match get_solution settings self tenant_id with
            | Ok info => soi_status info
            | Raise _ => "NOT_FOUND"
            end in
  let ca := match get_campaign settings self tenant_id with
            | Ok info => cai_status info
            | Raise _ => "NOT_FOUND"
            end in
  get_training_status settings self tenant_id =
    {| si_tenant_id := tenant_id;
       overall_status := ordered_precedence [dg; so; ca];
       si_components :=
         Some {| dataset_group := dg; solution := so; campaign := ca |};
       si_error := None |}.
Proof.
  intros dg so ca. unfold get_training_status.
  rewrite determine_overall_status_precedence. reflexivity.
Qed.

(** *** Create, and on "already exists" look up *)

Lemma find_name_eq {S} (name_of : S -> string) name l e :
  List.find (fun x => String.eqb (name_of x) name) l = Some e -> name_of e = name.
Proof. intros H. apply find_some in H as [_ H]. now apply String.eqb_eq. Qed.

Lemma get_dataset_group_listed self tenant_id arn :
  listed dgs_name dgs_datasetGroupArn (api_list_dataset_groups self)
    (dataset_group_name_of settings tenant_id) arn ->
  exists info,
    get_dataset_group settings self tenant_id = Ok info /\
    dgi_name info = dataset_group_name_of settings tenant_id /\
    dataset_group_arn info = arn.
Proof.
  intros (l & e & Hl & Hf & Ha). unfold get_dataset_group.
  rewrite Hl. cbn. rewrite Hf. cbn. eexists. split; [reflexivity |].
  cbn. split; [eapply find_name_eq; eassumption | assumption].
Qed.

Lemma get_dataset_listed self dataset_type tenant_id group arn :
  get_dataset_group settings self tenant_id = Ok group ->
  listed dss_name dss_datasetArn (api_list_datasets self (dataset_group_arn group))
    (dataset_name_of dataset_type tenant_id) arn ->
  exists info,
    get_dataset settings self dataset_type tenant_id = Ok info /\
    dsi_name info = dataset_name_of dataset_type tenant_id /\
    dataset_arn info = arn.
Proof.
  intros Hg (l & e & Hl & Hf & Ha). unfold get_dataset.
  rewrite Hg. cbn. rewrite Hl. cbn. rewrite Hf. cbn. eexists. split; [reflexivity |].
  cbn. split; [eapply find_name_eq; eassumption | assumption].
Qed.

Lemma get_solution_listed self tenant_id group arn :
  get_dataset_group settings self tenant_id = Ok group ->
  listed sos_name sos_solutionArn (api_list_solutions self (dataset_group_arn group))
    (solution_name_of settings tenant_id) arn ->
  exists info,
    get_solution settings self tenant_id = Ok info /\
    soi_name info = solution_name_of settings tenant_id /\
    solution_arn info = arn.
Proof.
  intros Hg (l & e & Hl & Hf & Ha). unfold get_solution.
  rewrite Hg. cbn. rewrite Hl. cbn. rewrite Hf. cbn. eexists. split; [reflexivity |].
  cbn. split; [eapply find_name_eq; eassumption | assumption].
Qed.

Lemma get_campaign_listed self tenant_id arn :
  listed cas_name cas_campaignArn (api_list_campaigns self)
    (campaign_name_of settings tenant_id) arn ->
  exists info,
    get_campaign settings self tenant_id = Ok info /\
    cai_name info = campaign_name_of settings tenant_id /\
    campaign_arn info = arn.
Proof.
  intros (l & e & Hl & Hf & Ha). unfold get_campaign.
  rewrite Hl. cbn. rewrite Hf. cbn. eexists. split; [reflexivity |].
  cbn. split; [eapply find_name_eq; eassumption | assumption].
Qed.

Lemma create_dataset_group_fallback self tenant_id :
  already_exists
    (api_create_dataset_group self (dataset_group_name_of settings tenant_id)) ->
  create_dataset_group settings self tenant_id =
  get_dataset_group settings self tenant_id.
Proof. intros [text H]. unfold create_dataset_group. now rewrite H. Qed.

Lemma create_dataset_fallback self dataset_type schema_arn tenant_id group :
  get_dataset_group settings self tenant_id = Ok group ->
  already_exists
    (api_create_dataset self (dataset_name_of dataset_type tenant_id) schema_arn
       (dataset_group_arn group) (upper dataset_type)) ->
  create_dataset settings self dataset_type schema_arn tenant_id =
  get_dataset settings self dataset_type tenant_id.
Proof. intros Hg [text H]. unfold create_dataset. rewrite Hg. cbn. now rewrite H. Qed.

Lemma create_solution_fallback self recipe_arn tenant_id group :
  get_dataset_group settings self tenant_id = Ok group ->
  already_exists
    (api_create_solution self (solution_name_of settings tenant_id)
       (dataset_group_arn group) recipe_arn) ->
  create_solution settings self recipe_arn tenant_id =
  get_solution settings self tenant_id.
Proof. intros Hg [text H]. unfold create_solution. rewrite Hg. cbn. now rewrite H. Qed.

Lemma create_campaign_fallback self solution_version_arn tenant_id tps :
  already_exists
    (api_create_campaign self (campaign_name_of settings tenant_id)
       solution_version_arn tps) ->
  create_campaign settings self solution_version_arn tenant_id tps =
  get_campaign settings self tenant_id.
Proof. intros [text H]. unfold create_campaign. now rewrite H. Qed.

(** When a first call created the resource and the page the service then
    lists shows it under the derived name, the second call returns as the
    first did, under the same derived name and with the same ARN. *)
Lemma second_create_same_name_and_arn (before after : Client)
    (tenant_id dataset_type schema_arn recipe_arn solution_version_arn : string)
    (tps : Z) :
  (forall arn,
     api_create_dataset_group before (dataset_group_name_of settings tenant_id) = Ok arn ->
     already_exists
       (api_create_dataset_group after (dataset_group_name_of settings tenant_id)) ->
     listed dgs_name dgs_datasetGroupArn (api_list_dataset_groups after)
       (dataset_group_name_of settings tenant_id) arn ->
     create_dataset_group settings after tenant_id =
       get_dataset_group settings after tenant_id /\
     same_name_and_arn dgi_name dataset_group_arn
       (create_dataset_group settings before tenant_id)
       (create_dataset_group settings after tenant_id)
       (dataset_group_name_of settings tenant_id))
  /\
  (forall g1 g2 arn,
     get_dataset_group settings before tenant_id = Ok g1 ->
     api_create_dataset before (dataset_name_of dataset_type tenant_id) schema_arn
       (dataset_group_arn g1) (upper dataset_type) = Ok arn ->
     get_dataset_group settings after tenant_id = Ok g2 ->
     already_exists
       (api_create_dataset after (dataset_name_of dataset_type tenant_id) schema_arn
          (dataset_group_arn g2) (upper dataset_type)) ->
     listed dss_name dss_datasetArn (api_list_datasets after (dataset_group_arn g2))
       (dataset_name_of dataset_type tenant_id) arn ->
     create_dataset settings after dataset_type schema_arn tenant_id =
       get_dataset settings after dataset_type tenant_id /\
     same_name_and_arn dsi_name dataset_arn
       (create_dataset settings before dataset_type schema_arn tenant_id)
       (create_dataset settings after dataset_type schema_arn tenant_id)
       (dataset_name_of dataset_type tenant_id))
  /\
  (forall g1 g2 arn,
     get_dataset_group settings before tenant_id = Ok g1 ->
     api_create_solution before (solution_name_of settings tenant_id)
       (dataset_group_arn g1) recipe_arn = Ok arn ->
     get_dataset_group settings after tenant_id = Ok g2 ->
     already_exists
       (api_create_solution after (solution_name_of settings tenant_id)
          (dataset_group_arn g2) recipe_arn) ->
     listed sos_name sos_solutionArn (api_list_solutions after (dataset_group_arn g2))
       (solution_name_of settings tenant_id) arn ->
     create_solution settings after recipe_arn tenant_id =
       get_solution settings after tenant_id /\
     same_name_and_arn soi_name solution_arn
       (create_solution settings before recipe_arn tenant_id)
       (create_solution settings after recipe_arn tenant_id)
       (solution_name_of settings tenant_id))
  /\
  (forall arn,
     api_create_campaign before (campaign_name_of settings tenant_id)
       solution_version_arn tps = Ok arn ->
     already_exists
       (api_create_campaign after (campaign_name_of settings tenant_id)
          solution_version_arn tps) ->
     listed cas_name cas_campaignArn (api_list_campaigns after)
       (campaign_name_of settings tenant_id) arn ->
     create_campaign settings after solution_version_arn tenant_id tps =
       get_campaign settings after tenant_id /\
     same_name_and_arn cai_name campaign_arn
       (create_campaign settings before solution_version_arn tenant_id tps)
       (create_campaign settings after solution_version_arn tenant_id tps)
       (campaign_name_of settings tenant_id)).
Proof.
  repeat apply conj.
  - intros arn Hcreate Hexists Hlisted.
    pose proof (create_dataset_group_fallback after tenant_id Hexists) as Hfb.
    split; [exact Hfb |].
    destruct (get_dataset_group_listed after tenant_id arn Hlisted)
      as (i2 & Hget & Hname & Harn).
    unfold same_name_and_arn. rewrite Hfb, Hget.
    unfold create_dataset_group. rewrite Hcreate. cbn.
    do 2 eexists. repeat split; cbn; congruence.
  - intros g1 g2 arn Hg1 Hcreate Hg2 Hexists Hlisted.
    pose proof (create_dataset_fallback after dataset_type schema_arn tenant_id g2
                  Hg2 Hexists) as Hfb.
    split; [exact Hfb |].
    destruct (get_dataset_listed after dataset_type tenant_id g2 arn Hg2 Hlisted)
      as (i2 & Hget & Hname & Harn).
    unfold same_name_and_arn. rewrite Hfb, Hget.
    unfold create_dataset. rewrite Hg1. cbn. rewrite Hcreate. cbn.
    do 2 eexists. repeat split; cbn; congruence.
  - intros g1 g2 arn Hg1 Hcreate Hg2 Hexists Hlisted.
    pose proof (create_solution_fallback after recipe_arn tenant_id g2 Hg2 Hexists)
      as Hfb.
    split; [exact Hfb |].
    destruct (get_solution_listed after tenant_id g2 arn Hg2 Hlisted)
      as (i2 & Hget & Hname & Harn).
    unfold same_name_and_arn. rewrite Hfb, Hget.
    unfold create_solution. rewrite Hg1. cbn. rewrite Hcreate. cbn.
    do 2 eexists. repeat split; cbn; congruence.
  - intros arn Hcreate Hexists Hlisted.
    pose proof (create_campaign_fallback after solution_version_arn tenant_id tps
                  Hexists) as Hfb.
    split; [exact Hfb |].
    destruct (get_campaign_listed after tenant_id arn Hlisted)
      as (i2 & Hget & Hname & Harn).
    unfold same_name_and_arn. rewrite Hfb, Hget.
    unfold create_campaign. rewrite Hcreate. cbn.
    do 2 eexists. repeat split; cbn; congruence.
Qed.

(** C5 (as the code has it): each of the four create operations, when the
    service answers "already exists", looks the derived name up in the one
    page the list call returns: it returns the first entry of that name on
    the page, with the entry's ARN and current status, and raises "not
    found for tenant" when the page has no entry of that name.  So when a
    first call created the resource and the page lists it, the second
    call returns as the first did, under the same derived name and with
    the same ARN. *)
Theorem create_falls_back_to_lookup (before after : Client)
    (tenant_id dataset_type schema_arn recipe_arn solution_version_arn : string)
    (tps : Z) :
  ((forall page,
      already_exists
        (api_create_dataset_group after (dataset_group_name_of settings tenant_id)) ->
      api_list_dataset_groups after = Ok page ->
      create_dataset_group settings after tenant_id
      = match find (fun dg => String.eqb (dgs_name dg)
                                (dataset_group_name_of settings tenant_id)) page with
        | Some dg =>
            Ok {| dataset_group_arn := dgs_datasetGroupArn dg;
                  dgi_name := dataset_group_name_of settings tenant_id;
                  dgi_status := dgs_status dg |}
        | None =>
            Raise (Exception ("Dataset group not found for tenant " ++ tenant_id))
        end)
   /\
   (forall group page,
      get_dataset_group settings after tenant_id = Ok group ->
      already_exists
        (api_create_dataset after (dataset_name_of dataset_type tenant_id) schema_arn
           (dataset_group_arn group) (upper dataset_type)) ->
      api_list_datasets after (dataset_group_arn group) = Ok page ->
      create_dataset settings after dataset_type schema_arn tenant_id
      = match find (fun d => String.eqb (dss_name d)
                               (dataset_name_of dataset_type tenant_id)) page with
        | Some d =>
            Ok {| dataset_arn := dss_datasetArn d;
                  dsi_name := dataset_name_of dataset_type tenant_id;
                  dsi_type := dataset_type;
                  dsi_status := dss_status d |}
        | None =>
            Raise (Exception (dataset_type ++ " dataset not found for tenant "
                              ++ tenant_id))
        end)
   /\
   (forall group page,
      get_dataset_group settings after tenant_id = Ok group ->
      already_exists
        (api_create_solution after (solution_name_of settings tenant_id)
           (dataset_group_arn group) recipe_arn) ->
      api_list_solutions after (dataset_group_arn group) = Ok page ->
      create_solution settings after recipe_arn tenant_id
      = match find (fun s => String.eqb (sos_name s)
                               (solution_name_of settings tenant_id)) page with
        | Some s =>
            Ok {| solution_arn := sos_solutionArn s;
                  soi_name := solution_name_of settings tenant_id;
                  soi_status := sos_status s;
                  soi_recipe_arn := default EmptyString (sos_recipeArn s) |}
        | None => Raise (Exception ("Solution not found for tenant " ++ tenant_id))
        end)
   /\
   (forall page,
      already_exists
        (api_create_campaign after (campaign_name_of settings tenant_id)
           solution_version_arn tps) ->
      api_list_campaigns after = Ok page ->
      create_campaign settings after solution_version_arn tenant_id tps
      = match find (fun c => String.eqb (cas_name c)
                               (campaign_name_of settings tenant_id)) page with
        | Some c =>
            Ok {| campaign_arn := cas_campaignArn c;
                  cai_name := campaign_name_of settings tenant_id;
                  cai_status := cas_status c;
                  cai_solution_version_arn :=
                    default EmptyString (cas_solutionVersionArn c) |}
        | None => Raise (Exception ("Campaign not found for tenant " ++ tenant_id))
        end))
  /\
  ((forall arn,
      api_create_dataset_group before (dataset_group_name_of settings tenant_id) = Ok arn ->
      already_exists
        (api_create_dataset_group after (dataset_group_name_of settings tenant_id)) ->
      listed dgs_name dgs_datasetGroupArn (api_list_dataset_groups after)
        (dataset_group_name_of settings tenant_id) arn ->
      same_name_and_arn dgi_name dataset_group_arn
        (create_dataset_group settings before tenant_id)
        (create_dataset_group settings after tenant_id)
        (dataset_group_name_of settings tenant_id))
   /\
   (forall g1 g2 arn,
      get_dataset_group settings before tenant_id = Ok g1 ->
      api_create_dataset before (dataset_name_of dataset_type tenant_id) schema_arn
        (dataset_group_arn g1) (upper dataset_type) = Ok arn ->
      get_dataset_group settings after tenant_id = Ok g2 ->
      already_exists
        (api_create_dataset after (dataset_name_of dataset_type tenant_id) schema_arn
           (dataset_group_arn g2) (upper dataset_type)) ->
      listed dss_name dss_datasetArn (api_list_datasets after (dataset_group_arn g2))
        (dataset_name_of dataset_type tenant_id) arn ->
      same_name_and_arn dsi_name dataset_arn
        (create_dataset settings before dataset_type schema_arn tenant_id)
        (create_dataset settings after dataset_type schema_arn tenant_id)
        (dataset_name_of dataset_type tenant_id))
   /\
   (forall g1 g2 arn,
      get_dataset_group settings before tenant_id = Ok g1 ->
      api_create_solution before (solution_name_of settings tenant_id)
        (dataset_group_arn g1) recipe_arn = Ok arn ->
      get_dataset_group settings after tenant_id = Ok g2 ->
      already_exists
        (api_create_solution after (solution_name_of settings tenant_id)
           (dataset_group_arn g2) recipe_arn) ->
      listed sos_name sos_solutionArn (api_list_solutions after (dataset_group_arn g2))
        (solution_name_of settings tenant_id) arn ->
      same_name_and_arn soi_name solution_arn
        (create_solution settings before recipe_arn tenant_id)
        (create_solution settings after recipe_arn tenant_id)
        (solution_name_of settings tenant_id))
   /\
   (forall arn,
      api_create_campaign before (campaign_name_of settings tenant_id)
        solution_version_arn tps = Ok arn ->
      already_exists
        (api_create_campaign after (campaign_name_of settings tenant_id)
           solution_version_arn tps) ->
      listed cas_name cas_campaignArn (api_list_campaigns after)
        (campaign_name_of settings tenant_id) arn ->
      same_name_and_arn cai_name campaign_arn
        (create_campaign settings before solution_version_arn tenant_id tps)
        (create_campaign settings after solution_version_arn tenant_id tps)
        (campaign_name_of settings tenant_id))).
Proof.
  split.
  - split; [| split; [| split]].
    + intros page Hexists Hpage.
      rewrite (create_dataset_group_fallback after tenant_id Hexists).
      unfold get_dataset_group. rewrite Hpage. cbn [rbind except_ClientError].
      destruct (find _ page) as [dg |] eqn:Hfind; [| reflexivity].
      cbn. now rewrite (find_name_eq _ _ _ _ Hfind).
    + intros group page Hgroup Hexists Hpage.
      rewrite (create_dataset_fallback after dataset_type schema_arn tenant_id group
                 Hgroup Hexists).
      unfold get_dataset. rewrite Hgroup. cbn [rbind]. rewrite Hpage.
      cbn [rbind except_ClientError].
      destruct (find _ page) as [d |] eqn:Hfind; [| reflexivity].
      cbn. now rewrite (find_name_eq _ _ _ _ Hfind).
    + intros group page Hgroup Hexists Hpage.
      rewrite (create_solution_fallback after recipe_arn tenant_id group Hgroup Hexists).
      unfold get_solution. rewrite Hgroup. cbn [rbind]. rewrite Hpage.
      cbn [rbind except_ClientError].
      destruct (find _ page) as [so |] eqn:Hfind; [| reflexivity].
      cbn. now rewrite (find_name_eq _ _ _ _ Hfind).
    + intros page Hexists Hpage.
      rewrite (create_campaign_fallback after solution_version_arn tenant_id tps
                 Hexists).
      unfold get_campaign. rewrite Hpage. cbn [rbind except_ClientError].
      destruct (find _ page) as [c |] eqn:Hfind; [| reflexivity].
      cbn. now rewrite (find_name_eq _ _ _ _ Hfind).
  - destruct (second_create_same_name_and_arn before after tenant_id dataset_type
                schema_arn recipe_arn solution_version_arn tps)
      as (Hdg & Hds & Hso & Hca).
    split; [| split; [| split]].
    + intros arn H1 H2 H3. exact (proj2 (Hdg arn H1 H2 H3)).
    + intros g1 g2 arn H1 H2 H3 H4 H5. exact (proj2 (Hds g1 g2 arn H1 H2 H3 H4 H5)).
    + intros g1 g2 arn H1 H2 H3 H4 H5. exact (proj2 (Hso g1 g2 arn H1 H2 H3 H4 H5)).
    + intros arn H1 H2 H3. exact (proj2 (Hca arn H1 H2 H3)).
Qed.

End Facts.

(** A creating component wins over a failed one; "READY" needs all three
    active. *)
Example training_beats_failed :
  ordered_precedence ["FAILED"; "CREATING"; "NOT_FOUND"] = "TRAINING" /\
  ordered_precedence ["ACTIVE"; "ACTIVE"; "ACTIVE"] = "READY" /\
  ordered_precedence ["ACTIVE"; "CREATE_FAILED"; "NOT_FOUND"] = "FAILED" /\
  ordered_precedence ["ACTIVE"; "ACTIVE"; "NOT_FOUND"] = "INCOMPLETE".
Proof. repeat split; vm_compute; reflexivity. Qed.

(** The in-memory service meets the premises: tenant "t1" creating each
    resource a second time gets the first call's name and ARN back, the
    dataset group with the status the listing shows. *)
Lemma create_falls_back_to_lookup_witness :
  create_dataset_group PersonalizeDouble.demo_settings
    (PersonalizeDouble.client_of PersonalizeDouble.sv1) "t1"
  = Ok {| dataset_group_arn := PersonalizeDouble.arn_for "dataset-group" "retail-t1";
          dgi_name := "retail-t1";
          dgi_status := "ACTIVE" |} /\
  same_name_and_arn dgi_name dataset_group_arn
    (create_dataset_group PersonalizeDouble.demo_settings
       (PersonalizeDouble.client_of PersonalizeDouble.sv0) "t1")
    (create_dataset_group PersonalizeDouble.demo_settings
       (PersonalizeDouble.client_of PersonalizeDouble.sv1) "t1")
    "retail-t1" /\
  same_name_and_arn dsi_name dataset_arn
    (create_dataset PersonalizeDouble.demo_settings
       (PersonalizeDouble.client_of PersonalizeDouble.sv1) "Interactions" "schema" "t1")
    (create_dataset PersonalizeDouble.demo_settings
       (PersonalizeDouble.client_of PersonalizeDouble.sv2) "Interactions" "schema" "t1")
    "interactions-t1" /\
  same_name_and_arn soi_name solution_arn
    (create_solution PersonalizeDouble.demo_settings
       (PersonalizeDouble.client_of PersonalizeDouble.sv1) "recipe" "t1")
    (create_solution PersonalizeDouble.demo_settings
       (PersonalizeDouble.client_of PersonalizeDouble.sv2) "recipe" "t1")
    "retail-recommendations-t1" /\
  same_name_and_arn cai_name campaign_arn
    (create_campaign PersonalizeDouble.demo_settings
       (PersonalizeDouble.client_of PersonalizeDouble.sv1) "version" "t1" 1)
    (create_campaign PersonalizeDouble.demo_settings
       (PersonalizeDouble.client_of PersonalizeDouble.sv2) "version" "t1" 1)
    "retail-campaign-t1".
Proof.
  pose proof (create_falls_back_to_lookup PersonalizeDouble.demo_settings
                (PersonalizeDouble.client_of PersonalizeDouble.sv0)
                (PersonalizeDouble.client_of PersonalizeDouble.sv1)
                "t1" "Interactions" "schema" "recipe" "version" 1)
    as ((Hpage & _) & Hdg & _).
  pose proof (create_falls_back_to_lookup PersonalizeDouble.demo_settings
                (PersonalizeDouble.client_of PersonalizeDouble.sv1)
                (PersonalizeDouble.client_of PersonalizeDouble.sv2)
                "t1" "Interactions" "schema" "recipe" "version" 1)
    as (_ & _ & Hds & Hso & Hca).
  repeat apply conj.
  - apply (Hpage (firstn 100 (PersonalizeDouble.sv_dataset_groups PersonalizeDouble.sv1))).
    + eexists. reflexivity.
    + reflexivity.
  - eapply Hdg.
    + reflexivity.
    + eexists. reflexivity.
    + do 2 eexists. repeat split; reflexivity.
  - eapply Hds.
    + reflexivity.
    + reflexivity.
    + reflexivity.
    + eexists. reflexivity.
    + do 2 eexists. repeat split; reflexivity.
  - eapply Hso.
    + reflexivity.
    + reflexivity.
    + reflexivity.
    + eexists. reflexivity.
    + do 2 eexists. repeat split; reflexivity.
  - eapply Hca.
    + reflexivity.
    + eexists. reflexivity.
    + do 2 eexists. repeat split; reflexivity.
Defined.

(** The claim as written fails once the service holds more than a page
    of dataset groups: tenant "t1" created the 101st group; its second
    create is answered "already exists", the lookup reads the page of the
    first hundred, and the call raises instead of returning the name and
    ARN of the first call. *)
Lemma second_create_beyond_first_page_raises :
  create_dataset_group PersonalizeDouble.demo_settings
    (PersonalizeDouble.client_of PersonalizeCrowded.hundred) "t1"
  = Ok {| dataset_group_arn := PersonalizeDouble.arn_for "dataset-group" "retail-t1";
          dgi_name := "retail-t1";
          dgi_status := "CREATING" |} /\
  In (PersonalizeCrowded.group_of "t1")
    (PersonalizeDouble.sv_dataset_groups PersonalizeCrowded.hundred_and_one) /\
  already_exists
    (api_create_dataset_group
       (PersonalizeDouble.client_of PersonalizeCrowded.hundred_and_one) "retail-t1") /\
  create_dataset_group PersonalizeDouble.demo_settings
    (PersonalizeDouble.client_of PersonalizeCrowded.hundred_and_one) "t1"
  = Raise (Exception "Dataset group not found for tenant t1") /\
  ~ same_name_and_arn dgi_name dataset_group_arn
      (create_dataset_group PersonalizeDouble.demo_settings
         (PersonalizeDouble.client_of PersonalizeCrowded.hundred) "t1")
      (create_dataset_group PersonalizeDouble.demo_settings
         (PersonalizeDouble.client_of PersonalizeCrowded.hundred_and_one) "t1")
      "retail-t1".
Proof.
  assert (Hsecond :
            create_dataset_group PersonalizeDouble.demo_settings
              (PersonalizeDouble.client_of PersonalizeCrowded.hundred_and_one) "t1"
            = Raise (Exception "Dataset group not found for tenant t1"))
    by (vm_compute; reflexivity).
  split; [vm_compute; reflexivity |].
  split; [apply in_or_app; right; left; reflexivity |].
  split; [eexists; vm_compute; reflexivity |].
  split; [exact Hsecond |].
  intros (i1 & i2 & _ & H2 & _). rewrite Hsecond in H2. discriminate H2.
Qed.

End PersonalizeFacts.

(** * Properties of the key-value adapter *)

(** * Facts about the runtime's decimals *)

Module PyDecimalFacts.
Import PyDecimal.
Local Open Scope Z_scope.

(** The decimals of some floats, as the runtime writes them: "0.5",
    "123.0", "1e+16", "1.5e-07", "-2.5", "5e-324" and seventeen digits
    for the float next to 0.3. *)
Example decimals_of_floats :
  Decimal_of_float 0.5%float = Finite false 5 (-1) /\
  Decimal_of_float 123%float = Finite false 1230 (-1) /\
  Decimal_of_float 1e16%float = Finite false 1 16 /\
  Decimal_of_float 1.5e-7%float = Finite false 15 (-8) /\
  Decimal_of_float (-2.5)%float = Finite true 25 (-1) /\
  Decimal_of_float (SF2Prim (S754_finite false 1 (-1074))) = Finite false 5 (-324) /\
  Decimal_of_float (0.1 + 0.2)%float = Finite false 30000000000000004 (-17) /\
  Decimal_of_float neg_zero = Finite true 0 (-1) /\
  Decimal_of_float nan = NaN /\
  Decimal_of_float neg_infinity = Infinity true.
Proof. repeat split; vm_compute; reflexivity. Qed.

(** Reading a decimal rounds to the nearest float, halves to even, and
    saturates: "1e400" is infinite, "1e-400" is zero, "0.1" is the float
    next to one tenth. *)
Example floats_of_decimals :
  float_of_Decimal (Finite false 1 400) = infinity /\
  float_of_Decimal (Finite true 1 (-400)) = neg_zero /\
  float_of_Decimal (Finite false 1 (-1)) = (1 / 10)%float /\
  float_of_Decimal (Finite false 9007199254740993 0) = 9007199254740992%float /\
  float_of_Decimal (Finite false 9007199254740995 0) = 9007199254740996%float /\
  float_of_Decimal NaN = nan.
Proof. repeat split; vm_compute; reflexivity. Qed.

Lemma digits2_pos_size (m : positive) : digits2_pos m = Pos.size m.
Proof. induction m as [m IH | m IH |]; cbn; congruence. Qed.

Lemma digits2_log2 (m : positive) : Zpos (digits2_pos m) = Z.log2 (Zpos m) + 1.
Proof.
  rewrite digits2_pos_size. destruct m as [m | m |]; cbn; lia.
Qed.

(** What validity of a finite binary64 says of mantissa and exponent. *)
Lemma bounded_inv (m : positive) (e : Z) :
  bounded prec emax m e = true ->
  e = Z.max (Z.log2 (Zpos m) + e - 52) (-1074) /\ e <= 971 /\ Zpos m < 2 ^ 53.
Proof.
  unfold bounded, canonical_mantissa, fexp, SpecFloat.emin, prec, emax.
  rewrite andb_true_iff, Z.eqb_eq, Z.leb_le, digits2_log2.
  intros [Hcanon Hmax]. split; [| split].
  - lia.
  - lia.
  - assert (Z.log2 (Zpos m) < 53) by lia.
    apply Z.log2_lt_pow2; lia.
Qed.

Lemma round_half_even_exact (m d : Z) : 0 < d -> round_half_even (m * d) d = m.
Proof.
  intros Hd. unfold round_half_even.
  rewrite Z.div_mul, Z.mod_mul by lia.
  change (2 * 0) with 0. destruct (Z.compare_spec 0 d); lia.
Qed.

Lemma nearest_exact (s : bool) (m : positive) (e num den : Z) :
  bounded prec emax m e = true ->
  0 < den ->
  num * 2 ^ 1200 / den = Zpos m * 2 ^ (e + 1200) ->
  (if 0 <=? e then round_half_even num (den * 2 ^ e)
   else round_half_even (num * 2 ^ (- e)) den) = Zpos m ->
  nearest_binary64 s num den = S754_finite s m e.
Proof.
  intros Hb Hden Htop Hround.
  destruct (bounded_inv m e Hb) as (He & Hmax & Hm).
  assert (Hge : -1074 <= e) by lia.
  assert (He' : Z.max (Z.log2 (Zpos m * 2 ^ (e + 1200)) - 1200 - 52) (-1074) = e).
  { rewrite Z.log2_mul_pow2 by lia. lia. }
  unfold nearest_binary64. cbv zeta. rewrite Htop, He', Hround.
  destruct (Z.eqb_spec (Zpos m) (2 ^ 53)) as [Heq | _]; [lia |].
  destruct (Z.leb_spec e 971); [reflexivity | lia].
Qed.

Lemma exactly_reads (s : bool) (m : positive) (e : Z) :
  bounded prec emax m e = true ->
  float_of_Decimal (exactly s m e) = SF2Prim (S754_finite s m e).
Proof.
  intros Hb. destruct (bounded_inv m e Hb) as (He & Hmax & Hm).
  assert (Hge : -1074 <= e) by lia.
  unfold exactly. destruct (Z.leb_spec 0 e) as [Hpos | Hneg]; cbn [float_of_Decimal]; f_equal.
  - unfold binary64_of. cbn [Z.leb]. rewrite Z.mul_1_r.
    apply nearest_exact; [exact Hb | lia | |].
    + rewrite Z.div_1_r, <- Z.mul_assoc, <- Z.pow_add_r by lia. reflexivity.
    + destruct (Z.leb_spec 0 e); [| lia].
      rewrite Z.mul_1_l. apply round_half_even_exact. lia.
  - unfold binary64_of. destruct (Z.leb_spec 0 e); [lia |].
    assert (H10 : 10 ^ (- e) = 2 ^ (- e) * 5 ^ (- e)).
    { change 10 with (2 * 5). apply Z.pow_mul_l. }
    assert (H5 : 0 < 5 ^ (- e)) by (apply Z.pow_pos_nonneg; lia).
    assert (H2 : 0 < 2 ^ (- e)) by (apply Z.pow_pos_nonneg; lia).
    apply nearest_exact; [exact Hb | lia | |].
    + rewrite H10.
      replace (2 ^ 1200) with (2 ^ (e + 1200) * 2 ^ (- e))
        by (rewrite <- Z.pow_add_r by lia; f_equal; lia).
      replace (Z.pos m * 5 ^ (- e) * (2 ^ (e + 1200) * 2 ^ (- e)))
        with (Zpos m * 2 ^ (e + 1200) * (2 ^ (- e) * 5 ^ (- e))) by ring.
      apply Z.div_mul. lia.
    + destruct (Z.leb_spec 0 e); [lia |].
      rewrite H10.
      replace (Z.pos m * 5 ^ (- e) * 2 ^ (- e)) with (Zpos m * (2 ^ (- e) * 5 ^ (- e))) by ring.
      apply round_half_even_exact. lia.
Qed.

Lemma reads_as_sound (s : bool) (m : positive) (e : Z) (d : Decimal) :
  reads_as s m e d = true -> float_of_Decimal d = SF2Prim (S754_finite s m e).
Proof.
  destruct d as [| s' | s' c p]; cbn; try discriminate.
  destruct (binary64_of s' c p) as [| | | s'' m' e']; try discriminate.
  rewrite !andb_true_iff, Pos.eqb_eq, Z.eqb_eq.
  intros [[Hs ->] ->]. apply Bool.eqb_prop in Hs as ->. reflexivity.
Qed.

Lemma attempt_reads (s : bool) (m : positive) (e : Z) (k : nat) (d : Decimal) :
  attempt s m e k = Some d -> float_of_Decimal d = SF2Prim (S754_finite s m e).
Proof.
  unfold attempt. destruct (if 0 <=? e then _ else _) as [xn xd].
  intros Hfind. apply find_some in Hfind as [_ Hreads].
  now apply reads_as_sound.
Qed.

Lemma shortest_reads (s : bool) (m : positive) (e : Z) :
  bounded prec emax m e = true ->
  float_of_Decimal (shortest s m e) = SF2Prim (S754_finite s m e).
Proof.
  intros Hb. unfold shortest.
  destruct (find _ (seq 1 17)) as [k |]; [| now apply exactly_reads].
  destruct (attempt s m e k) as [d |] eqn:Hk; cbn [default from_option id].
  - exact (attempt_reads s m e k d Hk).
  - now apply exactly_reads.
Qed.

(** The round trip of one float: [float(Decimal(str(x)))] is [x]. *)
Theorem float_round_trip (x : float) : float_of_Decimal (Decimal_of_float x) = x.
Proof.
  rewrite <- (SF2Prim_Prim2SF x) at 2.
  unfold Decimal_of_float. pose proof (Prim2SF_valid x) as Hvalid.
  destruct (Prim2SF x) as [s | s | | s m e].
  - destruct s; vm_compute; reflexivity.
  - reflexivity.
  - reflexivity.
  - now apply shortest_reads.
Qed.
End PyDecimalFacts.

Module DynamoDBFacts.
Import DynamoDB DynamoDBVocabulary ConversionVocabulary.

Section Conversion.
Context {Decimal : Type}.
Variable Decimal_of_float : float -> Decimal.
Variable float_of_Decimal : Decimal -> float.

(** The runtime's guarantee for a float: the decimal made from its
    shortest text converts back to it. *)
Hypothesis float_round_trip :
  forall x, float_of_Decimal (Decimal_of_float x) = x.

(** Induction over nested values. *)
Lemma value_nested_ind (P : value Decimal -> Prop) :
  (forall x, P (VFloat x)) ->
  (forall d, P (VDecimal d)) ->
  (forall s, P (VStr s)) ->
  (forall n, P (VInt n)) ->
  (forall b, P (VBool b)) ->
  P VNone ->
  (forall items, Forall (fun kv => P (snd kv)) items -> P (VDict items)) ->
  (forall elems, Forall P elems -> P (VList elems)) ->
  forall obj, P obj.
Proof.
  intros Hfloat Hdec Hstr Hint Hbool Hnone Hdict Hlist.
  fix IH 1.
  intros [x | d | s | n | b | | items | elems];
    [apply Hfloat | apply Hdec | apply Hstr | apply Hint | apply Hbool
     | exact Hnone | | ].
  - apply Hdict.
    induction items as [| [k v] items IHitems]; constructor; [apply IH | exact IHitems].
  - apply Hlist.
    induction elems as [| v elems IHelems]; constructor; [apply IH | exact IHelems].
Qed.

(** On a value built from floats, strings, integers, dicts and lists,
    converting floats to decimals and back is the identity, through every
    level of nesting, when it is on a single float. *)
Lemma round_trip_from_leaf (obj : value Decimal) :
  decimal_free obj = true ->
  _convert_decimals_to_float float_of_Decimal
    (_convert_floats_to_decimal Decimal_of_float obj) = obj.
Proof.
  revert obj.
  apply (value_nested_ind
           (fun obj =>
              decimal_free obj = true ->
              _convert_decimals_to_float float_of_Decimal
                (_convert_floats_to_decimal Decimal_of_float obj) = obj));
    cbn; try reflexivity.
  - intros x _. now rewrite float_round_trip.
  - intros d Hfree. discriminate.
  - intros items IH Hfree. f_equal.
    induction IH as [| [k v] items Hv _ IHitems]; [reflexivity |].
    cbn in Hfree. apply andb_true_iff in Hfree as [Hfv Hfitems].
    cbn in *. rewrite Hv by assumption. f_equal. now apply IHitems.
  - intros elems IH Hfree. f_equal.
    induction IH as [| v elems Hv _ IHelems]; [reflexivity |].
    cbn in Hfree. apply andb_true_iff in Hfree as [Hfv Hfelems].
    cbn. rewrite Hv by assumption. f_equal. now apply IHelems.
Qed.

End Conversion.

(** A value without decimals is equal to itself under floating-point
    equality exactly when it holds no NaN. *)
Lemma equal_as_floats_refl {Decimal} (obj : value Decimal) :
  decimal_free obj = true -> equal_as_floats obj obj = nan_free obj.
Proof.
  revert obj.
  apply (value_nested_ind
           (fun obj => decimal_free obj = true ->
                       equal_as_floats obj obj = nan_free obj)); cbn.
  - intros x _. unfold is_nan. now rewrite negb_involutive.
  - discriminate.
  - intros s _. apply String.eqb_refl.
  - intros n _. apply Z.eqb_refl.
  - intros b _. now destruct b.
  - reflexivity.
  - intros items IH Hfree.
    induction IH as [| [k v] items Hv _ IHitems]; [reflexivity |].
    cbn in Hfree. apply andb_true_iff in Hfree as [Hfv Hfitems].
    cbn in *. rewrite String.eqb_refl, (Hv Hfv), (IHitems Hfitems). reflexivity.
  - intros elems IH Hfree.
    induction IH as [| v elems Hv _ IHelems]; [reflexivity |].
    cbn in Hfree. apply andb_true_iff in Hfree as [Hfv Hfelems].
    cbn. rewrite (Hv Hfv), (IHelems Hfelems). reflexivity.
Qed.

(** C4 (as the code has it): on a value built from floats, strings,
    integers, dicts and lists, converting floats to the runtime's decimals
    and back returns the value itself, through every level of nesting:
    each float comes back as the same float, a NaN as a NaN.  The result
    is therefore equal to the original under floating-point equality
    exactly when the value holds no NaN. *)
Theorem convert_round_trip (obj : value PyDecimal.Decimal) :
  decimal_free obj = true ->
  let back :=
    _convert_decimals_to_float PyDecimal.float_of_Decimal
      (_convert_floats_to_decimal PyDecimal.Decimal_of_float obj) in
  back = obj /\ equal_as_floats back obj = nan_free obj.
Proof.
  intros Hfree back.
  assert (Hback : back = obj).
  { apply round_trip_from_leaf; [| exact Hfree].
    apply PyDecimalFacts.float_round_trip. }
  split; [exact Hback |].
  rewrite Hback. now apply equal_as_floats_refl.
Qed.

(** A nested value with floats, an integer and a text goes through both
    conversions unchanged and compares equal to the original. *)
Lemma convert_round_trip_witness :
  let obj : value PyDecimal.Decimal :=
    VDict [("items", VList CacheDouble.recommendations);
           ("count", VInt 2);
           ("scores", VList [VFloat 0.1%float; VFloat (-2.5)%float; VFloat infinity]);
           ("note", VStr "fresh")] in
  let back :=
    _convert_decimals_to_float PyDecimal.float_of_Decimal
      (_convert_floats_to_decimal PyDecimal.Decimal_of_float obj) in
  decimal_free obj = true /\ back = obj /\ equal_as_floats back obj = true.
Proof.
  intros obj back.
  destruct (convert_round_trip obj eq_refl) as [Hback Hequal].
  split; [reflexivity |]. split; [exact Hback |].
  fold back in Hequal. rewrite Hequal. reflexivity.
Defined.

(** The claim as written fails at a NaN: it comes back as a NaN, and a
    NaN is not equal to itself. *)
Lemma nan_comes_back_unequal :
  decimal_free (VList [VFloat nan : value PyDecimal.Decimal]) = true /\
  equal_as_floats
    (_convert_decimals_to_float PyDecimal.float_of_Decimal
       (_convert_floats_to_decimal PyDecimal.Decimal_of_float
          (VList [VFloat nan])))
    (VList [VFloat nan])
  = false.
Proof. split; vm_compute; reflexivity. Qed.

Section Cache.
Context {Decimal : Type}.
Variable float_of_Decimal : Decimal -> float.

(** What one cache read does to the table, computed. *)
Lemma run_get_cached_recommendations (now : datetime)
    (tenant_id user_id : string) (table : gmap key (recommendation_item Decimal)) :
  run now (get_cached_recommendations float_of_Decimal tenant_id user_id) table =
    match table !! (tenant_id, user_id) with
    | None => (Ok None, table)
    | Some item =>
        if decide (timestamp now <= default 0 (ri_ttl item))%Z
        then (Ok (Some (List.map (_convert_decimals_to_float float_of_Decimal)
                          (ri_recommendations item))),
              table)
        else (Ok None, delete (tenant_id, user_id) table)
    end.
Proof.
  unfold get_cached_recommendations, call. cbn [run serve].
  destruct (table !! (tenant_id, user_id)) as [item |]; cbn [run serve];
    [| reflexivity].
  destruct (decide _) as [Hd | Hd];
    destruct (Z.ltb_spec (default 0%Z (ri_ttl item)) (timestamp now)) as [Hlt | Hge];
    cbn; try reflexivity; lia.
Qed.

(** C1 (as the code has it): the cache read returns the stored items,
    decimals turned to floats, when a row is present whose ttl is not
    before the clock reading; a row whose ttl is before it is deleted and
    the read is absent; with no row the read is absent and the table
    untouched.  After an absent read the row is gone, and any later read
    is absent too. *)
Theorem get_cached_recommendations_lazy_expiry (now : datetime)
    (tenant_id user_id : string) (table : gmap key (recommendation_item Decimal)) :
  run now (get_cached_recommendations float_of_Decimal tenant_id user_id) table =
    match table !! (tenant_id, user_id) with
    | None => (Ok None, table)
    | Some item =>
        if decide (timestamp now <= default 0 (ri_ttl item))%Z
        then (Ok (Some (List.map (_convert_decimals_to_float float_of_Decimal)
                          (ri_recommendations item))),
              table)
        else (Ok None, delete (tenant_id, user_id) table)
    end
  /\
  (forall table',
     run now (get_cached_recommendations float_of_Decimal tenant_id user_id) table
     = (Ok None, table') ->
     table' !! (tenant_id, user_id) = None /\
     forall later,
       run later (get_cached_recommendations float_of_Decimal tenant_id user_id) table'
       = (Ok None, table')).
Proof.
  split; [apply run_get_cached_recommendations |].
  intros table' Habsent. rewrite run_get_cached_recommendations in Habsent.
  assert (Hgone : table' !! (tenant_id, user_id) = None).
  { destruct (table !! (tenant_id, user_id)) as [item |] eqn:Hrow.
    - destruct (decide _) in Habsent; [discriminate |].
      injection Habsent as <-. apply lookup_delete_eq.
    - injection Habsent as <-. exact Hrow. }
  split; [exact Hgone |].
  intros later. rewrite run_get_cached_recommendations, Hgone. reflexivity.
Qed.

End Cache.

(** A row whose ttl equals the clock reading is still returned, although
    its ttl is not strictly after it. *)
Lemma row_expiring_now_is_returned :
  ~ returned_exactly_when_ttl_after RuntimeDouble.float_of_Decimal
      (RuntimeDouble.at_second 100) "t1" "u1" RuntimeDouble.table.
Proof.
  intros [Hreturned _].
  destruct Hreturned as (item & Hrow & Hlt).
  - exists RuntimeDouble.recommendations. vm_compute. reflexivity.
  - assert (Hitem : RuntimeDouble.table !! ("t1", "u1") = Some RuntimeDouble.row)
      by (vm_compute; reflexivity).
    rewrite Hitem in Hrow. injection Hrow as <-. cbn in Hlt. lia.
Qed.

(** At second 101 the same row has expired: the read is absent, the row
    is deleted, and a read at any later time is absent. *)
Example expired_row_is_deleted :
  run (RuntimeDouble.at_second 101)
    (get_cached_recommendations RuntimeDouble.float_of_Decimal "t1" "u1")
    RuntimeDouble.table
  = (Ok None, delete ("t1", "u1") RuntimeDouble.table).
Proof.
  rewrite run_get_cached_recommendations.
  assert (Hitem : RuntimeDouble.table !! ("t1", "u1") = Some RuntimeDouble.row)
    by (vm_compute; reflexivity).
  rewrite Hitem. reflexivity.
Qed.

(** A list cached for one hour at second 0 is served up to and including
    second 3600, and is absent from second 3601 on. *)
Example cached_for_one_hour :
  let cached :=
    snd (run (RuntimeDouble.at_second 0)
           (cache_recommendations RuntimeDouble.Decimal_of_float "t1" "u1"
              RuntimeDouble.recommendations 1)
           ∅) in
  fst (run (RuntimeDouble.at_second 3600)
         (get_cached_recommendations RuntimeDouble.float_of_Decimal "t1" "u1") cached)
  = Ok (Some RuntimeDouble.recommendations) /\
  fst (run (RuntimeDouble.at_second 3601)
         (get_cached_recommendations RuntimeDouble.float_of_Decimal "t1" "u1") cached)
  = Ok None.
Proof. split; vm_compute; reflexivity. Qed.

(** *** Campaign metrics *)

Section Metrics.
Context {Decimal : Type}.

#[local] Abbreviation start_acc :=
  {| acc_total_events := 0; acc_unique_users := ∅; acc_events_by_type := ∅ |}.

Lemma count_type_snoc event_type (items : list (event_item Decimal)) item :
  count_type event_type (items ++ [item]) =
  (count_type event_type items
   + if String.eqb (ei_event_type item) event_type then 1 else 0)%Z.
Proof.
  unfold count_type. rewrite List.filter_app, length_app. cbn.
  destruct (String.eqb (ei_event_type item) event_type); cbn; lia.
Qed.

Lemma count_type_nonneg event_type (items : list (event_item Decimal)) :
  (0 <= count_type event_type items)%Z.
Proof. unfold count_type. lia. Qed.

(** The two dictionary statements of a loop turn amount to one update. *)
Lemma count_event_by_type (acc : metrics_acc) (item : event_item Decimal) :
  acc_events_by_type (count_event acc item) =
  <[ei_event_type item :=
      (default 0%Z (acc_events_by_type acc !! ei_event_type item) + 1)%Z]>
    (acc_events_by_type acc).
Proof.
  unfold count_event. cbn.
  destruct (acc_events_by_type acc !! ei_event_type item) as [c |] eqn:Hc.
  - rewrite Hc. reflexivity.
  - rewrite lookup_insert_eq. cbn. apply insert_insert_eq.
Qed.

Lemma sum_counts_increment (by_type : gmap string Z) event_type :
  sum_counts (<[event_type := (default 0%Z (by_type !! event_type) + 1)%Z]> by_type)
  = (sum_counts by_type + 1)%Z.
Proof.
  unfold sum_counts.
  destruct (by_type !! event_type) as [c |] eqn:Hc; cbn.
  - rewrite (map_fold_delete_L _ _ event_type c by_type); [| intros; lia | exact Hc].
    rewrite <- insert_delete_eq.
    rewrite map_fold_insert_L; [lia | intros; lia | apply lookup_delete_eq].
  - rewrite map_fold_insert_L; [lia | intros; lia | exact Hc].
Qed.

(** What the loop has accumulated after any list of events. *)
Lemma loop_invariant (items : list (event_item Decimal)) :
  let acc := fold_left count_event items start_acc in
  acc_total_events acc = Z.of_nat (length items) /\
  (forall event_type,
     acc_events_by_type acc !! event_type =
     if decide (count_type event_type items = 0%Z) then None
     else Some (count_type event_type items)) /\
  sum_counts (acc_events_by_type acc) = acc_total_events acc /\
  (size (acc_unique_users acc) <= length items)%nat.
Proof.
  induction items as [| item items IH] using rev_ind.
  - cbn. repeat split; reflexivity.
  - cbn zeta in *. rewrite fold_left_app. cbn [fold_left].
    set (acc := fold_left count_event items start_acc) in *.
    destruct IH as (Htotal & Hby_type & Hsum & Husers).
    repeat apply conj.
    + cbn. rewrite Htotal, length_app. cbn. lia.
    + intros event_type. rewrite count_event_by_type, count_type_snoc.
      pose proof (count_type_nonneg event_type items) as Hnn.
      destruct (String.eqb_spec (ei_event_type item) event_type) as [-> | Hne].
      * rewrite lookup_insert_eq, Hby_type.
        destruct (decide (count_type event_type items = 0%Z)) as [-> | Hnz]; cbn;
          destruct (decide _) as [Hz | _]; try lia; reflexivity.
      * rewrite lookup_insert_ne by exact Hne. rewrite Hby_type.
        rewrite Z.add_0_r. reflexivity.
    + rewrite count_event_by_type, sum_counts_increment, Hsum. reflexivity.
    + cbn. rewrite length_app. cbn.
      rewrite size_union_alt.
      assert (Hsub : {[ei_user_id item]} ∖ acc_unique_users acc
                     ⊆ ({[ei_user_id item]} : gset string))
        by (apply subseteq_difference_l; reflexivity).
      apply subseteq_size in Hsub. rewrite size_singleton in Hsub. lia.
Qed.

(** C3: [get_campaign_metrics] counts the events of each type, and both
    rates are the count over the count of "sent" events times 100, or 0.0
    when there is no "sent" event; 10 sent, 3 clicked and 1 converted give
    30.0 and 10.0. *)
Theorem campaign_metrics_rates (tenant_id campaign_id : string)
    (start_date end_date : option datetime) (items : list (event_item Decimal)) :
  let m := calculate_metrics campaign_id items in
  let sent := count_type "sent" items in
  let clicked := count_type "clicked" items in
  let converted := count_type "converted" items in
  answers (get_campaign_metrics tenant_id campaign_id start_date end_date)
    (campaign_tracking_query_campaign tenant_id campaign_id
       (campaign_filter start_date end_date))
    items (Metrics m) /\
  (forall event_type,
     events_by_type m !! event_type =
     if decide (count_type event_type items = 0%Z) then None
     else Some (count_type event_type items)) /\
  click_through_rate m =
    (if decide (sent = 0%Z) then 0%float else (truediv clicked sent * 100)%float) /\
  conversion_rate m =
    (if decide (sent = 0%Z) then 0%float else (truediv converted sent * 100)%float) /\
  (sent = 10%Z -> clicked = 3%Z -> converted = 1%Z ->
   click_through_rate m = 30%float /\ conversion_rate m = 10%float).
Proof.
  intros m sent clicked converted.
  destruct (loop_invariant items) as (_ & Hby_type & _ & _). cbn zeta in Hby_type.
  assert (Hcount : forall event_type,
            default 0%Z (events_by_type m !! event_type) = count_type event_type items).
  { intros event_type. unfold m, calculate_metrics. cbn. rewrite Hby_type.
    destruct (decide _) as [Hz | _]; cbn; congruence. }
  assert (Hctr : click_through_rate m =
            (if decide (sent = 0%Z) then 0%float else (truediv clicked sent * 100)%float)).
  { unfold m, calculate_metrics. cbn.
    pose proof (Hcount "sent") as Hs. pose proof (Hcount "clicked") as Hc.
    unfold m, calculate_metrics in Hs, Hc. cbn in Hs, Hc. rewrite Hs, Hc.
    fold sent clicked. pose proof (count_type_nonneg "sent" items) as Hnn.
    fold sent in Hnn.
    destruct (Z.ltb_spec 0 sent); destruct (decide (sent = 0%Z)); try lia; reflexivity. }
  assert (Hcvr : conversion_rate m =
            (if decide (sent = 0%Z) then 0%float else (truediv converted sent * 100)%float)).
  { unfold m, calculate_metrics. cbn.
    pose proof (Hcount "sent") as Hs. pose proof (Hcount "converted") as Hc.
    unfold m, calculate_metrics in Hs, Hc. cbn in Hs, Hc. rewrite Hs, Hc.
    fold sent converted. pose proof (count_type_nonneg "sent" items) as Hnn.
    fold sent in Hnn.
    destruct (Z.ltb_spec 0 sent); destruct (decide (sent = 0%Z)); try lia; reflexivity. }
  repeat apply conj.
  - eexists. split; reflexivity.
  - intros event_type. unfold m, calculate_metrics. cbn. apply Hby_type.
  - exact Hctr.
  - exact Hcvr.
  - intros Hs Hc Hv. rewrite Hctr, Hcvr, Hs, Hc, Hv. split; vm_compute; reflexivity.
Qed.

(** C10: the metrics returned for any list of events have [total_events]
    equal to the sum of the counts in [events_by_type], and [unique_users]
    at most [total_events]. *)
Theorem campaign_metrics_totals (tenant_id campaign_id : string)
    (start_date end_date : option datetime) (items : list (event_item Decimal)) :
  exists m,
    answers (get_campaign_metrics tenant_id campaign_id start_date end_date)
      (campaign_tracking_query_campaign tenant_id campaign_id
         (campaign_filter start_date end_date))
      items (Metrics m) /\
    total_events m = sum_counts (events_by_type m) /\
    (unique_users m <= total_events m)%Z.
Proof.
  exists (calculate_metrics campaign_id items).
  destruct (loop_invariant items) as (Htotal & _ & Hsum & Husers).
  cbn zeta in *. repeat apply conj.
  - eexists. split; reflexivity.
  - unfold calculate_metrics. cbn. symmetry. exact Hsum.
  - unfold calculate_metrics. cbn. rewrite Htotal. lia.
Qed.

End Metrics.

(** Ten "sent", three "clicked" and one "converted" event of four users. *)
Example ten_sent_three_clicked_one_converted :
  let users := ["u1"; "u2"; "u3"; "u4"; "u1"; "u2"; "u3"; "u4"; "u1"; "u2"] in
  let items :=
    app (List.map (fun u => RuntimeDouble.event u "sent") users)
      (app (List.map (fun u => RuntimeDouble.event u "clicked") ["u1"; "u2"; "u3"])
         [RuntimeDouble.event "u1" "converted"]) in
  let m := calculate_metrics "c1" items in
  total_events m = 14%Z /\
  unique_users m = 4%Z /\
  events_by_type m !! "sent" = Some 10%Z /\
  events_by_type m !! "clicked" = Some 3%Z /\
  events_by_type m !! "converted" = Some 1%Z /\
  events_by_type m !! "opened" = None /\
  click_through_rate m = 30%float /\
  conversion_rate m = 10%float /\
  click_through_rate (calculate_metrics "c1" [RuntimeDouble.event "u1" "clicked"])
  = 0%float.
Proof. repeat split; vm_compute; reflexivity. Qed.

(** *** Failure semantics *)

Section Failures.
Context {Decimal : Type}.
Variable Decimal_of_float : float -> Decimal.
Variable float_of_Decimal : Decimal -> float.

(** A request wrapped in the [except ClientError] clause: the error case
    is closed by computation, the answered case is left. *)
Ltac answered :=
  unfold call; cbn [ends_on_error]; split; [intros; reflexivity |].

Lemma delete_expired_ends_on_error {A} (on_error : string -> prog Decimal A)
    (items : list (recommendation_item Decimal)) :
  forall count k,
    (forall n, ends_on_error on_error (k n)) ->
    ends_on_error on_error
      (delete_expired (fun _ text => on_error text) items count k).
Proof.
  induction items as [| item items IH]; intros count k Hk; cbn [delete_expired].
  - apply Hk.
  - answered. intros _. apply IH, Hk.
Qed.

(** C6 (as the code has it): whichever request the store answers with an
    error, every operation ends at once, without a further request;
    [cache_recommendations] and [create_user_profile] raise a generic
    exception wrapping the store error's text, the other operations
    return their failure value: [None], [False], an empty list, or a
    dictionary holding the error's text. *)
Theorem store_error_ends_operation (tenant_id user_id campaign_id event_type : string)
    (recommendations : list (value Decimal))
    (profile_data event_data : value Decimal)
    (updates : list (string * value Decimal)) (ttl_hours limit : Z)
    (start_date end_date : option datetime) :
  raises_wrapped "Recommendations caching failed: "
    (cache_recommendations Decimal_of_float tenant_id user_id recommendations ttl_hours) /\
  raises_wrapped "User profile creation failed: "
    (create_user_profile Decimal_of_float tenant_id user_id profile_data) /\
  returns_on_error (fun _ => None)
    (get_cached_recommendations float_of_Decimal tenant_id user_id) /\
  returns_on_error (fun _ => false)
    (invalidate_recommendations_cache (Decimal := Decimal) tenant_id user_id) /\
  returns_on_error (fun _ => None)
    (get_user_profile float_of_Decimal tenant_id user_id) /\
  returns_on_error (fun _ => false)
    (update_user_profile Decimal_of_float tenant_id user_id updates) /\
  returns_on_error (fun _ => [])
    (list_user_profiles (Decimal := Decimal) tenant_id limit) /\
  returns_on_error (fun _ => false)
    (track_campaign_event Decimal_of_float tenant_id campaign_id user_id event_type
       event_data) /\
  returns_on_error (fun text => MetricsError campaign_id text)
    (get_campaign_metrics (Decimal := Decimal) tenant_id campaign_id start_date end_date) /\
  returns_on_error (fun _ => [])
    (get_user_campaign_history float_of_Decimal tenant_id user_id limit) /\
  returns_on_error (fun text => CleanupError text)
    (cleanup_expired_items (Decimal := Decimal) tenant_id).
Proof.
  unfold raises_wrapped, returns_on_error.
  repeat match goal with |- _ /\ _ => split end.
  - unfold cache_recommendations. cbn [ends_on_error]. intros now1 now2.
    answered. intros _. exact I.
  - unfold create_user_profile. cbn [ends_on_error]. intros now1 now2.
    answered. intros _. exact I.
  - unfold get_cached_recommendations. answered.
    intros [item |]; [| exact I]. cbn [ends_on_error]. intros now.
    destruct (_ <? _)%Z; [| exact I].
    answered. intros _. exact I.
  - unfold invalidate_recommendations_cache. answered. intros _. exact I.
  - unfold get_user_profile. answered. intros [item |]; exact I.
  - unfold update_user_profile. cbn [ends_on_error]. intros now.
    destruct (fold_left _ _ _) as [update_expression expression_attribute_values].
    answered. intros _. exact I.
  - unfold list_user_profiles. answered. intros items. exact I.
  - unfold track_campaign_event. cbn [ends_on_error]. intros now1 now2 now3.
    answered. intros _. exact I.
  - unfold get_campaign_metrics. answered. intros items. exact I.
  - unfold get_user_campaign_history. answered. intros items. exact I.
  - unfold cleanup_expired_items. cbn [ends_on_error]. intros now.
    answered. intros items.
    apply (delete_expired_ends_on_error (fun text => Ret (CleanupError text))).
    intros recommendations'. answered. intros campaigns. exact I.
Qed.

End Failures.

(** A store error on the cache read, or on recording an event, is not
    raised: the operation returns [None], respectively [False]. *)
Lemma store_error_is_not_always_raised :
  ~ (exists what,
       raises_wrapped what
         (get_cached_recommendations RuntimeDouble.float_of_Decimal "t1" "u1")) /\
  ~ (exists what,
       raises_wrapped what
         (track_campaign_event RuntimeDouble.Decimal_of_float "t1" "c1" "u1" "sent"
            (VDict []))).
Proof.
  split.
  - intros (what & Hraise & _).
    specialize (Hraise "ProvisionedThroughputExceededException" "throttled").
    discriminate Hraise.
  - intros (what & Hraise).
    specialize (Hraise (RuntimeDouble.at_second 0) (RuntimeDouble.at_second 0)
                  (RuntimeDouble.at_second 0)) as (Hraise & _).
    specialize (Hraise "ProvisionedThroughputExceededException" "throttled").
    discriminate Hraise.
Qed.

End DynamoDBFacts.

(** * Properties of the object-store adapter *)

Module S3Facts.
Import S3 S3Vocabulary StringFacts.

Section Facts.
Variable bucket_name : string.
Variable entity_tag : string -> string.

Lemma upload_file_stores fc key tenant_id content_type metadata s :
  failing s = None ->
  exists info obj,
    upload_file bucket_name entity_tag fc key tenant_id content_type metadata s
    = (Ok info,
       {| objects := <[tenant_id ++ "/" ++ key := obj]> (objects s);
          failing := None;
          utcnow := utcnow s |}) /\
    S3.key info = tenant_id ++ "/" ++ key /\
    url info = "s3://" ++ bucket_name ++ "/" ++ tenant_id ++ "/" ++ key.
Proof.
  intros Hok. unfold upload_file, put_object. rewrite Hok.
  do 2 eexists. split; [reflexivity |]. split; reflexivity.
Qed.

Lemma list_files_strips prefix tenant_id max_keys s :
  failing s = None ->
  exists files,
    list_files bucket_name prefix tenant_id max_keys s = (Ok files, s) /\
    (forall f, In f files ->
       is_Some (objects s !! (tenant_id ++ "/" ++ fi_key f)) /\
       String.prefix prefix (fi_key f) = true) /\
    (forall k,
       is_Some (objects s !! (tenant_id ++ "/" ++ k)) ->
       String.prefix prefix k = true ->
       (length (matching (tenant_id ++ "/" ++ prefix) s) <= Z.to_nat max_keys)%nat ->
       In k (List.map fi_key files)).
Proof.
  intros Hok. unfold list_files, list_objects_v2. rewrite Hok.
  eexists. split; [reflexivity |]. split.
  - intros f Hf. apply in_map_iff in Hf as (c & <- & Hc).
    apply in_map_iff in Hc as ([k obj] & <- & Hkv). cbn [fi_key Key fst].
    assert (Hin : In (k, obj) (matching (tenant_id ++ "/" ++ prefix) s)).
    { unfold matching. rewrite <- (firstn_skipn (Z.to_nat max_keys)).
      apply in_or_app. now left. }
    apply filter_In in Hin as [Hstored Hprefix]. cbn [fst] in Hprefix.
    apply list_elem_of_In, elem_of_map_to_list in Hstored.
    destruct (prefix_split _ _ Hprefix) as [rest ->].
    rewrite !append_assoc in *. rewrite strip_tenant_prefix. split.
    + exists obj. exact Hstored.
    + apply prefix_app.
  - intros k [obj Hstored] Hprefix Hfits.
    unfold matching in Hfits. rewrite firstn_all2 by exact Hfits.
    rewrite !map_map. apply in_map_iff.
    exists (tenant_id ++ "/" ++ k, obj). cbn [fi_key Key fst]. split.
    + apply strip_tenant_prefix.
    + apply filter_In. split.
      * apply list_elem_of_In, elem_of_map_to_list. exact Hstored.
      * cbn [fst]. apply prefix_split in Hprefix as [rest ->].
        rewrite <- !append_assoc. apply prefix_app.
Qed.

(** C7 (as the code has it): an upload stores the object under
    [{tenant_id}/{key}]; a listing for the same tenant returns each stored
    key with that one leading segment stripped, so every returned key,
    put back behind the tenant's segment, is a stored key, and the
    uploaded key is among them when the page holds all that match. *)
Theorem tenant_prefix_is_hidden (fc : file_content)
    (key tenant_id content_type : string) (metadata : option (list (string * string)))
    (prefix : string) (max_keys : Z) (s : service) :
  failing s = None ->
  exists info s',
    upload_file bucket_name entity_tag fc key tenant_id content_type metadata s
    = (Ok info, s') /\
    S3.key info = tenant_id ++ "/" ++ key /\
    is_Some (objects s' !! (tenant_id ++ "/" ++ key)) /\
    exists files,
      list_files bucket_name prefix tenant_id max_keys s' = (Ok files, s') /\
      (forall f, In f files ->
         is_Some (objects s' !! (tenant_id ++ "/" ++ fi_key f)) /\
         String.prefix prefix (fi_key f) = true) /\
      (String.prefix prefix key = true ->
       (length (matching (tenant_id ++ "/" ++ prefix) s') <= Z.to_nat max_keys)%nat ->
       In key (List.map fi_key files)).
Proof.
  intros Hok.
  destruct (upload_file_stores fc key tenant_id content_type metadata s Hok)
    as (info & obj & Hupload & Hkey & _).
  eexists info, _. split; [exact Hupload |]. split; [exact Hkey |].
  assert (Hstored : is_Some
            (objects {| objects := <[tenant_id ++ "/" ++ key := obj]> (objects s);
                        failing := None;
                        utcnow := utcnow s |} !! (tenant_id ++ "/" ++ key))).
  { cbn. rewrite lookup_insert_eq. eauto. }
  split; [exact Hstored |].
  destruct (list_files_strips prefix tenant_id max_keys
              {| objects := <[tenant_id ++ "/" ++ key := obj]> (objects s);
                 failing := None;
                 utcnow := utcnow s |} eq_refl)
    as (files & Hlist & Hstripped & Hcomplete).
  exists files. split; [exact Hlist |]. split; [exact Hstripped |].
  intros Hprefix Hfits. now apply Hcomplete.
Qed.

End Facts.

(** Tenant "t1" uploading "x.csv" into an empty bucket. *)
Lemma tenant_prefix_is_hidden_witness :
  failing S3Double.empty_bucket = None /\
  exists info s',
    upload_file S3Double.bucket_name S3Double.entity_tag (of_str "user,item")
      "x.csv" "t1" "text/csv" None S3Double.empty_bucket
    = (Ok info, s') /\
    S3.key info = "t1/x.csv" /\
    is_Some (objects s' !! "t1/x.csv") /\
    exists files,
      list_files S3Double.bucket_name EmptyString "t1" 1000 s' = (Ok files, s') /\
      (forall f, In f files ->
         is_Some (objects s' !! ("t1" ++ "/" ++ fi_key f)) /\
         String.prefix EmptyString (fi_key f) = true) /\
      (String.prefix EmptyString "x.csv" = true ->
       (length (matching ("t1" ++ "/" ++ EmptyString) s') <= Z.to_nat 1000)%nat ->
       In "x.csv" (List.map fi_key files)).
Proof.
  split; [reflexivity |].
  apply (tenant_prefix_is_hidden S3Double.bucket_name S3Double.entity_tag
           (of_str "user,item") "x.csv" "t1" "text/csv" None EmptyString 1000
           S3Double.empty_bucket).
  reflexivity.
Defined.

(** Caller metadata is merged over the adapter's three entries. *)
Example upload_metadata :
  (fun s => Metadata <$> objects s !! "t1/x.csv")
    (snd (upload_file S3Double.bucket_name S3Double.entity_tag (of_bytes "user,item")
            "x.csv" "t1" "text/csv" (Some [("rows", "1"); ("content_type", "csv")])
            S3Double.empty_bucket))
  = Some [("tenant_id", "t1"); ("uploaded_at", "1970-01-01T00:00:00");
          ("content_type", "csv"); ("rows", "1")].
Proof. vm_compute. reflexivity. Qed.

(** The stored path is [t1/x.csv] and the listing shows [x.csv]. *)
Example upload_then_list :
  S3.key <$> fst (upload_file S3Double.bucket_name S3Double.entity_tag
                    (of_str "user,item") "x.csv" "t1" "text/csv" None
                    S3Double.empty_bucket)
  = Ok "t1/x.csv" /\
  List.map fi_key (S3Double.listing "t1" (S3Double.upload "x.csv" "t1" S3Double.empty_bucket))
  = ["x.csv"].
Proof. split; vm_compute; reflexivity. Qed.

(** A caller's key that itself starts with the tenant's segment comes
    back as supplied, leading segment included. *)
Lemma listed_key_may_start_with_tenant :
  ~ no_leading_tenant_segment "t1"
      (S3Double.listing "t1" (S3Double.upload "t1/x.csv" "t1" S3Double.empty_bucket)).
Proof.
  intros Hnone.
  assert (Hkeys : List.map fi_key
            (S3Double.listing "t1"
               (S3Double.upload "t1/x.csv" "t1" S3Double.empty_bucket))
          = ["t1/x.csv"]) by (vm_compute; reflexivity).
  revert Hnone Hkeys.
  generalize (S3Double.listing "t1"
                (S3Double.upload "t1/x.csv" "t1" S3Double.empty_bucket)).
  intros [| f files] Hnone Hkeys; [discriminate Hkeys |].
  injection Hkeys as Hkey _.
  specialize (Hnone f (or_introl eq_refl)).
  rewrite Hkey in Hnone. vm_compute in Hnone. discriminate Hnone.
Qed.

End S3Facts.

(** * Properties of the messaging adapter *)

Module PinpointFacts.
Import Pinpoint PinpointVocabulary StringFacts.

Section Facts.
Variable application_id : string.
Variable from_address : string.
Variable format_2f : float -> string.
Variable send_messages : message_request -> result string.

Lemma append_empty_r (s : string) : s ++ EmptyString = s.
Proof.
  induction s as [| a s IH]; [reflexivity |].
  rewrite append_cons. now rewrite IH.
Qed.

Lemma html_loop (shown : list recommendation) :
  forall html_content,
    fold_left (fun html_content rec => html_content ++ html_item format_2f rec)
      shown html_content
    = html_content ++ rendered format_2f shown.
Proof.
  induction shown as [| rec shown IH]; intros html_content; cbn [fold_left rendered fold_right].
  - now rewrite append_empty_r.
  - rewrite IH. fold (rendered format_2f shown). now rewrite append_assoc.
Qed.

(** C9: a channel other than "email" and "sms" raises [ValueError] naming
    the channel, and no request has been issued; for "email" the one
    request carries an HTML body made of the header, the blocks of the
    first five recommendations at most, and the footer. *)
Theorem unsupported_channel_fails_fast (tenant_id user_id : string)
    (recommendations : list recommendation) (channel template_name : string) :
  (channel <> "email" -> channel <> "sms" ->
   send_personalized_recommendations application_id from_address format_2f
     send_messages tenant_id user_id recommendations channel template_name
   = ([], Raise (ValueError ("Unsupported channel: " ++ channel)))) /\
  (exists shown outcome,
     send_personalized_recommendations application_id from_address format_2f
       send_messages tenant_id user_id recommendations "email" template_name
     = ([{| ApplicationId := application_id;
            MessageConfiguration :=
              EmailMessage from_address
                (html_header ++ rendered format_2f shown ++ html_footer)
                "Personalized Recommendations Just for You!";
            Users := [user_id] |}],
        outcome) /\
     shown = firstn 5 recommendations /\
     (length shown <= 5)%nat).
Proof.
  split.
  - intros Hemail Hsms.
    unfold send_personalized_recommendations, build_message_config.
    destruct (String.eqb_spec channel "email") as [-> | _]; [contradiction |].
    destruct (String.eqb_spec channel "sms") as [-> | _]; [contradiction |].
    reflexivity.
  - exists (firstn 5 recommendations). eexists. split; [| split].
    + unfold send_personalized_recommendations, build_message_config.
      cbn [String.eqb Ascii.eqb Bool.eqb andb].
      unfold email_html, top5. rewrite html_loop, append_assoc. reflexivity.
    + reflexivity.
    + apply firstn_le_length.
Qed.

End Facts.

(** Seven recommendations: five blocks go into the e-mail; the "push"
    channel of the docstring is refused without a request. *)
Example push_is_refused :
  let rec := {| title := Some "Mug"; score := None; description := None; url := None |} in
  length (top5 (repeat rec 7)) = 5%nat /\
  send_personalized_recommendations "app" "shop@example.com" (fun _ => "0.00")
    (fun _ => Ok "request-1") "t1" "u1" (repeat rec 7) "push" "recommendations"
  = ([], Raise (ValueError "Unsupported channel: push")).
Proof. split; reflexivity. Qed.

End PinpointFacts.

(** * Properties of the upload route *)

Module MainFacts.
Import Main.

Section Facts.
Variable bucket_name : string.
Variable entity_tag : string -> string.

Lemma two_arguments_leave_tenant_id_unbound :
  missing_required S3.upload_file_parameters 2 = ["tenant_id"].
Proof. reflexivity. Qed.

(** C8 (what the code does): the route builds the key
    [datasets/{tenant}/{dataset_type}/{filename}] but calls [upload_file]
    with two arguments, leaving [tenant_id] unbound; the call raises
    [TypeError], the route answers 500, and the bucket is unchanged. *)
Theorem upload_route_stores_nothing (file : UploadFile)
    (dataset_type tenant_id : string) (s : S3.service) :
  exists detail,
    upload_dataset bucket_name entity_tag file dataset_type tenant_id s
    = (Raise (HTTPException 500 detail), s).
Proof.
  unfold upload_dataset.
  destruct (endswith (filename file) ".csv"); cbn [negb].
  - unfold call_upload_file.
    change (length [arg_file file;
                    arg_str ("datasets/" ++ tenant_id ++ "/" ++ dataset_type ++ "/"
                             ++ filename file)]) with 2%nat.
    rewrite two_arguments_leave_tenant_id_unbound. eexists. reflexivity.
  - eexists. reflexivity.
Qed.

End Facts.

(** Tenant "t1" posting "x.csv" as interactions gets a 500 and nothing is
    stored. *)
Example upload_x_csv :
  Main.upload_dataset S3Double.bucket_name S3Double.entity_tag
    {| filename := "x.csv"; file := "user,item" |} "interactions" "t1"
    S3Double.empty_bucket
  = (Raise (HTTPException 500
              "Upload failed: upload_file() missing 1 required positional argument: 'tenant_id'"),
     S3Double.empty_bucket).
Proof. vm_compute. reflexivity. Qed.

End MainFacts.

(** * Further facts: joining with a separator *)

Module SeparatorFacts.
Import StringFacts.

(** Two texts joined by a separator the first part does not contain can
    be split again in one way only. *)
Lemma join_inj (c : ascii) (a a' b b' : string) :
  lacks c a = true -> lacks c a' = true ->
  a ++ String c b = a' ++ String c b' ->
  a = a' /\ b = b'.
Proof.
  revert a'. induction a as [| x a IH]; intros [| x' a'] Ha Ha' Heq.
  - rewrite !append_nil in Heq. injection Heq as ->. split; reflexivity.
  - rewrite append_nil, append_cons in Heq. injection Heq as <- _.
    cbn in Ha'. rewrite Ascii.eqb_refl in Ha'. discriminate.
  - rewrite append_nil, append_cons in Heq. injection Heq as -> _.
    cbn in Ha. rewrite Ascii.eqb_refl in Ha. discriminate.
  - rewrite !append_cons in Heq. injection Heq as -> Heq.
    cbn in Ha, Ha'. apply andb_true_iff in Ha as [_ Ha].
    apply andb_true_iff in Ha' as [_ Ha'].
    destruct (IH a' Ha Ha' Heq) as [-> ->]. split; reflexivity.
Qed.

Lemma append_nil_r (s : string) : s ++ EmptyString = s.
Proof.
  induction s as [| x s IH]; [apply append_nil |].
  rewrite append_cons. now rewrite IH.
Qed.

Lemma append_inv_head (p a b : string) : p ++ a = p ++ b -> a = b.
Proof.
  induction p as [| x p IH]; intros H.
  - exact H.
  - rewrite !append_cons in H. injection H as H. exact (IH H).
Qed.

End SeparatorFacts.

(** * Further properties of the key-value adapter *)

Module DynamoDBMore.
Import DynamoDB DynamoDBVocabulary DynamoDBTrace.

Section Cache.
Context {Decimal : Type}.
Variable Decimal_of_float : float -> Decimal.
Variable float_of_Decimal : Decimal -> float.

Lemma run_cache_recommendations (now : datetime) (tenant_id user_id : string)
    (recommendations : list (value Decimal)) (ttl_hours : Z)
    (table : gmap key (recommendation_item Decimal)) :
  run now (cache_recommendations Decimal_of_float tenant_id user_id recommendations
             ttl_hours) table
  = (Ok true,
     <[(tenant_id, user_id) :=
         {| ri_tenant_id := tenant_id;
            ri_user_id := user_id;
            ri_recommendations :=
              List.map (_convert_floats_to_decimal Decimal_of_float) recommendations;
            ri_cached_at := isoformat now;
            ri_ttl := Some (timestamp_after now (hours ttl_hours)) |}]> table).
Proof. reflexivity. Qed.

Lemma run_invalidate (now : datetime) (tenant_id user_id : string)
    (table : gmap key (recommendation_item Decimal)) :
  run now (invalidate_recommendations_cache tenant_id user_id) table
  = (Ok true, delete (tenant_id, user_id) table).
Proof. reflexivity. Qed.

Lemma plain_round_trip :
  (forall x, float_of_Decimal (Decimal_of_float x) = x) ->
  forall obj : value Decimal,
    plain obj = true ->
    _convert_decimals_to_float float_of_Decimal
      (_convert_floats_to_decimal Decimal_of_float obj) = obj.
Proof.
  intros Hfloat.
  apply (DynamoDBFacts.value_nested_ind
           (fun obj =>
              plain obj = true ->
              _convert_decimals_to_float float_of_Decimal
                (_convert_floats_to_decimal Decimal_of_float obj) = obj));
    cbn; try reflexivity; try discriminate.
  - intros x _. now rewrite Hfloat.
  - intros items IH Hplain. f_equal.
    induction IH as [| [k v] items Hv _ IHitems]; [reflexivity |].
    cbn in Hplain. apply andb_true_iff in Hplain as [Hpv Hpitems].
    cbn in *. rewrite Hv by assumption. f_equal. now apply IHitems.
  - intros elems IH Hplain. f_equal.
    induction IH as [| v elems Hv _ IHelems]; [reflexivity |].
    cbn in Hplain. apply andb_true_iff in Hplain as [Hpv Hpelems].
    cbn. rewrite Hv by assumption. f_equal. now apply IHelems.
Qed.

(** X2: invalidating succeeds whether or not a row exists, removes the
    row, and every later read for that tenant and user is absent. *)
Theorem invalidate_then_read (now later : datetime) (tenant_id user_id : string)
    (table : gmap key (recommendation_item Decimal)) :
  exists table',
    run now (invalidate_recommendations_cache tenant_id user_id) table
    = (Ok true, table') /\
    table' !! (tenant_id, user_id) = None /\
    run later (get_cached_recommendations float_of_Decimal tenant_id user_id) table'
    = (Ok None, table').
Proof.
  eexists. split; [apply run_invalidate |].
  split; [apply lookup_delete_eq |].
  rewrite DynamoDBFacts.run_get_cached_recommendations, lookup_delete_eq.
  reflexivity.
Qed.

(** X3: a second write for the same tenant and user replaces the first
    altogether: the table is as if the first write had never happened. *)
Theorem last_write_wins (now1 now2 : datetime) (tenant_id user_id : string)
    (first second : list (value Decimal)) (ttl1 ttl2 : Z)
    (table : gmap key (recommendation_item Decimal)) :
  snd (run now2 (cache_recommendations Decimal_of_float tenant_id user_id second ttl2)
         (snd (run now1 (cache_recommendations Decimal_of_float tenant_id user_id
                           first ttl1) table)))
  = snd (run now2 (cache_recommendations Decimal_of_float tenant_id user_id second ttl2)
           table).
Proof.
  rewrite !run_cache_recommendations. cbn [snd]. apply insert_insert_eq.
Qed.

(** *** The table with its checks *)

(** The table that accepts every item is the table of [run]. *)
Lemma run_with_accepting {A} (now : datetime) (p : prog Decimal A)
    (table : gmap key (recommendation_item Decimal)) :
  run_with (fun _ => Ok tt) now p table = run now p table.
Proof.
  revert table. induction p as [a | e | X r k IH | k IH]; intros table; cbn;
    try reflexivity.
  - destruct r; cbn; apply IH.
  - apply IH.
Qed.

Variable put_item : recommendation_item Decimal -> result unit.

(** A write stores the row when the table accepts it and nothing when it
    does not; a [ClientError] is wrapped, any other exception passes. *)
Lemma run_with_cache_recommendations (now : datetime) (tenant_id user_id : string)
    (recommendations : list (value Decimal)) (ttl_hours : Z)
    (table : gmap key (recommendation_item Decimal)) :
  run_with put_item now
    (cache_recommendations Decimal_of_float tenant_id user_id recommendations
       ttl_hours) table
  = match put_item (row_written Decimal_of_float now tenant_id user_id
                      recommendations ttl_hours) with
    | Ok _ =>
        (Ok true,
         <[(tenant_id, user_id) :=
             row_written Decimal_of_float now tenant_id user_id recommendations
               ttl_hours]> table)
    | Raise (ClientError _ text) =>
        (Raise (Exception ("Recommendations caching failed: " ++ text)), table)
    | Raise e => (Raise e, table)
    end.
Proof.
  unfold cache_recommendations, call, row_written. cbn [run_with serve_with list_elems].
  cbn [_convert_floats_to_decimal list_elems].
  destruct (put_item _) as [[] | []]; reflexivity.
Qed.

Lemma run_with_get_cached_recommendations (now : datetime)
    (tenant_id user_id : string) (table : gmap key (recommendation_item Decimal)) :
  run_with put_item now (get_cached_recommendations float_of_Decimal tenant_id user_id)
    table
  = match table !! (tenant_id, user_id) with
    | None => (Ok None, table)
    | Some item =>
        if decide (timestamp now <= default 0 (ri_ttl item))%Z
        then (Ok (Some (List.map (_convert_decimals_to_float float_of_Decimal)
                          (ri_recommendations item))),
              table)
        else (Ok None, delete (tenant_id, user_id) table)
    end.
Proof.
  unfold get_cached_recommendations, call. cbn [run_with serve_with].
  destruct (table !! (tenant_id, user_id)) as [item |]; cbn [run_with serve_with];
    [| reflexivity].
  destruct (decide _) as [Hd | Hd];
    destruct (Z.ltb_spec (default 0%Z (ri_ttl item)) (timestamp now)) as [Hlt | Hge];
    cbn; try reflexivity; lia.
Qed.

Lemma run_with_invalidate (now : datetime) (tenant_id user_id : string)
    (table : gmap key (recommendation_item Decimal)) :
  run_with put_item now (invalidate_recommendations_cache tenant_id user_id) table
  = (Ok true, delete (tenant_id, user_id) table).
Proof. reflexivity. Qed.

(** X4: writing, reading or invalidating the row of one tenant and user
    changes neither the row nor the read of any other tenant or user,
    whether or not the table accepts what is written. *)
Theorem other_rows_untouched (now later : datetime)
    (tenant_id user_id other_tenant other_user : string)
    (recommendations : list (value Decimal)) (ttl_hours : Z)
    (table : gmap key (recommendation_item Decimal)) :
  (other_tenant, other_user) <> (tenant_id, user_id) ->
  forall table',
    table' = snd (run_with put_item now
                    (cache_recommendations Decimal_of_float tenant_id user_id
                       recommendations ttl_hours) table) \/
    table' = snd (run_with put_item now
                    (get_cached_recommendations float_of_Decimal tenant_id user_id)
                    table) \/
    table' = snd (run_with put_item now
                    (invalidate_recommendations_cache tenant_id user_id) table) ->
    table' !! (other_tenant, other_user) = table !! (other_tenant, other_user) /\
    fst (run_with put_item later
           (get_cached_recommendations float_of_Decimal other_tenant other_user) table')
    = fst (run_with put_item later
             (get_cached_recommendations float_of_Decimal other_tenant other_user)
             table).
Proof.
  intros Hother table' Hop.
  assert (Hrow : table' !! (other_tenant, other_user)
                 = table !! (other_tenant, other_user)).
  { destruct Hop as [-> | [-> | ->]].
    - rewrite run_with_cache_recommendations.
      destruct (put_item _) as [[] | []]; cbn [snd]; try reflexivity.
      apply lookup_insert_ne. congruence.
    - rewrite run_with_get_cached_recommendations.
      destruct (table !! (tenant_id, user_id)) as [item |]; [| reflexivity].
      destruct (decide _); cbn [snd]; [reflexivity |].
      apply lookup_delete_ne. congruence.
    - rewrite run_with_invalidate. cbn [snd]. apply lookup_delete_ne. congruence. }
  split; [exact Hrow |].
  rewrite !run_with_get_cached_recommendations, Hrow.
  destruct (table !! (other_tenant, other_user)) as [item |]; [| reflexivity].
  destruct (decide _); reflexivity.
Qed.

End Cache.

(** X1: a list of floats, texts, booleans, [None], dicts and lists that
    the table accepts is read back unchanged, in the same order, at any
    clock reading whose timestamp is not after the expiry time written
    with it, whatever row was there before.  The expiry time is the
    timestamp of the clock reading of the write moved on by the hours
    asked for. *)
Theorem cache_then_read
    (put_item : recommendation_item PyDecimal.Decimal -> result unit)
    (now later : datetime) (tenant_id user_id : string)
    (recommendations : list (value PyDecimal.Decimal)) (ttl_hours : Z)
    (table : gmap key (recommendation_item PyDecimal.Decimal)) :
  forallb plain recommendations = true ->
  put_item (row_written PyDecimal.Decimal_of_float now tenant_id user_id
              recommendations ttl_hours) = Ok tt ->
  (timestamp later <= timestamp_after now (hours ttl_hours))%Z ->
  exists table',
    run_with put_item now
      (cache_recommendations PyDecimal.Decimal_of_float tenant_id user_id
         recommendations ttl_hours) table
    = (Ok true, table') /\
    table' !! (tenant_id, user_id)
    = Some (row_written PyDecimal.Decimal_of_float now tenant_id user_id
              recommendations ttl_hours) /\
    run_with put_item later
      (get_cached_recommendations PyDecimal.float_of_Decimal tenant_id user_id) table'
    = (Ok (Some recommendations), table').
Proof.
  intros Hplain Haccepted Hfresh.
  eexists. split; [| split].
  - rewrite run_with_cache_recommendations, Haccepted. reflexivity.
  - apply lookup_insert_eq.
  - rewrite run_with_get_cached_recommendations, lookup_insert_eq.
    cbn [row_written ri_ttl ri_recommendations default from_option id].
    destruct (decide _) as [_ | Hstale]; [| cbn in Hstale; lia].
    do 3 f_equal. rewrite map_map. clear Haccepted Hfresh.
    induction recommendations as [| v l IH]; [reflexivity |].
    cbn in Hplain. apply andb_true_iff in Hplain as [Hv Hl].
    cbn. rewrite (plain_round_trip _ _ PyDecimalFacts.float_round_trip v Hv).
    f_equal. exact (IH Hl).
Qed.

(** The sample list, cached for an hour at second 40 over the row of
    user "u1", is read back at second 100. *)
Lemma cache_then_read_witness :
  exists table',
    run_with CacheDouble.put_item (RuntimeDouble.at_second 40)
      (cache_recommendations PyDecimal.Decimal_of_float "t1" "u1"
         CacheDouble.others 1) CacheDouble.two_rows
    = (Ok true, table') /\
    run_with CacheDouble.put_item (RuntimeDouble.at_second 100)
      (get_cached_recommendations PyDecimal.float_of_Decimal "t1" "u1") table'
    = (Ok (Some CacheDouble.others), table').
Proof.
  destruct (cache_then_read CacheDouble.put_item (RuntimeDouble.at_second 40)
              (RuntimeDouble.at_second 100) "t1" "u1" CacheDouble.others 1
              CacheDouble.two_rows)
    as (table' & Hwrite & _ & Hread).
  - reflexivity.
  - vm_compute. reflexivity.
  - vm_compute. discriminate.
  - exists table'. split; [exact Hwrite | exact Hread].
Defined.

(** User "u1" of tenant "t1" is invalidated: the row of user "u2" stays
    and is read as before. *)
Lemma other_rows_untouched_witness :
  snd (run_with CacheDouble.put_item (RuntimeDouble.at_second 40)
         (invalidate_recommendations_cache "t1" "u1") CacheDouble.two_rows)
    !! ("t1", "u2")
  = Some (CacheDouble.row_of "u2" CacheDouble.others) /\
  fst (run_with CacheDouble.put_item (RuntimeDouble.at_second 100)
         (get_cached_recommendations PyDecimal.float_of_Decimal "t1" "u2")
         (snd (run_with CacheDouble.put_item (RuntimeDouble.at_second 40)
                 (invalidate_recommendations_cache "t1" "u1") CacheDouble.two_rows)))
  = Ok (Some CacheDouble.others).
Proof.
  assert (Hne : ("t1"%string, "u2"%string) <> ("t1"%string, "u1"%string))
    by discriminate.
  destruct (other_rows_untouched PyDecimal.Decimal_of_float PyDecimal.float_of_Decimal
              CacheDouble.put_item (RuntimeDouble.at_second 40)
              (RuntimeDouble.at_second 100) "t1" "u1" "t1" "u2"
              CacheDouble.others 1 CacheDouble.two_rows Hne _
              (or_intror (or_intror eq_refl)))
    as [Hrow Hread].
  split.
  - rewrite Hrow. vm_compute. reflexivity.
  - rewrite Hread. vm_compute. reflexivity.
Defined.

End DynamoDBMore.

(** * Further properties of the key-value adapter: sweeps, metrics, requests *)

Module DynamoDBSweep.
Import DynamoDB DynamoDBVocabulary DynamoDBTrace StringFacts.

Section Sweep.
Context {Decimal : Type}.
Variable respond : responder (Decimal := Decimal).
Variable now : datetime.

Lemma exec_call_ok {A X} (r : request Decimal X) (x : X)
    (handler : string -> string -> prog Decimal A) (k : X -> prog Decimal A) :
  respond _ r = Ok x ->
  exec respond now (call r handler k)
  = (existT _ r :: fst (exec respond now (k x)), snd (exec respond now (k x))).
Proof.
  intros Hr. unfold call. cbn [exec]. rewrite Hr.
  destruct (exec respond now (k x)). reflexivity.
Qed.

Lemma exec_call_error {A X} (r : request Decimal X) (code text : string)
    (handler : string -> string -> prog Decimal A) (k : X -> prog Decimal A) :
  respond _ r = Raise (ClientError code text) ->
  exec respond now (call r handler k)
  = (existT _ r :: fst (exec respond now (handler code text)),
     snd (exec respond now (handler code text))).
Proof.
  intros Hr. unfold call. cbn [exec]. rewrite Hr.
  destruct (exec respond now (handler code text)). reflexivity.
Qed.

Lemma exec_delete_expired {A} (handler : string -> string -> prog Decimal A)
    (items : list (recommendation_item Decimal)) :
  (forall item, In item items ->
     respond _ (recommendations_delete_item (ri_tenant_id item, ri_user_id item))
     = Ok tt) ->
  forall count k,
    exec respond now (delete_expired handler items count k)
    = (app (List.map delete_of items)
         (fst (exec respond now (k (count + Z.of_nat (length items))%Z))),
       snd (exec respond now (k (count + Z.of_nat (length items))%Z))).
Proof.
  induction items as [| item items IH]; intros Hok count k.
  - cbn [delete_expired length List.map app]. rewrite Z.add_0_r.
    destruct (exec respond now (k count)). reflexivity.
  - cbn [delete_expired]. rewrite (exec_call_ok _ tt) by (apply Hok; now left).
    rewrite IH by (intros it Hit; apply Hok; now right).
    cbn [fst snd List.map app length].
    replace (count + 1 + Z.of_nat (length items))%Z
      with (count + Z.of_nat (S (length items)))%Z by lia.
    reflexivity.
Qed.

Lemma exec_delete_expired_stuck {A} (handler : string -> string -> prog Decimal A)
    (swept rest : list (recommendation_item Decimal))
    (stuck : recommendation_item Decimal) (code text : string) :
  (forall item, In item swept ->
     respond _ (recommendations_delete_item (ri_tenant_id item, ri_user_id item))
     = Ok tt) ->
  respond _ (recommendations_delete_item (ri_tenant_id stuck, ri_user_id stuck))
  = Raise (ClientError code text) ->
  forall count k,
    exec respond now (delete_expired handler (app swept (stuck :: rest)) count k)
    = (app (List.map delete_of swept)
         (delete_of stuck :: fst (exec respond now (handler code text))),
       snd (exec respond now (handler code text))).
Proof.
  intros Hswept Hstuck.
  induction swept as [| item swept IH]; intros count k.
  - cbn [app delete_expired List.map].
    rewrite (exec_call_error _ code text) by exact Hstuck. reflexivity.
  - cbn [app delete_expired List.map].
    rewrite (exec_call_ok _ tt) by (apply Hswept; now left).
    rewrite IH by (intros it Hit; apply Hswept; now right).
    reflexivity.
Qed.

(** X5: when the store answers every request, the sweep issues the query
    for expired rows, one delete per row reported, in order, then the
    count query on the event table, and returns the number of rows it
    deleted together with the count the store reported. *)
Theorem sweep_deletes_each_expired_row (tenant_id : string)
    (items : list (recommendation_item Decimal)) (campaigns : Z) :
  respond _ (recommendations_query_expired tenant_id (timestamp now)) = Ok items ->
  (forall item, In item items ->
     respond _ (recommendations_delete_item (ri_tenant_id item, ri_user_id item))
     = Ok tt) ->
  respond _ (campaign_tracking_query_expired tenant_id (timestamp now)) = Ok campaigns ->
  exec respond now (cleanup_expired_items tenant_id)
  = (existT _ (recommendations_query_expired tenant_id (timestamp now))
       :: app (List.map delete_of items)
            [existT _ (campaign_tracking_query_expired tenant_id (timestamp now))],
     Ok (CleanupCounts (Z.of_nat (length items)) campaigns)).
Proof.
  intros Hquery Hdeletes Hcount.
  unfold cleanup_expired_items. cbn [exec].
  rewrite (exec_call_ok _ items) by exact Hquery.
  rewrite exec_delete_expired by exact Hdeletes.
  rewrite (exec_call_ok _ campaigns) by exact Hcount.
  reflexivity.
Qed.

(** X6: when a delete fails, the sweep stops there: the deletes of the
    rows before it were issued, no request follows the failed one (the
    rows after it are not touched, the event table is not queried), and
    the result is the error dictionary. *)
Theorem sweep_stops_at_failed_delete (tenant_id : string)
    (swept rest : list (recommendation_item Decimal))
    (stuck : recommendation_item Decimal) (code text : string) :
  respond _ (recommendations_query_expired tenant_id (timestamp now))
  = Ok (app swept (stuck :: rest)) ->
  (forall item, In item swept ->
     respond _ (recommendations_delete_item (ri_tenant_id item, ri_user_id item))
     = Ok tt) ->
  respond _ (recommendations_delete_item (ri_tenant_id stuck, ri_user_id stuck))
  = Raise (ClientError code text) ->
  exec respond now (cleanup_expired_items tenant_id)
  = (existT _ (recommendations_query_expired tenant_id (timestamp now))
       :: app (List.map delete_of swept) [delete_of stuck],
     Ok (CleanupError text)).
Proof.
  intros Hquery Hswept Hstuck.
  unfold cleanup_expired_items. cbn [exec].
  rewrite (exec_call_ok _ (app swept (stuck :: rest))) by exact Hquery.
  rewrite (exec_delete_expired_stuck _ swept rest stuck code text Hswept Hstuck).
  reflexivity.
Qed.

End Sweep.

(** Two rows reported, both deleted, three expired events counted. *)
Lemma sweep_deletes_each_expired_row_witness :
  exec TraceDouble.healthy (RuntimeDouble.at_second 200) (cleanup_expired_items "t1")
  = (existT _ (recommendations_query_expired "t1" 200)
       :: app (List.map delete_of [RuntimeDouble.row; TraceDouble.second_row])
            [existT _ (campaign_tracking_query_expired "t1" 200)],
     Ok (CleanupCounts 2 3)).
Proof.
  apply (sweep_deletes_each_expired_row TraceDouble.healthy
           (RuntimeDouble.at_second 200) "t1"
           [RuntimeDouble.row; TraceDouble.second_row] 3).
  - reflexivity.
  - intros item _. reflexivity.
  - reflexivity.
Defined.

(** The delete of the second row is throttled: one row swept, then the error. *)
Lemma sweep_stops_at_failed_delete_witness :
  exec TraceDouble.throttled (RuntimeDouble.at_second 200) (cleanup_expired_items "t1")
  = (existT _ (recommendations_query_expired "t1" 200)
       :: app (List.map delete_of [RuntimeDouble.row]) [delete_of TraceDouble.second_row],
     Ok (CleanupError "throttled")).
Proof.
  apply (sweep_stops_at_failed_delete TraceDouble.throttled
           (RuntimeDouble.at_second 200) "t1" [RuntimeDouble.row] []
           TraceDouble.second_row "ProvisionedThroughputExceededException" "throttled").
  - reflexivity.
  - intros item [<- | []]. reflexivity.
  - reflexivity.
Defined.

End DynamoDBSweep.

(** * Further properties of the key-value adapter: metrics *)

Module DynamoDBMetrics.
Import DynamoDB DynamoDBVocabulary.

Section Metrics.
Context {Decimal : Type}.

#[local] Abbreviation start_acc :=
  {| acc_total_events := 0; acc_unique_users := ∅; acc_events_by_type := ∅ |}.

Lemma unique_users_loop (items : list (event_item Decimal)) :
  acc_unique_users (fold_left count_event items start_acc)
  = list_to_set (List.map ei_user_id items).
Proof.
  induction items as [| item items IH] using rev_ind; [reflexivity |].
  rewrite fold_left_app, map_app. cbn [fold_left List.map count_event acc_unique_users].
  rewrite IH. rewrite list_to_set_app_L. cbn. set_solver.
Qed.

Lemma count_type_perm event_type (items1 items2 : list (event_item Decimal)) :
  items1 ≡ₚ items2 -> count_type event_type items1 = count_type event_type items2.
Proof.
  intros Hperm. unfold count_type. f_equal.
  induction Hperm as [| x l l' _ IH | x y l | l l' l'' _ IH1 _ IH2]; cbn.
  - reflexivity.
  - destruct (String.eqb _ _); cbn; now rewrite IH.
  - destruct (String.eqb (ei_event_type x) _), (String.eqb (ei_event_type y) _);
      reflexivity.
  - now rewrite IH1.
Qed.

Lemma loop_perm (items1 items2 : list (event_item Decimal)) :
  items1 ≡ₚ items2 ->
  fold_left count_event items1 start_acc = fold_left count_event items2 start_acc.
Proof.
  intros Hperm.
  destruct (DynamoDBFacts.loop_invariant items1) as (Htotal1 & Hby1 & _ & _).
  destruct (DynamoDBFacts.loop_invariant items2) as (Htotal2 & Hby2 & _ & _).
  pose proof (unique_users_loop items1) as Husers1.
  pose proof (unique_users_loop items2) as Husers2.
  cbn zeta in *.
  destruct (fold_left count_event items1 start_acc) as [total1 users1 by1].
  destruct (fold_left count_event items2 start_acc) as [total2 users2 by2].
  cbn in *. f_equal.
  - rewrite Htotal1, Htotal2. f_equal. now apply Permutation_length.
  - rewrite Husers1, Husers2. apply list_to_set_perm_L. now apply Permutation_map.
  - apply map_eq. intros event_type.
    rewrite Hby1, Hby2, (count_type_perm event_type items1 items2 Hperm).
    reflexivity.
Qed.

(** X7: the metrics do not depend on the order in which the store returns
    the events: any rearrangement of the same events gives the same
    dictionary, rates included. *)
Theorem metrics_ignore_event_order (campaign_id : string)
    (items1 items2 : list (event_item Decimal)) :
  items1 ≡ₚ items2 ->
  calculate_metrics campaign_id items1 = calculate_metrics campaign_id items2.
Proof.
  intros Hperm. unfold calculate_metrics. now rewrite (loop_perm items1 items2 Hperm).
Qed.

(** X8: [total_events] is the number of events returned and
    [unique_users] the number of distinct user ids among them. *)
Theorem metrics_count_events_and_users (campaign_id : string)
    (items : list (event_item Decimal)) :
  total_events (calculate_metrics campaign_id items) = Z.of_nat (length items) /\
  unique_users (calculate_metrics campaign_id items)
  = Z.of_nat (length (remove_dups (List.map ei_user_id items))).
Proof.
  destruct (DynamoDBFacts.loop_invariant items) as (Htotal & _ & _ & _).
  cbn zeta in Htotal. unfold calculate_metrics. cbn. split; [exact Htotal |].
  rewrite unique_users_loop. f_equal.
  rewrite <- (size_list_to_set (C := gset string)
                (remove_dups (List.map ei_user_id items)))
    by apply NoDup_remove_dups.
  f_equal. apply set_eq. intros u.
  rewrite !elem_of_list_to_set, elem_of_remove_dups. reflexivity.
Qed.

End Metrics.

(** The same three events, returned in two orders. *)
Lemma metrics_ignore_event_order_witness :
  calculate_metrics "c1"
    [RuntimeDouble.event "u1" "sent"; RuntimeDouble.event "u2" "sent";
     RuntimeDouble.event "u1" "clicked"]
  = calculate_metrics "c1"
      [RuntimeDouble.event "u1" "clicked"; RuntimeDouble.event "u1" "sent";
       RuntimeDouble.event "u2" "sent"].
Proof.
  apply metrics_ignore_event_order.
  exact (Permutation_app_comm
           [RuntimeDouble.event "u1" "sent"; RuntimeDouble.event "u2" "sent"]
           [RuntimeDouble.event "u1" "clicked"]).
Defined.

End DynamoDBMetrics.

(** * Facts about dicts kept as item lists *)

Module DictFacts.

Lemma dict_get_set_same {V} (k : string) (v : V) (d : list (string * V)) :
  dict_get k (dict_set k v d) = Some v.
Proof.
  induction d as [| [k' v'] d IH]; cbn.
  - now rewrite String.eqb_refl.
  - destruct (String.eqb k' k) eqn:E; cbn; rewrite ?String.eqb_refl, ?E; auto.
Qed.

Lemma dict_get_set_other {V} (k k' : string) (v : V) (d : list (string * V)) :
  k <> k' -> dict_get k' (dict_set k v d) = dict_get k' d.
Proof.
  intros Hne. induction d as [| [k0 v0] d IH]; cbn.
  - destruct (String.eqb k k') eqn:E; [apply String.eqb_eq in E; contradiction |].
    reflexivity.
  - destruct (String.eqb k0 k) eqn:E; cbn.
    + apply String.eqb_eq in E as ->.
      destruct (String.eqb k k') eqn:E'; [apply String.eqb_eq in E'; contradiction |].
      reflexivity.
    + now rewrite IH.
Qed.

Lemma dict_get_in {V} (k : string) (d : list (string * V)) (v : V) :
  dict_get k d = Some v -> In (k, v) d.
Proof.
  induction d as [| [k' v'] d IH]; cbn; [discriminate |].
  destruct (String.eqb k' k) eqn:E.
  - apply String.eqb_eq in E as ->. intros [= ->]. now left.
  - intros H. right. now apply IH.
Qed.

Lemma dict_get_none {V} (k : string) (d : list (string * V)) :
  dict_get k d = None -> ~ In k (List.map fst d).
Proof.
  induction d as [| [k' v'] d IH]; cbn; [tauto |].
  destruct (String.eqb k' k) eqn:E; [discriminate |].
  intros H [-> | Hin]; [rewrite String.eqb_refl in E; discriminate |].
  now apply IH.
Qed.

Lemma dict_update_keeps {V} (d other : list (string * V)) (k : string) :
  ~ In k (List.map fst other) -> dict_get k (dict_update d other) = dict_get k d.
Proof.
  unfold dict_update. revert d.
  induction other as [| [k0 v0] other IH]; intros d Hnot; cbn.
  - reflexivity.
  - rewrite IH by (intros H; apply Hnot; now right). cbn.
    apply dict_get_set_other. intros ->. apply Hnot. now left.
Qed.

Lemma dict_update_binds {V} (d other : list (string * V)) (k : string) (v : V) :
  NoDup (List.map fst other) -> In (k, v) other ->
  dict_get k (dict_update d other) = Some v.
Proof.
  unfold dict_update. revert d.
  induction other as [| [k0 v0] other IH]; intros d Hnd Hin; cbn.
  - destruct Hin.
  - cbn in Hnd. apply NoDup_cons in Hnd as [Hfresh Hnd].
    destruct Hin as [[= -> ->] | Hin].
    + fold (dict_update (dict_set k v d) other).
      rewrite dict_update_keeps by (now rewrite <- list_elem_of_In).
      apply dict_get_set_same.
    + now apply IH.
Qed.

End DictFacts.

(** * Further properties of the key-value adapter: the requests issued *)

Module DynamoDBRequests.
Import DynamoDB DynamoDBTrace StringFacts SeparatorFacts DictFacts.

Section Requests.
Context {Decimal : Type}.
Variable Decimal_of_float : float -> Decimal.

#[local] Abbreviation conv := (_convert_floats_to_decimal Decimal_of_float).

(** The one request of [track_campaign_event]. *)
Lemma exec_track_campaign_event (respond : responder) (now : datetime)
    (tenant_id campaign_id user_id event_type : string) (event_data : value Decimal) :
  fst (exec respond now
         (track_campaign_event Decimal_of_float tenant_id campaign_id user_id
            event_type event_data))
  = [existT _ (campaign_tracking_put_item
       {| ei_tenant_id := tenant_id;
          ei_event_id := event_id_for campaign_id user_id now;
          ei_campaign_id := campaign_id;
          ei_user_id := user_id;
          ei_event_type := event_type;
          ei_event_data := Some (conv event_data);
          ei_timestamp := isoformat now;
          ei_ttl := timestamp_after now (days 90) |})].
Proof.
  cbn. destruct (respond _ _) as [[] | []]; reflexivity.
Qed.

Lemma event_id_for_inj (campaign_id campaign_id' user_id user_id' : string)
    (now now' : datetime) :
  lacks "#" campaign_id = true -> lacks "#" campaign_id' = true ->
  lacks "#" user_id = true -> lacks "#" user_id' = true ->
  event_id_for campaign_id user_id now = event_id_for campaign_id' user_id' now' ->
  campaign_id = campaign_id' /\ user_id = user_id' /\ timestamp now = timestamp now'.
Proof.
  intros Hc Hc' Hu Hu' Heq. unfold event_id_for in Heq.
  change ("#" ++ ?s)%string with (String "#" s) in Heq.
  apply join_inj in Heq as [-> Heq]; [| assumption ..].
  apply join_inj in Heq as [-> Heq]; [| assumption ..].
  repeat split. now apply (inj pretty) in Heq.
Qed.

(** X9: the identifier given to a tracked event names the campaign, the
    user and the second of the clock, and nothing else: for identifiers
    free of the separator, two tracked events get the same identifier
    exactly when campaign, user and second agree, whatever their tenant,
    type and data. *)
Theorem event_id_names_campaign_user_second (respond respond' : responder)
    (now now' : datetime)
    (tenant_id tenant_id' campaign_id campaign_id' user_id user_id' : string)
    (event_type event_type' : string) (event_data event_data' : value Decimal) :
  lacks "#" campaign_id = true -> lacks "#" campaign_id' = true ->
  lacks "#" user_id = true -> lacks "#" user_id' = true ->
  exists item item' : event_item Decimal,
    fst (exec respond now
           (track_campaign_event Decimal_of_float tenant_id campaign_id user_id
              event_type event_data))
    = [existT _ (campaign_tracking_put_item item)] /\
    fst (exec respond' now'
           (track_campaign_event Decimal_of_float tenant_id' campaign_id' user_id'
              event_type' event_data'))
    = [existT _ (campaign_tracking_put_item item')] /\
    (ei_event_id item = ei_event_id item' <->
     campaign_id = campaign_id' /\ user_id = user_id' /\
     timestamp now = timestamp now').
Proof.
  intros Hc Hc' Hu Hu'. eexists. eexists.
  split; [apply exec_track_campaign_event |].
  split; [apply exec_track_campaign_event |].
  cbn [ei_event_id]. split.
  - now apply event_id_for_inj.
  - intros (-> & -> & Hts). unfold event_id_for. now rewrite Hts.
Qed.

(** X10: the separator is not escaped: moving a piece of text between the
    end of the campaign identifier and the start of the user identifier
    leaves the event identifier the same, so events of different
    campaigns and users can share one. *)
Theorem event_id_collides_across_separator (respond respond' : responder)
    (now : datetime) (tenant_id campaign_id middle user_id : string)
    (event_type event_type' : string) (event_data event_data' : value Decimal) :
  exists item item' : event_item Decimal,
    fst (exec respond now
           (track_campaign_event Decimal_of_float tenant_id
              (campaign_id ++ "#" ++ middle) user_id event_type event_data))
    = [existT _ (campaign_tracking_put_item item)] /\
    fst (exec respond' now
           (track_campaign_event Decimal_of_float tenant_id
              campaign_id (middle ++ "#" ++ user_id) event_type' event_data'))
    = [existT _ (campaign_tracking_put_item item')] /\
    ei_event_id item = ei_event_id item' /\
    ei_campaign_id item <> ei_campaign_id item'.
Proof.
  eexists. eexists.
  split; [apply exec_track_campaign_event |].
  split; [apply exec_track_campaign_event |].
  cbn [ei_event_id ei_campaign_id]. split.
  - unfold event_id_for. now rewrite !append_assoc.
  - intros Heq. rewrite <- (append_nil_r campaign_id) in Heq at 2.
    apply append_inv_head in Heq. rewrite append_cons in Heq. discriminate.
Qed.

(** *** [update_user_profile] *)

#[local] Abbreviation step :=
  (fun (acc : string * list (string * value Decimal)) (kv : string * value Decimal) =>
     (fst acc ++ ", profile_data." ++ fst kv ++ " = :" ++ fst kv,
      dict_set (":" ++ fst kv) (snd kv) (snd acc)))%string.

Lemma colon_inj (k k' : string) : (":" ++ k = ":" ++ k')%string -> k = k'.
Proof. apply append_inv_head. Qed.

(** The loop over the updates: a placeholder of a key not among them
    keeps its binding, one among them is bound to that key's value. *)
Lemma loop_keeps (updates : list (string * value Decimal)) acc (k : string) :
  ~ In k (List.map fst updates) ->
  dict_get (":" ++ k) (snd (fold_left step updates acc)) = dict_get (":" ++ k) (snd acc).
Proof.
  revert acc. induction updates as [| [k0 v0] updates IH]; intros acc Hnot; cbn.
  - reflexivity.
  - rewrite IH by (intros H; apply Hnot; now right). cbn.
    apply dict_get_set_other. intros Heq. apply colon_inj in Heq.
    apply Hnot. now left.
Qed.

Lemma loop_binds (updates : list (string * value Decimal)) acc (k : string)
    (v : value Decimal) :
  NoDup (List.map fst updates) -> In (k, v) updates ->
  dict_get (":" ++ k) (snd (fold_left step updates acc)) = Some v.
Proof.
  revert acc. induction updates as [| [k0 v0] updates IH]; intros acc Hnd Hin; cbn.
  - destruct Hin.
  - cbn in Hnd. apply NoDup_cons in Hnd as [Hfresh Hnd].
    destruct Hin as [[= -> ->] | Hin].
    + rewrite loop_keeps by (now rewrite <- list_elem_of_In). cbn.
      apply dict_get_set_same.
    + now apply IH.
Qed.

Lemma concat_cons (x : string) (l : list string) :
  String.concat EmptyString (x :: l) = (x ++ String.concat EmptyString l)%string.
Proof.
  destruct l as [| y l]; cbn [String.concat].
  - now rewrite append_nil_r.
  - now rewrite append_nil.
Qed.

Lemma loop_expression (updates : list (string * value Decimal)) acc :
  fst (fold_left step updates acc)
  = (fst acc
     ++ String.concat EmptyString
          (List.map (fun kv => ", profile_data." ++ fst kv ++ " = :" ++ fst kv)
             updates))%string.
Proof.
  revert acc. induction updates as [| kv updates IH]; intros acc.
  - cbn [fold_left List.map String.concat]. now rewrite append_nil_r.
  - cbn [fold_left List.map]. rewrite IH, concat_cons. cbn [fst].
    now rewrite !append_assoc.
Qed.

Lemma convert_items (updates : list (string * value Decimal)) :
  dict_items (conv (VDict updates))
  = List.map (fun kv => (fst kv, conv (snd kv))) updates.
Proof.
  cbn. induction updates as [| [k v] updates IH]; [reflexivity |].
  cbn. now rewrite IH.
Qed.

(** X11: [update_user_profile] issues one update of the row of the tenant
    and user.  Its expression sets [updated_at] and then one
    [profile_data] field per update, in order; every update key is bound,
    under its placeholder, to its converted value; and the placeholder of
    [updated_at] holds the clock reading unless the updates themselves
    have a key [updated_at], whose value then takes its place. *)
Theorem update_binds_each_key (respond : responder) (now : datetime)
    (tenant_id user_id : string) (updates : list (string * value Decimal)) :
  NoDup (List.map fst updates) ->
  exists (update_expression : string)
         (expression_attribute_values : list (string * value Decimal)),
    fst (exec respond now
           (update_user_profile Decimal_of_float tenant_id user_id updates))
    = [existT _ (user_profiles_update_item (tenant_id, user_id) update_expression
                   expression_attribute_values)] /\
    update_expression
    = ("SET updated_at = :updated_at"
       ++ String.concat EmptyString
            (List.map (fun kv => ", profile_data." ++ fst kv ++ " = :" ++ fst kv)
               updates))%string /\
    (forall k v, In (k, v) updates ->
       dict_get (":" ++ k) expression_attribute_values = Some (conv v)) /\
    dict_get ":updated_at" expression_attribute_values
    = Some (match dict_get "updated_at" updates with
            | Some v => conv v
            | None => VStr (isoformat now)
            end).
Proof.
  intros Hnd.
  set (converted := List.map (fun kv => (fst kv, conv (snd kv))) updates).
  assert (Hkeys : List.map fst converted = List.map fst updates).
  { unfold converted. rewrite List.map_map. reflexivity. }
  pose (acc := fold_left step converted
                 ("SET updated_at = :updated_at"%string,
                  [(":updated_at"%string, VStr (isoformat now))])).
  exists (fst acc), (snd acc). split; [| split; [| split]].
  - unfold update_user_profile. cbn [exec].
    rewrite convert_items. fold converted. fold acc.
    destruct acc as [expression values]. cbn.
    destruct (respond _ _) as [[] | []]; reflexivity.
  - unfold acc. rewrite loop_expression. cbn [fst]. f_equal. f_equal.
    unfold converted. rewrite List.map_map. reflexivity.
  - intros k v Hin. unfold acc. apply loop_binds.
    + now rewrite Hkeys.
    + unfold converted. apply in_map_iff. exists (k, v). split; [reflexivity | exact Hin].
  - unfold acc. change ":updated_at"%string with (":" ++ "updated_at")%string.
    destruct (dict_get "updated_at" updates) as [v |] eqn:Hget.
    + apply loop_binds; [now rewrite Hkeys |].
      unfold converted. apply in_map_iff. exists ("updated_at"%string, v).
      split; [reflexivity | now apply dict_get_in].
    + rewrite loop_keeps by (rewrite Hkeys; now apply dict_get_none).
      reflexivity.
Qed.

End Requests.

(** Two events at seconds 100 and 100 of the same campaign and user. *)
Lemma event_id_names_campaign_user_second_witness :
  exists item item' : event_item RuntimeDouble.Decimal,
    fst (exec TraceDouble.healthy (RuntimeDouble.at_second 100)
           (track_campaign_event RuntimeDouble.Decimal_of_float "t1" "c1" "u1"
              "sent" (VDict [])))
    = [existT _ (campaign_tracking_put_item item)] /\
    fst (exec TraceDouble.throttled (RuntimeDouble.at_second 100)
           (track_campaign_event RuntimeDouble.Decimal_of_float "t1" "c1" "u1"
              "opened" (VDict [("link", VStr "a")])))
    = [existT _ (campaign_tracking_put_item item')] /\
    (ei_event_id item = ei_event_id item' <->
     "c1"%string = "c1"%string /\ "u1"%string = "u1"%string /\
     timestamp (RuntimeDouble.at_second 100) = timestamp (RuntimeDouble.at_second 100)).
Proof.
  apply (event_id_names_campaign_user_second RuntimeDouble.Decimal_of_float);
    reflexivity.
Defined.

(** An update of two fields, one of them named [updated_at]. *)
Lemma update_binds_each_key_witness :
  NoDup (List.map fst
           [("age"%string, VFloat 30%float : value RuntimeDouble.Decimal);
            ("updated_at"%string, VStr "never")]) /\
  exists (update_expression : string)
         (expression_attribute_values : list (string * value RuntimeDouble.Decimal)),
    fst (exec TraceDouble.healthy (RuntimeDouble.at_second 100)
           (update_user_profile RuntimeDouble.Decimal_of_float "t1" "u1"
              [("age"%string, VFloat 30%float); ("updated_at"%string, VStr "never")]))
    = [existT _ (user_profiles_update_item ("t1"%string, "u1"%string)
                   update_expression expression_attribute_values)] /\
    update_expression
    = ("SET updated_at = :updated_at"
       ++ String.concat EmptyString
            (List.map (fun kv : string * value RuntimeDouble.Decimal =>
                         ", profile_data." ++ fst kv ++ " = :" ++ fst kv)
               [("age"%string, VFloat 30%float);
                ("updated_at"%string, VStr "never")]))%string /\
    (forall k v,
       In (k, v) [("age"%string, VFloat 30%float : value RuntimeDouble.Decimal);
                  ("updated_at"%string, VStr "never")] ->
       dict_get (":" ++ k) expression_attribute_values
       = Some (_convert_floats_to_decimal RuntimeDouble.Decimal_of_float v)) /\
    dict_get ":updated_at" expression_attribute_values
    = Some (match dict_get "updated_at"
                    [("age"%string, VFloat 30%float : value RuntimeDouble.Decimal);
                     ("updated_at"%string, VStr "never")] with
            | Some v => _convert_floats_to_decimal RuntimeDouble.Decimal_of_float v
            | None => VStr (isoformat (RuntimeDouble.at_second 100))
            end).
Proof.
  assert (Hnd : NoDup (List.map fst
           [("age"%string, VFloat 30%float : value RuntimeDouble.Decimal);
            ("updated_at"%string, VStr "never")])).
  { cbn. repeat constructor; rewrite ?list_elem_of_In; cbn; intuition discriminate. }
  split; [exact Hnd |].
  exact (update_binds_each_key RuntimeDouble.Decimal_of_float TraceDouble.healthy
           (RuntimeDouble.at_second 100) "t1" "u1" _ Hnd).
Defined.

End DynamoDBRequests.

(** * Further properties of the recommendation-service adapter *)

Module PersonalizeMore.
Import Personalize StringFacts SeparatorFacts.

Section More.
Variable settings : Settings.

(** The lookup of the dataset group handles every [ClientError] itself:
    what it raises is never one. *)
Lemma get_dataset_group_raises (self : Client) (tenant_id : string) (e : exn) :
  get_dataset_group settings self tenant_id = Raise e ->
  forall code text, e <> ClientError code text.
Proof.
  unfold get_dataset_group. intros H code text ->.
  destruct (api_list_dataset_groups self) as [response | [] ]; cbn in H;
    try discriminate.
  destruct (find _ response); discriminate.
Qed.

Lemma except_passes {A} (e : exn) (handler : string -> string -> result A) :
  (forall code text, e <> ClientError code text) ->
  except_ClientError (Raise e) handler = Raise e.
Proof. intros H. destruct e; try reflexivity. now destruct (H code text). Qed.

(** X12: the operations that first look up the tenant's dataset group
    raise exactly what that lookup raises: a missing group or a service
    failure during the lookup reaches the caller under the lookup's own
    message, not under the operation's. *)
Theorem group_failure_reaches_caller (self : Client)
    (dataset_type schema_arn recipe_arn tenant_id : string) (e : exn) :
  get_dataset_group settings self tenant_id = Raise e ->
  get_dataset settings self dataset_type tenant_id = Raise e /\
  create_dataset settings self dataset_type schema_arn tenant_id = Raise e /\
  get_solution settings self tenant_id = Raise e /\
  create_solution settings self recipe_arn tenant_id = Raise e.
Proof.
  intros H. pose proof (get_dataset_group_raises _ _ _ H) as Hne.
  unfold get_dataset, create_dataset, get_solution, create_solution.
  rewrite H. cbn [rbind].
  repeat split; now apply except_passes.
Qed.

Lemma ready_iff (l : list string) :
  determine_overall_status l = "READY"
  <-> forallb (fun status => String.eqb status "ACTIVE") l = true.
Proof.
  unfold determine_overall_status. split.
  - destruct (py_in "CREATING" l || py_in "CREATE_IN_PROGRESS" l); [discriminate |].
    destruct (forallb _ l); [reflexivity |].
    destruct (py_in "CREATE_FAILED" l || py_in "FAILED" l); discriminate.
  - intros Hall. rewrite Hall.
    assert (Hnot : forall x, x <> "ACTIVE" -> py_in x l = false).
    { intros x Hx. unfold py_in. apply not_true_is_false. intros Hex.
      apply existsb_exists in Hex as (y & Hy & Heq).
      apply String.eqb_eq in Heq as <-.
      rewrite forallb_forall in Hall. specialize (Hall x Hy).
      now apply String.eqb_eq in Hall. }
    rewrite !Hnot by discriminate. reflexivity.
Qed.

(** X13: the overall status is "READY" exactly when the dataset group,
    the solution and the campaign of the tenant are all found and all
    report "ACTIVE". *)
Theorem ready_exactly_when_all_active (self : Client) (tenant_id : string) :
  overall_status (get_training_status settings self tenant_id) = "READY"
  <-> exists group solution campaign,
        get_dataset_group settings self tenant_id = Ok group /\
        dgi_status group = "ACTIVE" /\
        get_solution settings self tenant_id = Ok solution /\
        soi_status solution = "ACTIVE" /\
        get_campaign settings self tenant_id = Ok campaign /\
        cai_status campaign = "ACTIVE".
Proof.
  unfold get_training_status. cbn [overall_status]. rewrite ready_iff.
  cbn [forallb]. rewrite !andb_true_iff, !String.eqb_eq.
  destruct (get_dataset_group settings self tenant_id) as [group | e1];
    destruct (get_solution settings self tenant_id) as [solution | e2];
    destruct (get_campaign settings self tenant_id) as [campaign | e3];
    cbn [component_status]; split;
    try (intros (H1 & H2 & H3 & _); discriminate);
    try (intros (g & s & c & H1 & _ & H2 & _ & H3 & _); discriminate).
  - intros (H1 & H2 & H3 & _). exists group, solution, campaign. auto 10.
  - intros (g & s & c & [= <-] & H1 & [= <-] & H2 & [= <-] & H3). auto.
Qed.

(** X14: when the service refuses the two list requests the status check
    starts from, the failure is not reported: every component reads
    "NOT_FOUND", the overall status is "INCOMPLETE" and no error is set,
    the same answer as for a tenant with nothing created. *)
Theorem outage_reads_as_incomplete (self : Client) (tenant_id : string)
    (e e' : exn) :
  api_list_dataset_groups self = Raise e ->
  api_list_campaigns self = Raise e' ->
  get_training_status settings self tenant_id
  = {| si_tenant_id := tenant_id;
       overall_status := "INCOMPLETE";
       si_components :=
         Some {| dataset_group := "NOT_FOUND";
                 solution := "NOT_FOUND";
                 campaign := "NOT_FOUND" |};
       si_error := None |}.
Proof.
  intros Hgroups Hcampaigns.
  assert (Hg : exists x, get_dataset_group settings self tenant_id = Raise x).
  { unfold get_dataset_group. rewrite Hgroups. destruct e; cbn; eauto. }
  destruct Hg as (x & Hg).
  assert (Hs : get_solution settings self tenant_id = Raise x).
  { unfold get_solution. rewrite Hg. cbn [rbind].
    apply except_passes. now apply (get_dataset_group_raises self tenant_id). }
  assert (Hc : exists y, get_campaign settings self tenant_id = Raise y).
  { unfold get_campaign. rewrite Hcampaigns. destruct e'; cbn; eauto. }
  destruct Hc as (y & Hc).
  unfold get_training_status. rewrite Hg, Hs, Hc. reflexivity.
Qed.

Lemma name_of_inj (base tenant_id tenant_id' : string) :
  base ++ "-" ++ tenant_id = base ++ "-" ++ tenant_id' -> tenant_id = tenant_id'.
Proof.
  intros H. apply append_inv_head in H. now apply append_inv_head in H.
Qed.

Lemma find_named {S} (name_of : S -> string) (name : string) (l : list S) (x : S) :
  find (fun y => String.eqb (name_of y) name) l = Some x -> name_of x = name.
Proof. intros H. apply find_some in H as [_ H]. now apply String.eqb_eq. Qed.

(** X15: a lookup answers with a resource named for the tenant asked
    about, whatever the service lists: the name it reports is never the
    name derived for another tenant. *)
Theorem lookup_reports_own_name (self : Client)
    (dataset_type tenant_id other : string) :
  other <> tenant_id ->
  (forall info, get_dataset_group settings self tenant_id = Ok info ->
     dgi_name info = dataset_group_name_of settings tenant_id /\
     dgi_name info <> dataset_group_name_of settings other) /\
  (forall info, get_dataset settings self dataset_type tenant_id = Ok info ->
     dsi_name info = dataset_name_of dataset_type tenant_id /\
     dsi_name info <> dataset_name_of dataset_type other) /\
  (forall info, get_solution settings self tenant_id = Ok info ->
     soi_name info = solution_name_of settings tenant_id /\
     soi_name info <> solution_name_of settings other) /\
  (forall info, get_campaign settings self tenant_id = Ok info ->
     cai_name info = campaign_name_of settings tenant_id /\
     cai_name info <> campaign_name_of settings other).
Proof.
  intros Hne.
  assert (Hdiff : forall base name,
            name = base ++ "-" ++ tenant_id ->
            name = base ++ "-" ++ tenant_id /\ name <> base ++ "-" ++ other).
  { intros base name ->. split; [reflexivity |].
    intros H. apply name_of_inj in H. congruence. }
  repeat match goal with |- _ /\ _ => split end; intros info H.
  - apply Hdiff. unfold get_dataset_group in H.
    destruct (api_list_dataset_groups self) as [response | []]; cbn in H;
      try discriminate.
    destruct (find _ response) as [dg |] eqn:Hfind; [| discriminate].
    injection H as <-. cbn. exact (find_named _ _ _ _ Hfind).
  - apply Hdiff. unfold get_dataset in H.
    destruct (get_dataset_group settings self tenant_id) as [group | []];
      cbn in H; try discriminate.
    destruct (api_list_datasets self _) as [response | []]; cbn in H;
      try discriminate.
    destruct (find _ response) as [d |] eqn:Hfind; [| discriminate].
    injection H as <-. cbn. exact (find_named _ _ _ _ Hfind).
  - apply Hdiff. unfold get_solution in H.
    destruct (get_dataset_group settings self tenant_id) as [group | []];
      cbn in H; try discriminate.
    destruct (api_list_solutions self _) as [response | []]; cbn in H;
      try discriminate.
    destruct (find _ response) as [s |] eqn:Hfind; [| discriminate].
    injection H as <-. cbn. exact (find_named _ _ _ _ Hfind).
  - apply Hdiff. unfold get_campaign in H.
    destruct (api_list_campaigns self) as [response | []]; cbn in H;
      try discriminate.
    destruct (find _ response) as [c |] eqn:Hfind; [| discriminate].
    injection H as <-. cbn. exact (find_named _ _ _ _ Hfind).
Qed.

End More.

(** Nothing was created for tenant "t1": the group lookup fails, and the
    dependent operations fail the same way. *)
Lemma group_failure_reaches_caller_witness :
  get_dataset_group PersonalizeDouble.demo_settings
    (PersonalizeDouble.client_of PersonalizeDouble.sv0) "t1"
  = Raise (Exception "Dataset group not found for tenant t1") /\
  create_solution PersonalizeDouble.demo_settings
    (PersonalizeDouble.client_of PersonalizeDouble.sv0)
    "arn:aws:personalize:::recipe/aws-user-personalization" "t1"
  = Raise (Exception "Dataset group not found for tenant t1").
Proof.
  assert (H : get_dataset_group PersonalizeDouble.demo_settings
                (PersonalizeDouble.client_of PersonalizeDouble.sv0) "t1"
              = Raise (Exception "Dataset group not found for tenant t1"))
    by reflexivity.
  split; [exact H |].
  exact (proj2 (proj2 (proj2
    (group_failure_reaches_caller PersonalizeDouble.demo_settings
       (PersonalizeDouble.client_of PersonalizeDouble.sv0)
       "Interactions" "arn:schema" _ "t1" _ H)))).
Defined.

(** The service is down. *)
Lemma outage_reads_as_incomplete_witness :
  overall_status
    (get_training_status PersonalizeDouble.demo_settings PersonalizeOutage.down "t1")
  = "INCOMPLETE".
Proof.
  rewrite (outage_reads_as_incomplete PersonalizeDouble.demo_settings
             PersonalizeOutage.down "t1" _ _ eq_refl eq_refl).
  reflexivity.
Defined.

(** Tenants "t1" and "t2" against the service holding the resources of
    "t1". *)
Lemma lookup_reports_own_name_witness :
  exists info,
    get_campaign PersonalizeDouble.demo_settings
      (PersonalizeDouble.client_of PersonalizeDouble.sv2) "t1" = Ok info /\
    cai_name info = "retail-campaign-t1" /\
    cai_name info <> "retail-campaign-t2".
Proof.
  assert (Hne : "t2"%string <> "t1"%string) by discriminate.
  eexists. split; [reflexivity |].
  exact (proj2 (proj2 (proj2
    (lookup_reports_own_name PersonalizeDouble.demo_settings
       (PersonalizeDouble.client_of PersonalizeDouble.sv2)
       "Interactions" "t1" "t2" Hne))) _ eq_refl).
Defined.

End PersonalizeMore.

(** * Properties of download, delete, copy and dataset upload *)

Module S3FilesFacts.
Import S3 S3Files StringFacts SeparatorFacts DictFacts.

Section Facts.
Variable bucket_name : string.
Variable entity_tag : string -> string.
Variable s3_data_prefix : string.
Variable timestamp : string.

(** What [upload_file] leaves in a working bucket. *)
Lemma upload_file_object fc key tenant_id content_type metadata s :
  failing s = None ->
  exists info obj,
    upload_file bucket_name entity_tag fc key tenant_id content_type metadata s
    = (Ok info,
       {| objects := <[tenant_id ++ "/" ++ key := obj]> (objects s);
          failing := None;
          utcnow := utcnow s |}) /\
    S3.key info = tenant_id ++ "/" ++ key /\
    size info = Z.of_nat (String.length (bytes_of fc)) /\
    Body obj = bytes_of fc /\
    ContentType obj = content_type /\
    Metadata obj
    = match metadata with
      | Some ((_ :: _) as metadata) =>
          dict_update [("tenant_id", tenant_id); ("uploaded_at", utcnow s);
                       ("content_type", content_type)] metadata
      | _ => [("tenant_id", tenant_id); ("uploaded_at", utcnow s);
              ("content_type", content_type)]
      end.
Proof.
  intros Hok. unfold upload_file, put_object. rewrite Hok.
  do 2 eexists. split; [reflexivity |]. cbn.
  destruct fc; repeat split; reflexivity.
Qed.

(** A download reads the bucket at the tenant's key and nothing else. *)
Lemma download_file_reads key tenant_id s s' :
  failing s' = failing s ->
  objects s' !! (tenant_id ++ "/" ++ key) = objects s !! (tenant_id ++ "/" ++ key) ->
  fst (download_file bucket_name key tenant_id s')
  = fst (download_file bucket_name key tenant_id s).
Proof.
  intros Hf Ho. unfold download_file, get_object. rewrite Hf, Ho.
  destruct (failing s) as [[] |]; cbn; try reflexivity.
  - destruct (String.eqb code "NoSuchKey"); reflexivity.
  - destruct (objects s !! _); reflexivity.
Qed.

Lemma download_file_held key tenant_id s obj :
  failing s = None ->
  objects s !! (tenant_id ++ "/" ++ key) = Some obj ->
  download_file bucket_name key tenant_id s = (Returned (Body obj), s).
Proof.
  intros Hok Hobj. unfold download_file, get_object. now rewrite Hok, Hobj.
Qed.

Lemma download_file_missing key tenant_id s :
  failing s = None ->
  objects s !! (tenant_id ++ "/" ++ key) = None ->
  download_file bucket_name key tenant_id s
  = (Raised (FileNotFoundError ("File " ++ key ++ " not found")), s).
Proof.
  intros Hok Hobj. unfold download_file, get_object. now rewrite Hok, Hobj.
Qed.

(** X16: what a tenant uploads under a key, a download of that key by
    the same tenant returns, byte for byte, whatever the content type and
    metadata and whatever the bucket held before. *)
Theorem upload_then_download (fc : file_content) (key tenant_id content_type : string)
    (metadata : option (list (string * string))) (s : service) :
  failing s = None ->
  exists info s',
    upload_file bucket_name entity_tag fc key tenant_id content_type metadata s
    = (Ok info, s') /\
    size info = Z.of_nat (String.length (bytes_of fc)) /\
    download_file bucket_name key tenant_id s' = (Returned (bytes_of fc), s').
Proof.
  intros Hok.
  destruct (upload_file_object fc key tenant_id content_type metadata s Hok)
    as (info & obj & Hup & _ & Hsize & Hbody & _).
  eexists. eexists. split; [exact Hup |]. split; [exact Hsize |].
  rewrite <- Hbody. apply download_file_held; [reflexivity |].
  cbn. apply lookup_insert_eq.
Qed.

(** X17: after a delete, which succeeds whether or not the file was
    there, a download of the key raises [FileNotFoundError] naming the
    key without the tenant's segment. *)
Theorem delete_then_download (key tenant_id : string) (s : service) :
  failing s = None ->
  exists s',
    delete_file bucket_name key tenant_id s = (Ok true, s') /\
    download_file bucket_name key tenant_id s'
    = (Raised (FileNotFoundError ("File " ++ key ++ " not found")), s').
Proof.
  intros Hok. unfold delete_file, delete_object. rewrite Hok.
  eexists. split; [reflexivity |].
  apply download_file_missing; [reflexivity |].
  cbn. apply lookup_delete_eq.
Qed.

(** X18: copying a file the tenant holds makes its bytes downloadable
    under the destination key and leaves the source downloadable. *)
Theorem copy_then_download (source_key dest_key tenant_id : string)
    (metadata : option (list (string * string))) (s : service) (content : string) :
  download_file bucket_name source_key tenant_id s = (Returned content, s) ->
  exists info s',
    copy_file bucket_name source_key dest_key tenant_id metadata s = (Ok info, s') /\
    ci_dest_key info = tenant_id ++ "/" ++ dest_key /\
    download_file bucket_name dest_key tenant_id s' = (Returned content, s') /\
    download_file bucket_name source_key tenant_id s' = (Returned content, s').
Proof.
  intros Hdown. unfold download_file, get_object in Hdown.
  destruct (failing s) as [e |] eqn:Hok.
  { destruct e; cbn in Hdown; try discriminate.
    destruct (String.eqb code "NoSuchKey"); discriminate. }
  destruct (objects s !! (tenant_id ++ "/" ++ source_key)) as [source |] eqn:Hsrc;
    [| discriminate].
  injection Hdown as Hbody.
  unfold copy_file, copy_object. rewrite Hok, Hsrc.
  eexists. eexists. split; [reflexivity |]. split; [reflexivity |]. split.
  - rewrite <- Hbody.
    erewrite download_file_held; [| reflexivity | cbn; apply lookup_insert_eq].
    reflexivity.
  - destruct (decide (tenant_id ++ "/" ++ dest_key = tenant_id ++ "/" ++ source_key))
      as [Heq | Hne].
    + rewrite <- Hbody.
      erewrite download_file_held;
        [| reflexivity | cbn; rewrite <- Heq; apply lookup_insert_eq].
      reflexivity.
    + rewrite <- Hbody.
      erewrite download_file_held;
        [| reflexivity | cbn; rewrite lookup_insert_ne by exact Hne; exact Hsrc].
      reflexivity.
Qed.

(** X19: copying a file the tenant does not hold fails with the generic
    "S3 copy failed" exception, not with [FileNotFoundError] as a
    download of the same key does, and changes nothing in the bucket. *)
Theorem copy_of_missing_source (source_key dest_key tenant_id : string)
    (metadata : option (list (string * string))) (s : service) :
  failing s = None ->
  objects s !! (tenant_id ++ "/" ++ source_key) = None ->
  (exists text,
     copy_file bucket_name source_key dest_key tenant_id metadata s
     = (Raise (Exception ("S3 copy failed: " ++ text)), s)) /\
  download_file bucket_name source_key tenant_id s
  = (Raised (FileNotFoundError ("File " ++ source_key ++ " not found")), s).
Proof.
  intros Hok Hsrc. split.
  - unfold copy_file, copy_object. rewrite Hok, Hsrc. eexists. reflexivity.
  - now apply download_file_missing.
Qed.

Lemma tenant_keys_differ (tenant_id other key key' : string) :
  lacks "/" tenant_id = true -> lacks "/" other = true -> tenant_id <> other ->
  other ++ "/" ++ key' <> tenant_id ++ "/" ++ key.
Proof.
  intros Ht Ho Hne Heq.
  change ("/" ++ ?x)%string with (String "/" x) in Heq.
  apply join_inj in Heq as [-> _]; [congruence | assumption ..].
Qed.

(** X20: tenants whose identifiers hold no "/" do not reach each other's
    files: whatever one tenant uploads, deletes or copies, every download
    of the other tenant answers as it did before. *)
Theorem tenants_do_not_interfere (tenant_id other : string) (s s' : service)
    (fc : file_content) (key' dest_key' content_type : string)
    (metadata : option (list (string * string))) :
  lacks "/" tenant_id = true -> lacks "/" other = true -> tenant_id <> other ->
  s' = snd (upload_file bucket_name entity_tag fc key' other content_type metadata s) \/
  s' = snd (delete_file bucket_name key' other s) \/
  s' = snd (copy_file bucket_name key' dest_key' other metadata s) ->
  forall key,
    fst (download_file bucket_name key tenant_id s')
    = fst (download_file bucket_name key tenant_id s).
Proof.
  intros Ht Ho Hne Hs' key.
  assert (Hkeys : forall k, other ++ "/" ++ k <> tenant_id ++ "/" ++ key)
    by (intros k; now apply tenant_keys_differ).
  apply download_file_reads; destruct Hs' as [-> | [-> | ->]].
  - unfold upload_file, put_object.
    destruct (failing s) as [[] |] eqn:Hf; cbn; rewrite ?Hf; reflexivity.
  - unfold delete_file, delete_object.
    destruct (failing s) as [[] |] eqn:Hf; cbn; rewrite ?Hf; reflexivity.
  - unfold copy_file, copy_object.
    destruct (failing s) as [[] |] eqn:Hf; cbn; rewrite ?Hf; try reflexivity.
    destruct (objects s !! _); cbn; rewrite ?Hf; reflexivity.
  - unfold upload_file, put_object.
    destruct (failing s) as [[] |]; cbn; try reflexivity.
    now rewrite lookup_insert_ne.
  - unfold delete_file, delete_object.
    destruct (failing s) as [[] |]; cbn; try reflexivity.
    now rewrite lookup_delete_ne.
  - unfold copy_file, copy_object.
    destruct (failing s) as [[] |]; cbn; try reflexivity.
    destruct (objects s !! (other ++ "/" ++ key')); cbn; [| reflexivity].
    now rewrite lookup_insert_ne.
Qed.

(** X21: the tenant's segment is joined to the key without escaping: a
    file one tenant uploads under [middle/key] is what the tenant named
    [tenant_id/middle] downloads under [key]. *)
Theorem separator_in_tenant_id_crosses_tenants (fc : file_content)
    (tenant_id middle key content_type : string)
    (metadata : option (list (string * string))) (s : service) :
  failing s = None ->
  tenant_id <> tenant_id ++ "/" ++ middle /\
  exists info s',
    upload_file bucket_name entity_tag fc (middle ++ "/" ++ key) tenant_id
      content_type metadata s = (Ok info, s') /\
    download_file bucket_name key (tenant_id ++ "/" ++ middle) s'
    = (Returned (bytes_of fc), s').
Proof.
  intros Hok. split.
  - intros Heq. rewrite <- (append_nil_r tenant_id) in Heq at 1.
    apply append_inv_head in Heq. rewrite append_cons in Heq. discriminate.
  - destruct (upload_file_object fc (middle ++ "/" ++ key) tenant_id content_type
                metadata s Hok) as (info & obj & Hup & _ & _ & Hbody & _).
    eexists. eexists. split; [exact Hup |].
    rewrite <- Hbody. apply download_file_held; [reflexivity |].
    cbn. rewrite !append_assoc. apply lookup_insert_eq.
Qed.

(** X22: the metadata a caller passes is written over the adapter's own
    entries: every entry of the caller is stored as given, also under the
    keys [tenant_id], [uploaded_at] and [content_type], and the adapter's
    entry stays only under a key the caller did not use. *)
Theorem caller_metadata_wins (fc : file_content) (key tenant_id content_type : string)
    (metadata : list (string * string)) (s : service) :
  failing s = None ->
  NoDup (List.map fst metadata) ->
  exists info s' obj,
    upload_file bucket_name entity_tag fc key tenant_id content_type
      (Some metadata) s = (Ok info, s') /\
    objects s' !! (tenant_id ++ "/" ++ key) = Some obj /\
    (forall k v, In (k, v) metadata -> dict_get k (Metadata obj) = Some v) /\
    (forall k, ~ In k (List.map fst metadata) ->
       dict_get k (Metadata obj)
       = dict_get k [("tenant_id", tenant_id); ("uploaded_at", utcnow s);
                     ("content_type", content_type)]).
Proof.
  intros Hok Hnd.
  destruct (upload_file_object fc key tenant_id content_type (Some metadata) s Hok)
    as (info & obj & Hup & _ & _ & _ & _ & Hmeta).
  eexists. eexists. exists obj. split; [exact Hup |].
  split; [cbn; apply lookup_insert_eq |].
  rewrite Hmeta. destruct metadata as [| entry metadata].
  - split; [intros k v [] | reflexivity].
  - split.
    + intros k v Hin. now apply dict_update_binds.
    + intros k Hnot. now apply dict_update_keeps.
Qed.

(** X23: a dataset of a type other than the three known ones, or in a
    format other than csv, json and parquet, is refused with a
    [ValueError] before anything is written: the bucket stays as it
    was. *)
Theorem upload_dataset_refuses (data : DataFrame)
    (dataset_type tenant_id format : string) (s : service) :
  ~ In dataset_type valid_types \/ ~ In format ["csv"; "json"; "parquet"] ->
  exists msg,
    upload_dataset bucket_name entity_tag s3_data_prefix timestamp data dataset_type
      tenant_id format s
    = (Raise (ValueError msg), s).
Proof.
  intros Hbad. unfold upload_dataset.
  destruct (existsb (String.eqb dataset_type) valid_types) eqn:Htype; cbn [negb].
  2: { eexists. reflexivity. }
  destruct Hbad as [Hbad | Hbad].
  { exfalso. apply Hbad. apply existsb_exists in Htype as (x & Hx & Heq).
    apply String.eqb_eq in Heq as ->. exact Hx. }
  destruct (String.eqb format "csv") eqn:E1.
  { apply String.eqb_eq in E1 as ->. exfalso. apply Hbad. cbn. auto. }
  destruct (String.eqb format "json") eqn:E2.
  { apply String.eqb_eq in E2 as ->. exfalso. apply Hbad. cbn. auto. }
  destruct (String.eqb format "parquet") eqn:E3.
  { apply String.eqb_eq in E3 as ->. exfalso. apply Hbad. cbn. auto. }
  eexists. reflexivity.
Qed.

(** X24: a dataset of a known type and format is stored under
    [{tenant_id}/{prefix}/{dataset_type}/{timestamp}.{format}] and can be
    downloaded from there; its metadata names the dataset type, the
    format, the numbers of rows and columns and the tenant. *)
Theorem upload_dataset_stores (data : DataFrame)
    (dataset_type tenant_id format : string) (s : service) :
  In dataset_type valid_types -> In format ["csv"; "json"; "parquet"] ->
  failing s = None ->
  let filename :=
    s3_data_prefix ++ "/" ++ dataset_type ++ "/" ++ timestamp ++ "." ++ format in
  exists info s' obj,
    upload_dataset bucket_name entity_tag s3_data_prefix timestamp data dataset_type
      tenant_id format s
    = (Ok info, s') /\
    S3.key info = tenant_id ++ "/" ++ filename /\
    objects s' !! (tenant_id ++ "/" ++ filename) = Some obj /\
    download_file bucket_name filename tenant_id s' = (Returned (Body obj), s') /\
    Body obj = (if String.eqb format "csv" then to_csv data
                else if String.eqb format "json" then to_json data
                else to_parquet data) /\
    dict_get "dataset_type" (Metadata obj) = Some dataset_type /\
    dict_get "format" (Metadata obj) = Some format /\
    dict_get "rows" (Metadata obj) = Some (pretty (len data)) /\
    dict_get "columns" (Metadata obj) = Some (pretty (len_columns data)) /\
    dict_get "tenant_id" (Metadata obj) = Some tenant_id.
Proof.
  intros Htype Hformat Hok filename. unfold upload_dataset.
  assert (Hvalid : existsb (String.eqb dataset_type) valid_types = true).
  { apply existsb_exists. exists dataset_type. split; [exact Htype |].
    apply String.eqb_refl. }
  rewrite Hvalid. cbn [negb]. fold filename.
  assert (Hcases : format = "csv" \/ format = "json" \/ format = "parquet").
  { cbn in Hformat. intuition. }
  set (md := [("dataset_type", dataset_type); ("format", format);
              ("rows", pretty (len data)); ("columns", pretty (len_columns data))]).
  assert (Hgen : forall fc content_type,
            exists info s' obj,
              upload_file bucket_name entity_tag fc filename tenant_id content_type
                (Some md) s = (Ok info, s') /\
              S3.key info = tenant_id ++ "/" ++ filename /\
              objects s' !! (tenant_id ++ "/" ++ filename) = Some obj /\
              download_file bucket_name filename tenant_id s' = (Returned (Body obj), s') /\
              Body obj = bytes_of fc /\
              dict_get "dataset_type" (Metadata obj) = Some dataset_type /\
              dict_get "format" (Metadata obj) = Some format /\
              dict_get "rows" (Metadata obj) = Some (pretty (len data)) /\
              dict_get "columns" (Metadata obj) = Some (pretty (len_columns data)) /\
              dict_get "tenant_id" (Metadata obj) = Some tenant_id).
  { intros fc content_type.
    destruct (upload_file_object fc filename tenant_id content_type (Some md) s Hok)
      as (info & obj & Hup & Hkey & _ & Hbody & _ & Hmeta).
    eexists. eexists. exists obj. split; [exact Hup |]. split; [exact Hkey |].
    assert (Hobj : <[tenant_id ++ "/" ++ filename := obj]> (objects s)
                   !! (tenant_id ++ "/" ++ filename) = Some obj)
      by apply lookup_insert_eq.
    split; [exact Hobj |].
    split; [apply download_file_held; [reflexivity | exact Hobj] |].
    split; [exact Hbody |].
    rewrite Hmeta. repeat split; reflexivity. }
  destruct Hcases as [-> | [-> | ->]]; cbn [String.eqb Ascii.eqb Bool.eqb]; apply Hgen.
Qed.

End Facts.

Lemma upload_then_download_witness :
  exists info s',
    upload_file S3Double.bucket_name S3Double.entity_tag (of_str "user,item")
      "a.csv" "t1" "text/csv" None S3Double.empty_bucket = (Ok info, s') /\
    size info = 9%Z /\
    download_file S3Double.bucket_name "a.csv" "t1" s' = (Returned "user,item", s').
Proof.
  exact (upload_then_download S3Double.bucket_name S3Double.entity_tag
           (of_str "user,item") "a.csv" "t1" "text/csv" None S3Double.empty_bucket
           eq_refl).
Defined.

Lemma delete_then_download_witness :
  exists s',
    delete_file S3Double.bucket_name "a.csv" "t1" S3FilesDouble.one_file
    = (Ok true, s') /\
    download_file S3Double.bucket_name "a.csv" "t1" s'
    = (Raised (FileNotFoundError "File a.csv not found"), s').
Proof.
  exact (delete_then_download S3Double.bucket_name "a.csv" "t1"
           S3FilesDouble.one_file eq_refl).
Defined.

Lemma copy_then_download_witness :
  exists info s',
    copy_file S3Double.bucket_name "a.csv" "b.csv" "t1" None S3FilesDouble.one_file
    = (Ok info, s') /\
    ci_dest_key info = "t1/b.csv" /\
    download_file S3Double.bucket_name "b.csv" "t1" s' = (Returned "user,item", s') /\
    download_file S3Double.bucket_name "a.csv" "t1" s' = (Returned "user,item", s').
Proof.
  assert (H : download_file S3Double.bucket_name "a.csv" "t1" S3FilesDouble.one_file
              = (Returned "user,item", S3FilesDouble.one_file))
    by (vm_compute; reflexivity).
  exact (copy_then_download S3Double.bucket_name "a.csv" "b.csv" "t1" None
           S3FilesDouble.one_file "user,item" H).
Defined.

Lemma copy_of_missing_source_witness :
  exists text,
    copy_file S3Double.bucket_name "a.csv" "b.csv" "t1" None S3Double.empty_bucket
    = (Raise (Exception ("S3 copy failed: " ++ text)), S3Double.empty_bucket).
Proof.
  exact (proj1 (copy_of_missing_source S3Double.bucket_name "a.csv" "b.csv" "t1" None
                  S3Double.empty_bucket eq_refl eq_refl)).
Defined.

Lemma tenants_do_not_interfere_witness :
  fst (download_file S3Double.bucket_name "a.csv" "t1"
         (snd (delete_file S3Double.bucket_name "a.csv" "t2" S3FilesDouble.one_file)))
  = fst (download_file S3Double.bucket_name "a.csv" "t1" S3FilesDouble.one_file).
Proof.
  assert (Hne : "t1"%string <> "t2"%string) by discriminate.
  exact (tenants_do_not_interfere S3Double.bucket_name S3Double.entity_tag
           "t1" "t2" S3FilesDouble.one_file _ (of_str "x") "a.csv" "b.csv" "text/csv"
           None eq_refl eq_refl Hne (or_intror (or_introl eq_refl)) "a.csv").
Defined.

Lemma separator_in_tenant_id_crosses_tenants_witness :
  exists info s',
    upload_file S3Double.bucket_name S3Double.entity_tag (of_str "user,item")
      "eu/a.csv" "t1" "text/csv" None S3Double.empty_bucket = (Ok info, s') /\
    download_file S3Double.bucket_name "a.csv" "t1/eu" s' = (Returned "user,item", s').
Proof.
  exact (proj2 (separator_in_tenant_id_crosses_tenants S3Double.bucket_name
                  S3Double.entity_tag (of_str "user,item") "t1" "eu" "a.csv"
                  "text/csv" None S3Double.empty_bucket eq_refl)).
Defined.

Lemma caller_metadata_wins_witness :
  exists info s' obj,
    upload_file S3Double.bucket_name S3Double.entity_tag (of_str "user,item")
      "a.csv" "t1" "text/csv" (Some [("tenant_id", "t2")]) S3Double.empty_bucket
    = (Ok info, s') /\
    objects s' !! "t1/a.csv" = Some obj /\
    (forall k v, In (k, v) [("tenant_id", "t2")] -> dict_get k (Metadata obj) = Some v) /\
    (forall k, ~ In k (List.map fst [("tenant_id", "t2")]) ->
       dict_get k (Metadata obj)
       = dict_get k [("tenant_id", "t1"); ("uploaded_at", "1970-01-01T00:00:00");
                     ("content_type", "text/csv")]).
Proof.
  assert (Hnd : NoDup (List.map fst [("tenant_id"%string, "t2"%string)])).
  { cbn. repeat constructor. rewrite list_elem_of_In. cbn. tauto. }
  exact (caller_metadata_wins S3Double.bucket_name S3Double.entity_tag
           (of_str "user,item") "a.csv" "t1" "text/csv" [("tenant_id", "t2")]
           S3Double.empty_bucket eq_refl Hnd).
Defined.

Lemma upload_dataset_refuses_witness :
  exists msg,
    upload_dataset S3Double.bucket_name S3Double.entity_tag "data" "20240101_000000"
      S3FilesDouble.frame "Interactions" "t1" "csv" S3Double.empty_bucket
    = (Raise (ValueError msg), S3Double.empty_bucket).
Proof.
  apply upload_dataset_refuses. left. cbn. intuition discriminate.
Defined.

Lemma upload_dataset_stores_witness :
  exists info s' obj,
    upload_dataset S3Double.bucket_name S3Double.entity_tag "data" "20240101_000000"
      S3FilesDouble.frame "users" "t1" "json" S3Double.empty_bucket
    = (Ok info, s') /\
    S3.key info = "t1/data/users/20240101_000000.json" /\
    objects s' !! "t1/data/users/20240101_000000.json" = Some obj.
Proof.
  destruct (upload_dataset_stores S3Double.bucket_name S3Double.entity_tag "data"
              "20240101_000000" S3FilesDouble.frame "users" "t1" "json"
              S3Double.empty_bucket)
    as (info & s' & obj & H1 & H2 & H3 & _).
  - cbn. auto.
  - cbn. auto.
  - reflexivity.
  - exists info, s', obj. repeat split; assumption.
Defined.

End S3FilesFacts.

(** * Properties of segments, campaigns and endpoints *)

Module PinpointCampaignsFacts.
Import PinpointCampaigns DictFacts.

Section Facts.
Variable application_id : string.
Variable from_address : string.
Variable client : Client.
Variable utcnow : string.

#[local] Abbreviation add_criterion :=
  (fun (user_attributes : list (string * attribute_dimension))
       (kv : string * attribute_dimension) =>
     match dict_get (fst kv) user_attributes with
     | None => dict_set (fst kv) (snd kv) user_attributes
     | Some _ => user_attributes
     end).

(** The loop over the criteria never changes a binding that is there. *)
Lemma criteria_keep criteria acc (k : string) (v : attribute_dimension) :
  dict_get k acc = Some v ->
  dict_get k (fold_left add_criterion criteria acc) = Some v.
Proof.
  revert acc. induction criteria as [| [k0 v0] criteria IH]; intros acc Hget.
  - exact Hget.
  - cbn [fold_left]. apply IH. cbn [fst snd].
    destruct (dict_get k0 acc) eqn:Hk0; [exact Hget |].
    rewrite dict_get_set_other; [exact Hget |].
    intros ->. congruence.
Qed.

Lemma criteria_add criteria acc (k : string) (v : attribute_dimension) :
  NoDup (List.map fst criteria) -> In (k, v) criteria -> dict_get k acc = None ->
  dict_get k (fold_left add_criterion criteria acc) = Some v.
Proof.
  revert acc. induction criteria as [| [k0 v0] criteria IH]; intros acc Hnd Hin Hnone.
  - destruct Hin.
  - cbn in Hnd. apply NoDup_cons in Hnd as [Hfresh Hnd]. cbn [fold_left fst snd].
    destruct Hin as [[= -> ->] | Hin].
    + rewrite Hnone. apply criteria_keep. apply dict_get_set_same.
    + apply IH; [exact Hnd | exact Hin |].
      assert (Hne : k0 <> k).
      { intros ->. apply Hfresh. apply list_elem_of_In.
        apply in_map_iff. exists (k, v). split; [reflexivity | exact Hin]. }
      destruct (dict_get k0 acc); [exact Hnone |].
      now rewrite dict_get_set_other.
Qed.

(** X25: the segment [create_segment] asks for always filters on the
    caller's tenant, and on the given users when there are any: criteria
    named [tenant_id] or [user_id] are dropped, every other criterion is
    passed on as given. *)
Theorem segment_filters_on_the_tenant (tenant_id segment_name : string)
    (user_ids : list string) (criteria : list (string * attribute_dimension)) :
  NoDup (List.map fst criteria) ->
  exists segment_request,
    fst (create_segment application_id client utcnow tenant_id segment_name user_ids
           (Some criteria))
    = [create_segment_request application_id segment_request] /\
    sr_Name segment_request = segment_name ++ "-" ++ tenant_id /\
    dict_get "tenant_id" (sr_UserAttributes segment_request)
    = Some (inclusive [tenant_id]) /\
    (user_ids <> [] ->
     dict_get "user_id" (sr_UserAttributes segment_request)
     = Some (inclusive user_ids)) /\
    (forall k v, In (k, v) criteria -> k <> "tenant_id" ->
       k <> "user_id" \/ user_ids = [] ->
       dict_get k (sr_UserAttributes segment_request) = Some v).
Proof.
  intros Hnd. eexists. split.
  { unfold create_segment, reraise, bind, invoke, ret.
    destruct (api_create_segment client _) as [segment_id | []]; reflexivity. }
  cbn [sr_Name sr_UserAttributes]. split; [reflexivity |].
  unfold segment_user_attributes.
  destruct criteria as [| criterion criteria].
  { split; [| split].
    - destruct user_ids; reflexivity.
    - destruct user_ids; [congruence | reflexivity].
    - intros k v []. }
  set (all := criterion :: criteria) in *. split; [| split].
  - apply criteria_keep. destruct user_ids; reflexivity.
  - intros Hsome. apply criteria_keep. destruct user_ids; [congruence | reflexivity].
  - intros k v Hin Htenant Huser. apply criteria_add; [exact Hnd | exact Hin |].
    assert (Hbase : dict_get k [("tenant_id", inclusive [tenant_id])] = None).
    { cbn [dict_get]. destruct (String.eqb "tenant_id" k) eqn:E; [| reflexivity].
      apply String.eqb_eq in E. congruence. }
    destruct user_ids as [| u user_ids]; [exact Hbase |].
    destruct Huser as [Huser | Huser]; [| discriminate].
    rewrite dict_get_set_other by congruence. exact Hbase.
Qed.

(** X26: when the campaign was created and sending it at once is then
    refused, the operation raises its "campaign failed" exception after
    exactly two requests: the campaign that was created is not deleted
    again. *)
Theorem campaign_stays_when_sending_fails
    (tenant_id campaign_name segment_id subject html_content message : string)
    (text_content : option string) (campaign_id code text : string) :
  (forall r, api_create_campaign client r = Ok campaign_id) ->
  (forall m, api_send_messages client m [segment_id]
             = Raise (ClientError code text)) ->
  (exists r m,
     send_email_campaign application_id from_address client utcnow tenant_id
       campaign_name segment_id subject html_content text_content None
     = ([create_campaign_request application_id r;
         send_messages_request application_id m [segment_id]],
        Raise (Exception ("Email campaign failed: " ++ text)))) /\
  (exists r m,
     send_sms_campaign application_id client utcnow tenant_id campaign_name
       segment_id message None
     = ([create_campaign_request application_id r;
         send_messages_request application_id m [segment_id]],
        Raise (Exception ("SMS campaign failed: " ++ text)))).
Proof.
  intros Hcreate Hsend. split; eexists; eexists.
  - unfold send_email_campaign, launch, reraise, bind, invoke, ret.
    rewrite Hcreate, Hsend. reflexivity.
  - unfold send_sms_campaign, launch, reraise, bind, invoke, ret.
    rewrite Hcreate, Hsend. reflexivity.
Qed.

(** X27: a campaign with a schedule time is never scheduled: once the
    campaign is created, asking the client for [put_campaign_activities]
    raises [AttributeError], which no handler of the operation catches,
    so one request was issued and the campaign stays.  Without a schedule
    time, against a service that accepts the requests, the campaign is
    created and sent at once to the segment identifier, status "SENT".
    Either way the campaign is named [{campaign_name}-{tenant_id}] and
    tagged with the tenant. *)
Theorem scheduling_fails_after_create
    (tenant_id campaign_name segment_id message campaign_id : string)
    (schedule_time : option DynamoDB.datetime) :
  (forall r, api_create_campaign client r = Ok campaign_id) ->
  (forall m, api_send_messages client m [segment_id] = Ok tt) ->
  exists r,
    cr_Name r = campaign_name ++ "-" ++ tenant_id /\
    dict_get "TenantId" (cr_tags r) = Some tenant_id /\
    send_sms_campaign application_id client utcnow tenant_id campaign_name
      segment_id message schedule_time
    = match schedule_time with
      | Some _ =>
          ([create_campaign_request application_id r],
           Raise (AttributeError
                    "'Pinpoint' object has no attribute 'put_campaign_activities'"))
      | None =>
          ([create_campaign_request application_id r;
            send_messages_request application_id (SMSMessage message "PROMOTIONAL")
              [segment_id]],
           Ok {| cmi_campaign_id := campaign_id;
                 cmi_campaign_name := campaign_name;
                 cmi_tenant_id := tenant_id;
                 cmi_status := "SENT";
                 cmi_segment_id := segment_id |})
      end.
Proof.
  intros Hcreate Hsend. eexists. split; [| split].
  3: { unfold send_sms_campaign, launch, reraise, bind, invoke, ret, throw.
       rewrite Hcreate. destruct schedule_time as [t |].
       - reflexivity.
       - rewrite Hsend. reflexivity. }
  - reflexivity.
  - reflexivity.
Qed.

Lemma dict_set_absent {V} (k : string) (v : V) (d : list (string * V)) :
  dict_get k d = None -> dict_set k v d = app d [(k, v)].
Proof.
  induction d as [| [k' v'] d IH]; cbn; [reflexivity |].
  destruct (String.eqb k' k); [discriminate |].
  intros H. now rewrite IH.
Qed.

(** X28: [create_endpoint] updates the endpoint
    [{tenant_id}-{user_id}-{channel}], channel in lower case, with the
    tenant as its attribute.  Among the user attributes the caller's own
    [tenant_id] entry is kept when there is one; otherwise the tenant is
    added, and when the caller passed a dict that is not empty the entry
    is added to that dict itself, whether or not the service accepts the
    request. *)
Theorem create_endpoint_tenant_attribute
    (tenant_id user_id channel_type address : string)
    (user_attributes : option (list (string * list string))) :
  exists endpoint_request,
    fst (fst (create_endpoint application_id client tenant_id user_id channel_type
                address user_attributes))
    = [update_endpoint_request application_id
         (tenant_id ++ "-" ++ user_id ++ "-" ++ lower channel_type)
         endpoint_request] /\
    ChannelType endpoint_request = upper channel_type /\
    Attributes endpoint_request = [("tenant_id", [tenant_id])] /\
    dict_get "tenant_id" (UserAttributes endpoint_request)
    = Some (default [tenant_id] (user_attributes ≫= dict_get "tenant_id")) /\
    snd (create_endpoint application_id client tenant_id user_id channel_type
           address user_attributes)
    = match user_attributes with
      | Some ((_ :: _) as given) =>
          match dict_get "tenant_id" given with
          | Some _ => Some given
          | None => Some (app given [("tenant_id", [tenant_id])])
          end
      | _ => user_attributes
      end.
Proof.
  assert (Htrace : forall (r : endpoint_request) (info : string -> endpoint_info),
            fst (reraise "Endpoint creation failed"
                   (do request_id <-
                      invoke (update_endpoint_request application_id
                                (tenant_id ++ "-" ++ user_id ++ "-" ++ lower channel_type)
                                r)
                        (api_update_endpoint client
                           (tenant_id ++ "-" ++ user_id ++ "-" ++ lower channel_type) r);
                    ret (info request_id)))
            = [update_endpoint_request application_id
                 (tenant_id ++ "-" ++ user_id ++ "-" ++ lower channel_type) r]).
  { intros r info. unfold reraise, bind, invoke, ret.
    destruct (api_update_endpoint client _ r) as [request_id | []]; reflexivity. }
  unfold create_endpoint.
  destruct user_attributes as [[| entry given] |].
  - eexists. split; [apply Htrace |]. repeat split; reflexivity.
  - cbn -[dict_get dict_set upper lower reraise bind].
    destruct (dict_get "tenant_id" (entry :: given)) as [values |] eqn:Hget.
    + eexists. split; [apply Htrace |].
      cbn -[dict_get dict_set upper lower]. rewrite ?Hget.
      repeat split; reflexivity.
    + eexists. split; [apply Htrace |].
      cbn -[dict_get dict_set upper lower].
      repeat split; try reflexivity.
      * apply dict_get_set_same.
      * now rewrite dict_set_absent.
  - eexists. split; [apply Htrace |]. repeat split; reflexivity.
Qed.

(** X29: [list_campaigns] returns the listed campaigns tagged with the
    tenant, all of them and no other, in the order listed; when the
    service refuses the request the answer is the empty list, as for a
    tenant without campaigns. *)
Theorem list_campaigns_of_the_tenant (tenant_id : string) :
  (forall listed, api_get_campaigns client = Ok listed ->
     exists campaigns,
       list_campaigns application_id client tenant_id
       = ([get_campaigns_request application_id], Ok campaigns) /\
       (forall c, In c campaigns ->
          dict_get "TenantId" (cs_tags c) = Some tenant_id) /\
       List.map cs_campaign_id campaigns
       = List.map Id
           (List.filter
              (fun l => bool_decide
                          (dict_get "TenantId" (default [] (tags l)) = Some tenant_id))
              listed)) /\
  (forall code text, api_get_campaigns client = Raise (ClientError code text) ->
     list_campaigns application_id client tenant_id
     = ([get_campaigns_request application_id], Ok [])).
Proof.
  split.
  - intros listed Hlisted. unfold list_campaigns, recover, bind, invoke, ret.
    rewrite Hlisted. eexists. split; [reflexivity |]. split.
    + intros c Hin. apply in_map_iff in Hin as (l & <- & Hl).
      apply filter_In in Hl as [_ Hl]. cbn [cs_tags].
      destruct (dict_get "TenantId" (default [] (tags l))) as [t |]; [| discriminate].
      apply String.eqb_eq in Hl as ->. reflexivity.
    + rewrite List.map_map. cbn [cs_campaign_id]. f_equal.
      apply filter_ext. intros l.
      destruct (dict_get "TenantId" (default [] (tags l))) as [t |].
      * destruct (String.eqb t tenant_id) eqn:E.
        -- apply String.eqb_eq in E as ->. symmetry. now apply bool_decide_eq_true.
        -- symmetry. apply bool_decide_eq_false. intros [= ->].
           rewrite String.eqb_refl in E. discriminate.
      * symmetry. now apply bool_decide_eq_false.
  - intros code text Hfail. unfold list_campaigns, recover, bind, invoke, ret.
    rewrite Hfail. reflexivity.
Qed.

End Facts.

Section Recommendations.
Variable application_id : string.
Variable from_address : string.
Variable format_2f : float -> string.
Variable send_messages : Pinpoint.message_request -> result string.

(** X30: an email of recommendations shows the first five only: the
    request issued for a list is the request issued for its first five
    entries, while [recommendations_count] in the answer counts the whole
    list. *)
Theorem email_shows_first_five (tenant_id user_id template_name : string)
    (recommendations : list Pinpoint.recommendation) :
  fst (Pinpoint.send_personalized_recommendations application_id from_address
         format_2f send_messages tenant_id user_id recommendations "email"
         template_name)
  = fst (Pinpoint.send_personalized_recommendations application_id from_address
           format_2f send_messages tenant_id user_id (firstn 5 recommendations)
           "email" template_name) /\
  forall info,
    snd (Pinpoint.send_personalized_recommendations application_id from_address
           format_2f send_messages tenant_id user_id recommendations "email"
           template_name) = Ok info ->
    Pinpoint.recommendations_count info = Z.of_nat (length recommendations).
Proof.
  unfold Pinpoint.send_personalized_recommendations, Pinpoint.build_message_config.
  cbn [String.eqb Ascii.eqb Bool.eqb fst snd].
  unfold Pinpoint.email_html, Pinpoint.top5.
  rewrite firstn_firstn. change (Nat.min 5 5) with 5%nat. split; [reflexivity |].
  intros info. destruct (send_messages _) as [message_id | []]; cbn;
    try discriminate.
  intros [= <-]. reflexivity.
Qed.

End Recommendations.

Lemma segment_filters_on_the_tenant_witness :
  exists segment_request,
    fst (create_segment "app" PinpointCampaignsDouble.healthy "1970-01-01T00:00:00"
           "t1" "vip" ["u1"]
           (Some [("tenant_id", inclusive ["t2"]); ("country", inclusive ["NL"])]))
    = [create_segment_request "app" segment_request] /\
    dict_get "tenant_id" (sr_UserAttributes segment_request) = Some (inclusive ["t1"]) /\
    dict_get "country" (sr_UserAttributes segment_request) = Some (inclusive ["NL"]).
Proof.
  assert (Hnd : NoDup (List.map fst
            [("tenant_id"%string, inclusive ["t2"]); ("country"%string, inclusive ["NL"])])).
  { cbn. repeat constructor; rewrite ?list_elem_of_In; cbn; intuition discriminate. }
  destruct (segment_filters_on_the_tenant "app" PinpointCampaignsDouble.healthy
              "1970-01-01T00:00:00" "t1" "vip" ["u1"] _ Hnd)
    as (r & Hr & _ & Htenant & _ & Hother).
  exists r. split; [exact Hr |]. split; [exact Htenant |].
  apply Hother; [cbn; auto | discriminate | left; discriminate].
Defined.

Lemma campaign_stays_when_sending_fails_witness :
  exists r m,
    send_sms_campaign "app" PinpointCampaignsDouble.cannot_send "1970-01-01T00:00:00"
      "t1" "sale" "s-1" "Sale today" None
    = ([create_campaign_request "app" r; send_messages_request "app" m ["s-1"]],
       Raise (Exception "SMS campaign failed: slow down")).
Proof.
  exact (proj2 (campaign_stays_when_sending_fails "app" "noreply@example.com"
                  PinpointCampaignsDouble.cannot_send "1970-01-01T00:00:00"
                  "t1" "sale" "s-1" "Sale" "<p>Sale</p>" "Sale today" None
                  "c-1" "TooManyRequestsException" "slow down"
                  (fun _ => eq_refl) (fun _ => eq_refl))).
Defined.

(** A campaign scheduled for second 100, and the same campaign sent at
    once, against the service that accepts every request. *)
Lemma scheduling_fails_after_create_witness :
  (exists r,
     send_sms_campaign "app" PinpointCampaignsDouble.healthy "1970-01-01T00:00:00"
       "t1" "sale" "s-1" "Sale today" (Some (RuntimeDouble.at_second 100))
     = ([create_campaign_request "app" r],
        Raise (AttributeError
                 "'Pinpoint' object has no attribute 'put_campaign_activities'"))) /\
  (exists r,
     send_sms_campaign "app" PinpointCampaignsDouble.healthy "1970-01-01T00:00:00"
       "t1" "sale" "s-1" "Sale today" None
     = ([create_campaign_request "app" r;
         send_messages_request "app" (SMSMessage "Sale today" "PROMOTIONAL") ["s-1"]],
        Ok {| cmi_campaign_id := "c-1";
              cmi_campaign_name := "sale";
              cmi_tenant_id := "t1";
              cmi_status := "SENT";
              cmi_segment_id := "s-1" |})).
Proof.
  split.
  - destruct (scheduling_fails_after_create "app" PinpointCampaignsDouble.healthy
                "1970-01-01T00:00:00" "t1" "sale" "s-1" "Sale today" "c-1"
                (Some (RuntimeDouble.at_second 100))
                (fun _ => eq_refl) (fun _ => eq_refl))
      as (r & _ & _ & H).
    exists r. exact H.
  - destruct (scheduling_fails_after_create "app" PinpointCampaignsDouble.healthy
                "1970-01-01T00:00:00" "t1" "sale" "s-1" "Sale today" "c-1" None
                (fun _ => eq_refl) (fun _ => eq_refl))
      as (r & _ & _ & H).
    exists r. exact H.
Defined.

End PinpointCampaignsFacts.
